(** * Capability predicates and backend dispatch of scikit-learn-intelex

    A shallow embedding of
      - [sklearnex/preview/cluster/k_means.py]   (class [KMeans]),
      - [sklearnex/decomposition/pca.py]         (class [PCA]),
      - [scripts/version.py]                     ([get_onedal_version]),
      - [.ci/scripts/get_compatible_scipy_version.py],
      - [sklearnex/tests/test_n_jobs_support.py]  (the helpers of the test),
    together with the properties the specification states about them.

    Python objects are modelled by their attribute dictionary (a [gmap] from
    attribute names to values); methods are state transformers over the
    receiver, the standard output and the log of backend invocations, and
    return either a value or a raised exception. *)

From Stdlib Require Import ZArith Lia String Ascii List.
From Stdlib Require Import DecimalString DecimalPos DecimalN.
From Stdlib Require QArith_base.
From Corelib Require Import SpecFloat.
From stdpp Require Import base strings gmap list.

Local Open Scope string_scope.
Local Open Scope Z_scope.

(** ** Python values, exceptions and the method monad *)

(** Exceptions raised by the modelled code, with their message or the name
    they complain about. *)
Inductive exn : Type :=
  | AssertionError
  | AttributeError (attr : string)
  | TypeError (msg : string)
  | ValueError (msg : string)
  | KeyError (key : string)
  | RuntimeError (msg : string).

Inductive outcome (A : Type) : Type :=
  | Returns (a : A)
  | Raises (e : exn).
Arguments Returns {A} a.
Arguments Raises {A} e.

(** What the code inspects of an array-like argument: whether it is a
    [scipy.sparse] matrix, its element type and its shape. *)
Record array_info : Type := mk_array {
  sparse : bool;
  dtype : string;
  shape : list nat
}.

(** The values that estimator attributes and call arguments take.  A float
    is an IEEE 754 binary64 number, in the specification of floating-point
    arithmetic of the standard library.  [VOpaque] stands for any other
    object (a callable [init], a random state, a fitted backend estimator). *)
Inductive pyval : Type :=
  | VNone
  | VBool (b : bool)
  | VInt (z : Z)
  | VFloat (f : spec_float)
  | VStr (s : string)
  | VArray (a : array_info)
  | VOpaque (tag : string).

(** An estimator instance: its class (name and class-level attributes) and
    its instance dictionary. *)
Record obj : Type := mk_obj {
  class_name : string;
  class_dict : gmap string pyval;
  dict : gmap string pyval
}.

(** The state a method runs in: the receiver [self], the lines printed so
    far (latest first) and the backend callables invoked so far (latest
    first). *)
Record state : Type := mk_state {
  self : obj;
  stdout : list string;
  invoked : list string
}.

Definition M (A : Type) : Type := state -> outcome A * state.

Definition ret {A} (a : A) : M A := fun s => (Returns a, s).
Definition raise {A} (e : exn) : M A := fun s => (Raises e, s).
Definition bind {A B} (m : M A) (k : A -> M B) : M B :=
  fun s => match m s with
           | (Returns a, s') => k a s'
           | (Raises e, s') => (Raises e, s')
           end.

Declare Scope py_scope.
Delimit Scope py_scope with py.
Notation "'let!' x ':=' m 'in' k" := (bind m (fun x => k))
  (at level 10, x name, m at level 100, k at level 200) : py_scope.
Local Open Scope py_scope.

Definition lift {A} (r : outcome A) : M A := fun s => (r, s).

(** [assert c] *)
Definition assert (c : bool) : M unit :=
  if c then ret tt else raise AssertionError.

(** Attribute lookup [o.a]: the instance dictionary first, then the class. *)
Definition lookup_attr (o : obj) (a : string) : option pyval :=
  match dict o !! a with
  | Some v => Some v
  | None => class_dict o !! a
  end.

(** [self.a] *)
Definition getattr (a : string) : M pyval :=
  fun s => match lookup_attr (self s) a with
           | Some v => (Returns v, s)
           | None => (Raises (AttributeError a), s)
           end.

(** [hasattr(self, a)] *)
Definition hasattr (a : string) : M bool :=
  fun s => (Returns (bool_decide (is_Some (lookup_attr (self s) a))), s).

Definition set_dict (o : obj) (a : string) (v : pyval) : obj :=
  mk_obj (class_name o) (class_dict o) (<[a := v]> (dict o)).

(** [self.a = v] *)
Definition setattr (a : string) (v : pyval) : M unit :=
  fun s => (Returns tt, mk_state (set_dict (self s) a v) (stdout s) (invoked s)).

(** [self.__class__.__name__] *)
Definition get_class_name : M string :=
  fun s => (Returns (class_name (self s)), s).

(** [print(line)] *)
Definition print (line : string) : M unit :=
  fun s => (Returns tt, mk_state (self s) (line :: stdout s) (invoked s)).

(** ** Builtins and library functions the predicates call *)

(** [scipy.sparse.issparse] *)
Definition issparse (v : pyval) : bool :=
  match v with
  | VArray a => sparse a
  | _ => false
  end.

(** *** Floats *)

(** The product of two floats, rounded to the nearest float, ties to even. *)
Definition float_mul (f g : spec_float) : spec_float := SFmul 53 1024 f g.

(** The float an integer converts to: the nearest one, ties to even. *)
Definition float_of_int (z : Z) : spec_float :=
  binary_normalize 53 1024 z 0 false.

(** The number a finite float stands for, [(-1)^s * m * 2^e], as a
    fraction. *)
Definition float_value (f : spec_float) : option QArith_base.Q :=
  match f with
  | S754_zero _ => Some (QArith_base.inject_Z 0)
  | S754_finite negative m e =>
      let num := if negative then Z.neg m else Z.pos m in
      Some (if 0 <=? e then QArith_base.inject_Z (num * 2 ^ e)
            else QArith_base.Qmake num (Z.to_pos (2 ^ (- e))))
  | _ => None
  end.

(** The order of a float and an integer.  Python decides it on the exact
    values, without rounding the integer.  Not-a-number is not ordered. *)
Definition compare_float_int (f : spec_float) (z : Z) : option comparison :=
  match f with
  | S754_nan => None
  | S754_infinity negative => Some (if negative then Lt else Gt)
  | S754_zero _ => Some (0 ?= z)
  | S754_finite negative m e =>
      let num := if negative then Z.neg m else Z.pos m in
      Some (if 0 <=? e then num * 2 ^ e ?= z else num ?= z * 2 ^ (- e))
  end.

(** [f < z], [f >= z] and [f == z] for a float and an integer *)
Definition float_lt_int (f : spec_float) (z : Z) : bool :=
  match compare_float_int f z with
  | Some Lt => true
  | _ => false
  end.

Definition float_ge_int (f : spec_float) (z : Z) : bool :=
  match compare_float_int f z with
  | Some Eq | Some Gt => true
  | _ => false
  end.

Definition float_gt_int (f : spec_float) (z : Z) : bool :=
  match compare_float_int f z with
  | Some Gt => true
  | _ => false
  end.

Definition float_eq_int (f : spec_float) (z : Z) : bool :=
  match compare_float_int f z with
  | Some Eq => true
  | _ => false
  end.

(** The name of the type of a value, as error messages show it; the class
    of an opaque object is not known to the model. *)
Definition type_name (v : pyval) : string :=
  match v with
  | VNone => "NoneType"
  | VBool _ => "bool"
  | VInt _ => "int"
  | VFloat _ => "float"
  | VStr _ => "str"
  | VArray _ => "numpy.ndarray"
  | VOpaque _ => "object"
  end.

(** The [TypeError] of an ordering that the two operands do not support. *)
Definition not_supported (op : string) (left right : string) : exn :=
  TypeError ("'" +:+ op +:+ "' not supported between instances of '" +:+
             left +:+ "' and '" +:+ right +:+ "'").

(** Python's [==] on the modelled values: numbers compare by value
    ([True == 1], [2.0 == 2]). *)
Definition py_eq (x y : pyval) : bool :=
  match x, y with
  | VNone, VNone => true
  | VBool a, VBool b => Bool.eqb a b
  | VBool a, VInt z | VInt z, VBool a => Z.eqb (Z.b2z a) z
  | VInt a, VInt b => Z.eqb a b
  | VFloat f, VInt z | VInt z, VFloat f => float_eq_int f z
  | VFloat f, VBool a | VBool a, VFloat f => float_eq_int f (Z.b2z a)
  | VFloat f, VFloat g => SFeqb f g
  | VStr a, VStr b => String.eqb a b
  | _, _ => false
  end.

(** [x in l] for a list [l] *)
Definition py_in (x : pyval) (l : list pyval) : bool :=
  existsb (py_eq x) l.

(** [x < n] for an integer [n]: integers, booleans and floats compare by
    value, any other modelled value raises [TypeError]. *)
Definition py_lt_int (x : pyval) (n : Z) : outcome bool :=
  match x with
  | VInt k => Returns (k <? n)
  | VBool b => Returns (Z.b2z b <? n)
  | VFloat f => Returns (float_lt_int f n)
  | _ => Raises (not_supported "<" (type_name x) "int")
  end.

(** [sklearn.utils.validation._num_samples], a function of scikit-learn:
    the first dimension of an array, the length of a sequence; a 0-d array
    or a value without a length raises [TypeError].  The message of the 0-d
    case quotes the array where [%r] stands: the model does not hold the
    elements of an array, and the message is given with the placeholder. *)
Definition _num_samples (x : pyval) : outcome Z :=
  match x with
  | VArray a =>
      match shape a with
      | [] => Raises (TypeError "Singleton array %r cannot be considered a valid collection.")
      | n :: _ => Returns (Z.of_nat n)
      end
  | VStr s => Returns (Z.of_nat (String.length s))
  | _ => Raises (TypeError ("Expected sequence or array-like, got <class '" +:+
                            type_name x +:+ "'>"))
  end.

(** ** The conditions chain *)

(** Modelled from the spec: [PatchingConditionsChain] ([sklearnex/_utils.py])
    is not among the sources.  The specification describes the decision value
    as "a boolean plus a human-readable chain of named conditions and their
    pass/fail outcome", where "all conditions must pass (logical AND)". *)
Record PatchingConditionsChain : Type := mk_chain {
  scope_name : string;
  patching_is_enabled : bool;
  conditions : list (string * bool)
}.

(** Modelled from the spec: [PatchingConditionsChain(scope_name)], with no
    condition recorded yet. *)
Definition new_chain (scope : string) : PatchingConditionsChain :=
  mk_chain scope true [].

(** Modelled from the spec: [chain.and_conditions([(passed, description),
    ...])] records every condition with its outcome and keeps the verdict
    only if all of them pass. *)
Definition and_conditions (ps : PatchingConditionsChain)
    (conds : list (bool * string)) : PatchingConditionsChain :=
  mk_chain (scope_name ps)
           (patching_is_enabled ps && forallb fst conds)
           (conditions ps ++ map (fun c => (snd c, fst c)) conds).

(** What a capability predicate hands back: Python is untyped, and the two
    estimators return different kinds of value. *)
Inductive decision : Type :=
  | Bare (b : bool)
  | Chain (ps : PatchingConditionsChain).

(** Whether the decision lets the accelerated backend run. *)
Definition passes (d : decision) : bool :=
  match d with
  | Bare b => b
  | Chain ps => patching_is_enabled ps
  end.

(** A call to library code that runs on [self] outside of any dispatch. *)
Definition callable : Type := obj -> list pyval -> outcome pyval * obj.

Definition call (f : callable) (args : list pyval) : M pyval :=
  fun s => let '(r, o) := f (self s) args in
           (r, mk_state o (stdout s) (invoked s)).

(** ** Version probing *)

(** A release number, most significant segment first: [1.2] is [[1; 2]]. *)
Definition release : Type := list nat.

Definition digit_of (c : ascii) : nat := (nat_of_ascii c - 48)%nat.

Fixpoint parse_release_from (s : string) (cur : nat) (done : list nat)
    : release :=
  match s with
  | EmptyString => rev (cur :: done)
  | String c rest =>
      if Ascii.eqb c "."
      then parse_release_from rest 0%nat (cur :: done)
      else parse_release_from rest (10 * cur + digit_of c)%nat done
  end.

(** [Version(ver)] for a dotted numeral such as ["0.24"]. *)
Definition Version (ver : string) : release := parse_release_from ver 0%nat [].

Definition all_zero (l : release) : bool := forallb (Nat.eqb 0) l.

(** Comparison of releases: segment by segment, a missing segment counts as
    zero ([1.2 == 1.2.0]). *)
Fixpoint release_cmp (a b : release) : comparison :=
  match a, b with
  | [], _ => if all_zero b then Eq else Lt
  | _, [] => if all_zero a then Eq else Gt
  | x :: a', y :: b' =>
      match Nat.compare x y with
      | Eq => release_cmp a' b'
      | c => c
      end
  end.

Definition release_le (a b : release) : Prop := release_cmp a b <> Gt.

(** Modelled from the spec: [sklearn_check_version]
    ([daal4py/sklearn/_utils.py]) is not among the sources.  The specification
    describes it as the boolean query "is library feature X available at
    version >= Y"; [installed] is the release of scikit-learn in the process. *)
Definition sklearn_check_version (installed : release) (ver : string) : bool :=
  match release_cmp (Version ver) installed with
  | Gt => false
  | _ => true
  end.

(** ** The dispatcher *)

Module Dispatch.

(** The capability predicates every dispatched estimator class provides. *)
Record predicates : Type := mk_predicates {
  _onedal_gpu_supported : string -> list pyval -> M decision;
  _onedal_cpu_supported : string -> list pyval -> M decision
}.

Inductive backend : Type :=
  | accelerated_device
  | accelerated_host
  | reference.

(** The fixed priority order. *)
Definition priority : list backend :=
  [accelerated_device; accelerated_host; reference].

(** Where the call is asked to run; selecting it is left to an external
    collaborator. *)
Inductive device_context : Type :=
  | on_host
  | on_accelerator.

Definition available (ctx : device_context) (b : backend) : bool :=
  match b, ctx with
  | accelerated_device, on_host => false
  | _, _ => true
  end.

(** Modelled from the spec: the execution of the chosen backend,
    [branches[key](obj, *args)].  A missing key is a [KeyError]; running the
    callable is recorded in [invoked]. *)
Definition invoke (branches : gmap string callable) (key : string)
    (args : list pyval) : M pyval :=
  fun s => match branches !! key with
           | None => (Raises (KeyError key), s)
           | Some f =>
               let '(r, o) := f (self s) args in
               (r, mk_state o (stdout s) (key :: invoked s))
           end.

(** Modelled from the spec: the walk over the candidate backends in
    priority order, which [dispatch] below starts. *)
Fixpoint try_backends (cls : predicates) (method_name : string)
    (branches : gmap string callable) (args : list pyval)
    (candidates : list backend) : M pyval :=
  match candidates with
  | [] => raise (RuntimeError "Undefined backend")
  | accelerated_device :: rest =>
      let! d := _onedal_gpu_supported cls method_name args in
      if passes d then invoke branches "onedal" args
      else try_backends cls method_name branches args rest
  | accelerated_host :: rest =>
      let! d := _onedal_cpu_supported cls method_name args in
      if passes d then invoke branches "onedal" args
      else try_backends cls method_name branches args rest
  | reference :: _ => invoke branches "sklearn" args
  end.

(** The question [try_backends] asks on its way: whether some accelerated
    candidate passes, asked in the same order and stopping at the first
    that does. *)
Fixpoint accelerated_among (cls : predicates) (method_name : string)
    (args : list pyval) (candidates : list backend) : M bool :=
  match candidates with
  | [] => ret false
  | accelerated_device :: rest =>
      let! d := _onedal_gpu_supported cls method_name args in
      if passes d then ret true
      else accelerated_among cls method_name args rest
  | accelerated_host :: rest =>
      let! d := _onedal_cpu_supported cls method_name args in
      if passes d then ret true
      else accelerated_among cls method_name args rest
  | reference :: _ => ret false
  end.

Definition accelerated_verdict (ctx : device_context) (cls : predicates)
    (method_name : string) (args : list pyval) : M bool :=
  accelerated_among cls method_name args
    (List.filter (available ctx) priority).

(** Modelled from the spec: [dispatch] ([sklearnex/_device_offload.py]) is
    not among the sources.  The specification gives its contract as
    [dispatch(estimator, method_name, {backend_name: callable, ...}, *args)]:
    "for each available backend in a fixed priority order (e.g.,
    accelerated-device, accelerated-host, reference), query the Capability
    Predicate; execute the first backend whose predicate passes", the
    reference being tried last.  Neither the sources nor the specification
    say what the dispatcher does with an exception of a predicate: here it
    ends the call, and the properties below speak of predicates that
    return. *)
Definition dispatch (ctx : device_context) (cls : predicates)
    (method_name : string) (branches : gmap string callable)
    (args : list pyval) : M pyval :=
  try_backends cls method_name branches args
    (List.filter (available ctx) priority).

End Dispatch.

(** The verdict of a predicate call that may also raise: it reports the
    accelerated backend as supported when it returns a passing decision. *)
Definition reports_supported (r : outcome decision) : Prop :=
  exists d, r = Returns d /\ passes d = true.

(** [v is None] *)
Definition is_none (v : pyval) : bool :=
  match v with
  | VNone => true
  | _ => false
  end.

(** The integer a value compares as, if any. *)
Definition int_value (v : pyval) : option Z :=
  match v with
  | VInt k => Some k
  | VBool b => Some (Z.b2z b)
  | _ => None
  end.

(** [v] is a number strictly below the integer [n]: an integer or a boolean
    by its value, a float by the number it stands for; minus infinity is
    below every integer, not-a-number and plus infinity below none. *)
Definition number_below (v : pyval) (n : Z) : Prop :=
  (exists k, int_value v = Some k /\ k < n) \/
  (exists f q, v = VFloat f /\ float_value f = Some q /\
               QArith_base.Qlt q (QArith_base.inject_Z n)) \/
  v = VFloat (S754_infinity true).

(** The float [1e-4], the default [tol] of KMeans: 0x1.a36e2eb1c432dp-14. *)
Definition tol_default : spec_float :=
  S754_finite false 7378697629483821 (-66).

(** ** [sklearnex.preview.cluster.KMeans] *)

Module KMeans.

(** Class-level attributes: [n_iter_, inertia_ = None, None] and
    [labels_, cluster_centers_ = None, None]. *)
Definition class_attrs : gmap string pyval :=
  <["n_iter_" := VNone]> (<["inertia_" := VNone]>
  (<["labels_" := VNone]> (<["cluster_centers_" := VNone]> ∅))).

(** [KMeans.__init__]: the parent constructor stores every parameter as an
    attribute of the same name. *)
Definition __init__ (n_clusters init n_init max_iter tol verbose
    random_state copy_x algorithm : pyval) : obj :=
  mk_obj "KMeans" class_attrs
    (<["n_clusters" := n_clusters]> (<["init" := init]>
    (<["max_iter" := max_iter]> (<["tol" := tol]>
    (<["n_init" := n_init]> (<["verbose" := verbose]>
    (<["random_state" := random_state]> (<["copy_x" := copy_x]>
    (<["algorithm" := algorithm]> ∅))))))))).

Definition supported_algs : list pyval :=
  [VStr "auto"; VStr "full"; VStr "lloyd"].

Definition _onedal_fit_supported (method_name : string)
    (X y sample_weight : pyval) : M decision :=
  let! _ := assert (String.eqb method_name "fit") in
  let! class_name := get_class_name in
  let patching_status :=
    new_chain ("sklearn.cluster." +:+ class_name +:+ ".fit") in
  let! sample_count := lift (_num_samples X) in
  let! alg := getattr "algorithm" in
  let! _ := setattr "_algorithm" alg in
  let! n_clusters := getattr "n_clusters" in
  let! correct_count := lift (py_lt_int n_clusters sample_count) in
  let! algorithm := getattr "algorithm" in
  let! init := getattr "init" in
  ret (Chain (and_conditions patching_status
    [ (py_in algorithm supported_algs, "Only lloyd algorithm is supported.");
      (negb (issparse init), "Sparse init values are not supported");
      (correct_count, "n_clusters is smaller than number of samples");
      (is_none sample_weight, "Sample weight is not None.");
      (negb (issparse X), "Sparse input is not supported.") ])).

Definition _onedal_predict_supported (method_name : string) (X : pyval)
    : M decision :=
  let! _ := assert (String.eqb method_name "predict") in
  let! class_name := get_class_name in
  let patching_status :=
    new_chain ("sklearn.cluster." +:+ class_name +:+ ".predict") in
  let! centers := getattr "cluster_centers_" in
  let dense_centers := negb (issparse centers) in
  let! algorithm := getattr "algorithm" in
  ret (Chain (and_conditions patching_status
    [ (py_in algorithm supported_algs, "Only lloyd algorithm is supported.");
      (dense_centers, "Sparse clusters is not supported.");
      (negb (issparse X), "Sparse input is not supported.") ])).

(** [*data] is unpacked into the parameters of the callee; a wrong number
    of positional arguments is a [TypeError]. *)
Definition _onedal_supported (method_name : string) (data : list pyval)
    : M decision :=
  if String.eqb method_name "fit" then
    match data with
    | [X] => _onedal_fit_supported method_name X VNone VNone
    | [X; y] => _onedal_fit_supported method_name X y VNone
    | [X; y; sample_weight] =>
        _onedal_fit_supported method_name X y sample_weight
    | _ => raise (TypeError "_onedal_fit_supported() arguments")
    end
  else if String.eqb method_name "predict" then
    match data with
    | [X] => _onedal_predict_supported method_name X
    | _ => raise (TypeError "_onedal_predict_supported() arguments")
    end
  else
    let! class_name := get_class_name in
    raise (RuntimeError
             ("Unknown method " +:+ method_name +:+ " in " +:+ class_name)).

Definition _onedal_gpu_supported (method_name : string) (data : list pyval)
    : M decision :=
  _onedal_supported method_name data.

Definition _onedal_cpu_supported (method_name : string) (data : list pyval)
    : M decision :=
  _onedal_supported method_name data.

Definition cls : Dispatch.predicates :=
  Dispatch.mk_predicates _onedal_gpu_supported _onedal_cpu_supported.

(** The public methods.  What they call outside of this class is kept
    abstract: the installed scikit-learn release, the validation helpers
    of the parent class, the two fitting and the two predicting callables,
    the device the call runs on, and the adaptation of the output done by
    the [wrap_output_data] decorator. *)
Section Methods.
Variable installed : release.
Variable ctx : Dispatch.device_context.
Variables _check_feature_names _validate_params : callable.
Variables _onedal_fit sklearn_KMeans_fit : callable.
Variables _onedal_predict sklearn_KMeans_predict : callable.
Variable wrap_output_data : list pyval -> pyval -> pyval.

Definition fit_branches : gmap string callable :=
  <["onedal" := _onedal_fit]> (<["sklearn" := sklearn_KMeans_fit]> ∅).

Definition predict_branches : gmap string callable :=
  <["onedal" := _onedal_predict]> (<["sklearn" := sklearn_KMeans_predict]> ∅).

Definition validate (X : pyval) : M unit :=
  let! _ := if sklearn_check_version installed "1.0"
            then call _check_feature_names [X; VBool true]
            else ret VNone in
  let! _ := if sklearn_check_version installed "1.2"
            then call _validate_params []
            else ret VNone in
  ret tt.

Definition fit (X y sample_weight : pyval) : M obj :=
  let! _ := validate X in
  let! _ := Dispatch.dispatch ctx cls "fit" fit_branches
              [X; y; sample_weight] in
  fun s => (Returns (self s), s).

Definition predict (X : pyval) : M pyval :=
  let! _ := validate X in
  let! r := Dispatch.dispatch ctx cls "predict" predict_branches [X] in
  ret (wrap_output_data [X] r).
End Methods.

(** The five named conditions of the fit predicate, as the specification
    lists them. *)
Definition fit_conditions (o : obj) (X sample_weight : pyval) : Prop :=
  (exists a, lookup_attr o "algorithm" = Some (VStr a) /\
             (a = "auto" \/ a = "full" \/ a = "lloyd")) /\
  (exists i, lookup_attr o "init" = Some i /\ issparse i = false) /\
  (exists v n, lookup_attr o "n_clusters" = Some v /\
               _num_samples X = Returns n /\ number_below v n) /\
  sample_weight = VNone /\
  issparse X = false.

End KMeans.

(** ** [sklearnex.decomposition.PCA] *)

(** [str(v)], as the error messages format a value.  The text of a float,
    of an array and of an opaque object is not modelled: a mark stands for
    it. *)
Definition py_str (v : pyval) : string :=
  match v with
  | VNone => "None"
  | VBool true => "True"
  | VBool false => "False"
  | VInt z => NilEmpty.string_of_int (Z.to_int z)
  | VFloat _ => "<float>"
  | VStr s => s
  | VArray _ => "<array>"
  | VOpaque tag => tag
  end.

(** [x >= n] for an integer [n] *)
Definition py_ge_int (x : pyval) (n : Z) : outcome bool :=
  match x with
  | VFloat f => Returns (float_ge_int f n)
  | _ =>
      match int_value x with
      | Some k => Returns (n <=? k)
      | None => Raises (not_supported ">=" (type_name x) "int")
      end
  end.

(** [x < g] for a float [g] *)
Definition py_lt_float (x : pyval) (g : spec_float) : outcome bool :=
  match x with
  | VFloat f => Returns (SFltb f g)
  | _ =>
      match int_value x with
      | Some k => Returns (float_gt_int g k)
      | None => Raises (not_supported "<" (type_name x) "float")
      end
  end.

(** [X.shape] *)
Definition shape_of (X : pyval) : outcome (list nat) :=
  match X with
  | VArray a => Returns (shape a)
  | _ => Raises (AttributeError "shape")
  end.

(** [min(l)] and [max(l)] of a tuple of dimensions *)
Definition py_min (l : list nat) : outcome nat :=
  match l with
  | [] => Raises (ValueError "min() arg is an empty sequence")
  | n :: rest => Returns (fold_left Nat.min rest n)
  end.

Definition py_max (l : list nat) : outcome nat :=
  match l with
  | [] => Raises (ValueError "max() arg is an empty sequence")
  | n :: rest => Returns (fold_left Nat.max rest n)
  end.

Module PCA.

Definition __init__ (n_components copy whiten svd_solver tol iterated_power
    n_oversamples power_iteration_normalizer random_state : pyval) : obj :=
  mk_obj "PCA" ∅
    (<["n_components" := n_components]> (<["copy" := copy]>
    (<["whiten" := whiten]> (<["svd_solver" := svd_solver]>
    (<["tol" := tol]> (<["iterated_power" := iterated_power]>
    (<["n_oversamples" := n_oversamples]>
    (<["power_iteration_normalizer" := power_iteration_normalizer]>
    (<["random_state" := random_state]> ∅))))))))).

Definition unknown_method (method_name : string) : M decision :=
  let! class_name := get_class_name in
  raise (RuntimeError
           ("Unknown method " +:+ method_name +:+ " in " +:+ class_name)).

Definition _onedal_gpu_supported (method_name : string) (data : list pyval)
    : M decision :=
  let! _ := print "call _onedall_gpu_supported" in
  if String.eqb method_name "decomposition.PCA.fit" then
    let! solver := getattr "_fit_svd_solver" in
    ret (Bare (py_eq solver (VStr "cov")))
  else if String.eqb method_name "decomposition.PCA.transform" then
    let! fitted := hasattr "_onedal_estimator" in
    ret (Bare fitted)
  else unknown_method method_name.

Definition _onedal_cpu_supported (method_name : string) (data : list pyval)
    : M decision :=
  if String.eqb method_name "decomposition.PCA.fit" then
    let! solver := getattr "_fit_svd_solver" in
    ret (Bare (py_in solver [VStr "cov"; VStr "full"]))
  else if String.eqb method_name "decomposition.PCA.transform" then
    let! fitted := hasattr "_onedal_estimator" in
    ret (Bare fitted)
  else unknown_method method_name.

Definition cls : Dispatch.predicates :=
  Dispatch.mk_predicates _onedal_gpu_supported _onedal_cpu_supported.

(** The float [0.8], which is 0x1.999999999999ap-1. *)
Definition four_fifths : spec_float :=
  S754_finite false 7205759403792794 (-53).

(** [0.8 * min(X.shape)] and [n_components < 0.8 * min(X.shape)] as Python
    evaluates them: the smallest dimension (a machine integer) is converted
    to a float and multiplied by the float 0.8, the product is rounded to the
    nearest float, and [n_components] is compared with that float, an
    integer by its exact value. *)
Definition scaled_min (smallest : nat) : spec_float :=
  float_mul four_fifths (float_of_int (Z.of_nat smallest)).

Definition lt_scaled_min_binary64 (n_components : pyval) (smallest : nat)
    : outcome bool :=
  py_lt_float n_components (scaled_min smallest).

(** [_fit] and [transform].  Kept abstract: the device, the array check of
    the backend package, [check_is_fitted], the callables handed to the
    dispatcher and the parent's truncated fit (called as a plain function on
    its positional arguments).  The comparison
    [n_components < 0.8 * min(X.shape)] is a parameter as well, so that what
    does not depend on floating-point arithmetic is stated without it;
    [lt_scaled_min_binary64] above is the comparison that Python makes. *)
Section Methods.
Variable ctx : Dispatch.device_context.
Variable _check_array : pyval -> pyval -> outcome pyval.
Variable check_is_fitted : obj -> outcome unit.
Variables _onedal_fit sklearn_PCA__fit_full : callable.
Variables _onedal_predict sklearn_PCA_transform : callable.
Variable sklearn_PCA__fit_truncated : list pyval -> outcome pyval.
Variable lt_scaled_min : pyval -> nat -> outcome bool.

Definition fit_full_branches : gmap string callable :=
  <["onedal" := _onedal_fit]> (<["sklearn" := sklearn_PCA__fit_full]> ∅).

Definition fit_cov_branches : gmap string callable :=
  <["onedal" := _onedal_fit]> ∅.

Definition transform_branches : gmap string callable :=
  <["onedal" := _onedal_predict]> (<["sklearn" := sklearn_PCA_transform]> ∅).

(** The resolution of [svd_solver == "auto"]. *)
Definition resolve_auto (dims : list nat) (n_components : pyval)
    : M pyval :=
  let! largest := lift (py_max dims) in
  if (Z.of_nat largest <=? 500) || py_eq n_components (VStr "mle") then
    ret (VStr "full")
  else
    let! at_least_one := lift (py_ge_int n_components 1) in
    if at_least_one then
      let! smallest := lift (py_min dims) in
      let! below := lift (lt_scaled_min n_components smallest) in
      if below then ret (VStr "randomized") else ret (VStr "full")
    else ret (VStr "full").

Definition _fit (X0 : pyval) : M pyval :=
  if issparse X0 then
    raise (TypeError ("PCA does not support sparse input. See " +:+
                      "TruncatedSVD for a possible alternative."))
  else
    let! copy := getattr "copy" in
    let! X := lift (_check_array X0 copy) in
    let! n_components0 := getattr "n_components" in
    let! n_components :=
      (if is_none n_components0 then
         let! svd_solver := getattr "svd_solver" in
         let! dims := lift (shape_of X) in
         let! smallest := lift (py_min dims) in
         if negb (py_eq svd_solver (VStr "arpack"))
         then ret (VInt (Z.of_nat smallest))
         else ret (VInt (Z.of_nat smallest - 1))
       else getattr "n_components") in
    let! svd_solver := getattr "svd_solver" in
    let! _ := setattr "_fit_svd_solver" svd_solver in
    let! chosen := getattr "_fit_svd_solver" in
    let! _ :=
      (if py_eq chosen (VStr "auto") then
         let! dims := lift (shape_of X) in
         let! resolved := resolve_auto dims n_components in
         setattr "_fit_svd_solver" resolved
       else ret tt) in
    let! solver := getattr "_fit_svd_solver" in
    if py_eq solver (VStr "full") then
      Dispatch.dispatch ctx cls "decomposition.PCA.fit"
        fit_full_branches [X]
    else if py_eq solver (VStr "cov") then
      Dispatch.dispatch ctx cls "decomposition.PCA.fit"
        fit_cov_branches [X]
    else if py_in solver [VStr "arpack"; VStr "randomized"] then
      lift (sklearn_PCA__fit_truncated [X; n_components; solver])
    else
      raise (ValueError ("Unrecognized svd_solver='" +:+ py_str solver
                         +:+ "'")).

Definition transform (X0 : pyval) : M pyval :=
  let! _ := (fun s => match check_is_fitted (self s) with
                      | Returns u => (Returns u, s)
                      | Raises e => (Raises e, s)
                      end) in
  let! copy := getattr "copy" in
  let! X := lift (_check_array X0 copy) in
  Dispatch.dispatch ctx cls "decomposition.PCA.transform"
    transform_branches [X].
End Methods.

End PCA.

(** ** The calls handed to the dispatcher *)

(** The five places where the two estimators call [dispatch]. *)
Inductive call_site : Type :=
  | KMeans_fit
  | KMeans_predict
  | PCA_fit_full
  | PCA_fit_cov
  | PCA_transform.

Definition site_cls (c : call_site) : Dispatch.predicates :=
  match c with
  | KMeans_fit | KMeans_predict => KMeans.cls
  | PCA_fit_full | PCA_fit_cov | PCA_transform => PCA.cls
  end.

Definition site_method (c : call_site) : string :=
  match c with
  | KMeans_fit => "fit"
  | KMeans_predict => "predict"
  | PCA_fit_full | PCA_fit_cov => "decomposition.PCA.fit"
  | PCA_transform => "decomposition.PCA.transform"
  end.

(** The backend map written at each call site, for an accelerated and a
    reference callable. *)
Definition site_branches (accelerated reference : callable) (c : call_site)
    : gmap string callable :=
  match c with
  | KMeans_fit => KMeans.fit_branches accelerated reference
  | KMeans_predict => KMeans.predict_branches accelerated reference
  | PCA_fit_full => PCA.fit_full_branches accelerated reference
  | PCA_fit_cov => PCA.fit_cov_branches accelerated
  | PCA_transform => PCA.transform_branches accelerated reference
  end.

Definition dispatched (ctx : Dispatch.device_context)
    (accelerated reference : callable) (c : call_site) (args : list pyval)
    : M pyval :=
  Dispatch.dispatch ctx (site_cls c) (site_method c)
    (site_branches accelerated reference c) args.

(** The state in which the backend is invoked: the one the accelerated
    predicates leave. *)
Definition after_predicates (ctx : Dispatch.device_context) (c : call_site)
    (args : list pyval) (s : state) : state :=
  snd (Dispatch.accelerated_verdict ctx (site_cls c) (site_method c) args s).

(** ** [scripts/version.py] *)

Module OnedalVersion.

(** [p in s] on strings *)
Fixpoint contains (p s : string) : bool :=
  String.prefix p s ||
  match s with
  | EmptyString => false
  | String _ rest => contains p rest
  end.

(** A line of the header is modelled by its characters, one byte each: the
    model is that of ASCII text, and the properties of the parser are stated
    for ASCII headers.  There the decimal digits, which [\d] matches and
    [int] reads, are "0" to "9".  (In other text Python also takes the
    decimal digits of other scripts.) *)
Definition is_digit (c : ascii) : bool :=
  (48 <=? nat_of_ascii c)%nat && (nat_of_ascii c <=? 57)%nat.

Fixpoint is_ascii_text (s : string) : bool :=
  match s with
  | EmptyString => true
  | String c rest => (nat_of_ascii c <? 128)%nat && is_ascii_text rest
  end.

(** The longest run of decimal digits at the start of [s]: what the greedy
    group [(\d+)] captures there. *)
Fixpoint leading_digits (s : string) : string :=
  match s with
  | EmptyString => EmptyString
  | String c rest =>
      if is_digit c then String c (leading_digits rest) else EmptyString
  end.

Fixpoint skip (n : nat) (s : string) : string :=
  match n, s with
  | O, _ => s
  | S n', String _ rest => skip n' rest
  | S _, EmptyString => EmptyString
  end.

(** [re.match('#define MACRO (\d+)', elem)] followed by [.group(1)]: the
    pattern is anchored at the start of the line only. *)
Definition re_match_define (macro elem : string) : option string :=
  let pattern_head := "#define " +:+ macro +:+ " " in
  if String.prefix pattern_head elem then
    match leading_digits (skip (String.length pattern_head) elem) with
    | EmptyString => None
    | digits => Some digits
    end
  else None.

(** [int(s)] on what the loop can hand it, a run of digits or the empty
    string, when no limit on the length of numerals stands in the way. *)
Definition int_of_digits (s : string) : outcome Z :=
  match s with
  | EmptyString =>
      Raises (ValueError "invalid literal for int() with base 10: ''")
  | _ =>
      match NilEmpty.uint_of_string s with
      | Some d => Returns (Z.of_uint d)
      | None =>
          Raises (ValueError
            ("invalid literal for int() with base 10: '" +:+ s +:+ "'"))
      end
  end.

(** The limit of the interpreter on the length of a numeral that [int]
    converts: [max_str_digits] is [sys.get_int_max_str_digits()], 4300
    unless it was set otherwise and 0 when there is no limit (as on
    interpreters that do not have one).  Numerals of up to 640 digits are
    never measured against it; leading zeros count. *)
Definition exceeds_limit (max_str_digits : N) (digits : nat) : bool :=
  (0 <? max_str_digits)%N && (640 <? digits)%nat
  && (max_str_digits <? N.of_nat digits)%N.

(** [int(s)] in an interpreter with the given limit. *)
Definition int (max_str_digits : N) (s : string) : outcome Z :=
  if exceeds_limit max_str_digits (String.length s) then
    Raises (ValueError
      ("Exceeds the limit (" +:+
       NilEmpty.string_of_uint (N.to_uint max_str_digits) +:+
       " digits) for integer string conversion: value has " +:+
       NilEmpty.string_of_uint (Nat.to_uint (String.length s)) +:+
       " digits; use sys.set_int_max_str_digits() to increase the limit"))
  else int_of_digits s.

(** The four local variables of the loop. *)
Record found : Type := mk_found {
  major : string;
  minor : string;
  major_binary : string;
  minor_binary : string
}.

(** One macro test of the loop body: the substring test, then the match. *)
Definition scan (macro elem current : string) : string :=
  if contains ("#define " +:+ macro) elem then
    match re_match_define macro elem with
    | Some digits => digits
    | None => current
    end
  else current.

Definition loop_body (vars : found) (elem : string) : found :=
  mk_found (scan "__INTEL_DAAL__" elem (major vars))
           (scan "__INTEL_DAAL_MINOR__" elem (minor vars))
           (scan "__INTEL_DAAL_MAJOR_BINARY__" elem (major_binary vars))
           (scan "__INTEL_DAAL_MINOR_BINARY__" elem (minor_binary vars)).

Definition obind {A B} (r : outcome A) (k : A -> outcome B) : outcome B :=
  match r with
  | Returns a => k a
  | Raises e => Raises e
  end.

(** [get_onedal_version], on the lines of
    [<dal_root>/include/services/library_version_info.h], in an interpreter
    with the given limit on numerals. *)
Definition get_onedal_version (max_str_digits : N) (header : list string)
    : outcome (Z * (Z * Z)) :=
  let vars := fold_left loop_body header (mk_found "" "" "" "") in
  obind (int max_str_digits (major vars)) (fun major_n =>
  obind (int max_str_digits (minor vars)) (fun minor_n =>
  let version := major_n * 10000 + minor_n * 100 in
  obind (int max_str_digits (major_binary vars)) (fun major_binary_n =>
  obind (int max_str_digits (minor_binary vars)) (fun minor_binary_n =>
  Returns (version, (major_binary_n, minor_binary_n)))))).

(** A line defines [macro] as the number [n]: the pattern matches it and
    the captured numeral reads as [n]. *)
Definition defines (max_str_digits : N) (macro : string) (n : Z)
    (elem : string) : Prop :=
  exists digits,
    re_match_define macro elem = Some digits /\
    int max_str_digits digits = Returns n.

(** The decimal numeral of a number, and whether a text goes on with a
    digit. *)
Definition numeral (n : N) : string := NilEmpty.string_of_uint (N.to_uint n).

Definition starts_with_digit (s : string) : bool :=
  match s with
  | EmptyString => false
  | String c _ => is_digit c
  end.

(** The macro is absent: the pattern matches no line. *)
Definition absent (macro : string) (header : list string) : Prop :=
  Forall (fun elem => re_match_define macro elem = None) header.

(** [elem] is the last line of [header] that the pattern of [macro]
    matches. *)
Definition last_definition (max_str_digits : N) (macro : string) (n : Z)
    (header : list string) : Prop :=
  exists before elem after,
    header = (before ++ elem :: after)%list /\
    defines max_str_digits macro n elem /\
    absent macro after.

End OnedalVersion.

(** ** [.ci/scripts/get_compatible_scipy_version.py] *)

Module ScipyPin.

(** The lines the script prints, given the installed scikit-learn. *)
Definition get_compatible_scipy_version (installed : release)
    : list string :=
  if sklearn_check_version installed "1.2" then ["scipy==1.9"]
  else if sklearn_check_version installed "1.1" then ["scipy==1.8"]
  else if sklearn_check_version installed "1.0" then ["scipy==1.7"]
  else if sklearn_check_version installed "0.24" then ["scipy==1.6"]
  else ["scipy"].

(** The release a requirement line pins, [None] for an unpinned one. *)
Definition pin_of (line : string) : option release :=
  if String.prefix "scipy==" line
  then Some (Version (OnedalVersion.skip 7 line))
  else None.

(** Pins ordered by release, the unpinned requirement below all. *)
Definition pin_le (p q : option release) : Prop :=
  match p, q with
  | None, _ => True
  | Some _, None => False
  | Some a, Some b => release_le a b
  end.

End ScipyPin.

(** ** Notions the properties are stated with *)

(** A method keeps a relation between the state it starts in and the state
    it ends in, whether it returns or raises. *)
Definition preserves {A} (R : relation state) (m : M A) : Prop :=
  forall s, R s (snd (m s)).

(** The relations the frame properties speak of. *)
Definition same_self : relation state := fun s s' => self s' = self s.
Definition same_invoked : relation state := fun s s' => invoked s' = invoked s.

(** Every attribute but [spared] reads the same; the class is the same. *)
Definition same_attrs_but (spared : string) : relation state :=
  fun s s' =>
    class_name (self s') = class_name (self s) /\
    class_dict (self s') = class_dict (self s) /\
    forall a, a <> spared -> dict (self s') !! a = dict (self s) !! a.

(** The error that names the unknown method and the class of the
    estimator. *)
Definition unknown_method_error (m : string) (s : state) : outcome decision :=
  Raises (RuntimeError
            ("Unknown method " +:+ m +:+ " in " +:+ class_name (self s))).

(** Two estimators agree on a list of attributes: same class name, and each
    listed attribute reads the same (or is missing) in both. *)
Definition agree_on (attrs : list string) (o1 o2 : obj) : Prop :=
  class_name o1 = class_name o2 /\
  Forall (fun a => lookup_attr o1 a = lookup_attr o2 a) attrs.

(** What the predicates of each estimator read of it. *)
Definition KMeans_read : list string :=
  ["algorithm"; "n_clusters"; "init"; "cluster_centers_"].

Definition PCA_read : list string := ["_fit_svd_solver"; "_onedal_estimator"].

Definition site_reads (c : call_site) : list string :=
  match c with
  | KMeans_fit | KMeans_predict => KMeans_read
  | PCA_fit_full | PCA_fit_cov | PCA_transform => PCA_read
  end.

(** A decision that carries the verdict together with one (description,
    passed) pair per condition, in the given order, the verdict being the
    conjunction of the outcomes. *)
Definition chain_of (descriptions : list string) (d : decision) : Prop :=
  exists ps,
    d = Chain ps /\
    map fst (conditions ps) = descriptions /\
    patching_is_enabled ps = forallb snd (conditions ps).

Definition KMeans_fit_descriptions : list string :=
  [ "Only lloyd algorithm is supported.";
    "Sparse init values are not supported";
    "n_clusters is smaller than number of samples";
    "Sample weight is not None.";
    "Sparse input is not supported." ].

Definition KMeans_predict_descriptions : list string :=
  [ "Only lloyd algorithm is supported.";
    "Sparse clusters is not supported.";
    "Sparse input is not supported." ].

(** ** Concrete estimators and inputs *)

Module Examples.

(** [KMeans(n_clusters=8)] under scikit-learn 1.4: the defaults, with
    [algorithm="lloyd"]. *)
Definition kmeans_lloyd : obj :=
  KMeans.__init__ (VInt 8) (VStr "k-means++") (VStr "auto") (VInt 300)
    (VFloat tol_default) (VInt 0) VNone (VBool true) (VStr "lloyd").

(** A dense float64 matrix of 40 samples and 4 features, as
    [make_classification(n_samples=40, n_features=4)] gives. *)
Definition dense_40x4 : pyval :=
  VArray (mk_array false "float64" [40; 4]%nat).

Definition sparse_40x4 : pyval :=
  VArray (mk_array true "float64" [40; 4]%nat).

(** A 0-d array. *)
Definition scalar_array : pyval := VArray (mk_array false "float64" []).

Definition pca (svd_solver : string) : obj :=
  PCA.__init__ VNone (VBool true) (VBool false) (VStr svd_solver)
    (VFloat (S754_zero false)) (VStr "auto") (VInt 10) (VStr "auto") VNone.

(** A [PCA] in the middle of [_fit], the solver already resolved. *)
Definition pca_fitting (svd_solver : string) : obj :=
  set_dict (pca svd_solver) "_fit_svd_solver" (VStr svd_solver).

(** A fresh run: nothing printed, nothing invoked. *)
Definition start (o : obj) : state := mk_state o [] [].

(** A backend callable that returns [None] and leaves the estimator. *)
Definition idle : callable := fun o _ => (Returns VNone, o).


(** An array check that accepts its input as it is. *)
Definition accept : pyval -> pyval -> outcome pyval :=
  fun X _ => Returns X.

(** A truncated fit that fails on its arguments. *)
Definition refuse : list pyval -> outcome pyval :=
  fun _ => Raises (TypeError "missing 1 required positional argument").

(** A line as the iteration over the open file yields it: the text and the
    newline that ends it. *)
Definition line (text : string) : string :=
  text +:+ String (ascii_of_nat 10) EmptyString.

(** A header that defines the major version twice. *)
Definition header_redefined : list string :=
  map line
    [ "#define __INTEL_DAAL__ 2021";
      "#define __INTEL_DAAL__ 2023";
      "#define __INTEL_DAAL_MINOR__ 2";
      "#define __INTEL_DAAL_MAJOR_BINARY__ 1";
      "#define __INTEL_DAAL_MINOR_BINARY__ 1" ].

(** The version lines of a oneDAL 2023.2 header, among other lines. *)
Definition header_2023_2 : list string :=
  map line
    [ "#define __INTEL_DAAL_BUILD_DATE 20230601";
      "#define __INTEL_DAAL__ 2023";
      "#define __INTEL_DAAL_MINOR__ 2";
      "#define __INTEL_DAAL_UPDATE__ 0";
      "#define __INTEL_DAAL_MAJOR_BINARY__ 1";
      "#define __INTEL_DAAL_MINOR_BINARY__ 1" ].

(** A header whose minor version line is indented: the substring test
    finds the macro, the anchored pattern does not match. *)
Definition header_indented_minor : list string :=
  map line
    [ "#define __INTEL_DAAL__ 2023";
      "  #define __INTEL_DAAL_MINOR__ 2" ].

(** A stand-in for the comparison of [PCA._fit], where a property does not
    depend on it: [n < 0.8 * k] for an integer [n], on exact fractions. *)
Definition below_four_fifths (n : pyval) (k : nat) : outcome bool :=
  match int_value n with
  | Some z => Returns (5 * z <? 4 * Z.of_nat k)%Z
  | None => Raises (not_supported "<" (type_name n) "float")
  end.

End Examples.

(** ** [sklearnex/tests/test_n_jobs_support.py] *)

Module NJobsTest.

Definition newline : ascii := ascii_of_nat 10.

(** [s.split(sep)] for a one-character separator: never an empty list. *)
Fixpoint split_on (sep : ascii) (s : string) : list string :=
  match s with
  | EmptyString => [EmptyString]
  | String c rest =>
      if Ascii.eqb c sep then EmptyString :: split_on sep rest
      else match split_on sep rest with
           | [] => [String c EmptyString]
           | piece :: pieces => String c piece :: pieces
           end
  end.

(** [get_logs_from_stream], on the text the stream holds:
    [stream.getvalue().split("\n")[:-1]]. *)
Definition get_logs_from_stream (value : string) : list string :=
  removelast (split_on newline value).

(** [n_jobs if n_jobs > 0 else cpu_count() + 1 + n_jobs], [n_jobs] being one
    of the test's parameters [None, -1, 1, 2]: [None], which [>] does not
    compare with an integer, or an integer. *)
Definition expected_n_jobs (cpu_count : Z) (n_jobs : option Z) : outcome Z :=
  match n_jobs with
  | Some k => Returns (if 0 <? k then k else cpu_count + 1 + k)
  | None =>
      Raises (TypeError
        "'>' not supported between instances of 'NoneType' and 'int'")
  end.

(** The f-string [f"{function_name}: setting {expected_n_jobs} threads"]. *)
Definition setting_message (function_name : string) (expected : Z) : string :=
  function_name +:+ ": setting " +:+ py_str (VInt expected) +:+ " threads".

(** [check_n_jobs_entry_in_logs]: the result, and the records handed to
    [logging.info] on the way (latest first).  [cpu_count] is what
    [multiprocessing.cpu_count()] returns. *)
Fixpoint check_n_jobs_entry_in_logs_from (cpu_count : Z) (logs : list string)
    (function_name : string) (n_jobs : option Z) (infos : list string)
    : outcome bool * list string :=
  match logs with
  | [] => (Returns (match n_jobs with None => true | Some _ => false end),
           infos)
  | log :: rest =>
      if OnedalVersion.contains function_name log
         && OnedalVersion.contains "threads" log
      then
        match expected_n_jobs cpu_count n_jobs with
        | Raises e => (Raises e, infos)
        | Returns expected =>
            let message := setting_message function_name expected in
            if OnedalVersion.contains message log
            then (Returns true, message :: infos)
            else check_n_jobs_entry_in_logs_from cpu_count rest
                   function_name n_jobs (message :: infos)
        end
      else check_n_jobs_entry_in_logs_from cpu_count rest function_name
             n_jobs infos
  end.

Definition check_n_jobs_entry_in_logs (cpu_count : Z) (logs : list string)
    (function_name : string) (n_jobs : option Z) : outcome bool * list string :=
  check_n_jobs_entry_in_logs_from cpu_count logs function_name n_jobs [].

(** [check_method], from the call of the method on: [value] is the text the
    stream holds once the method has run. *)
Definition check_method (cpu_count : Z) (value : string)
    (method_name : string) (n_jobs : option Z) : outcome unit :=
  let logs := get_logs_from_stream value in
  match (check_n_jobs_entry_in_logs cpu_count logs method_name n_jobs).1 with
  | Returns found => if found then Returns tt else Raises AssertionError
  | Raises e => Raises e
  end.

Fixpoint no_newline (s : string) : bool :=
  match s with
  | EmptyString => true
  | String c rest => negb (Ascii.eqb c newline) && no_newline rest
  end.

End NJobsTest.

(** ** The accelerated fit of [sklearnex.decomposition.PCA] *)

Module PCAOnedal.

(** The objects other than [self], each under the tag of its reference
    [VOpaque tag], with its attributes. *)
Definition heap : Type := gmap string (gmap string pyval).

(** [ref.name] for a reference into the heap *)
Definition getattr_of (h : heap) (ref : pyval) (name : string)
    : outcome pyval :=
  match ref with
  | VOpaque tag =>
      match h !! tag with
      | Some attrs =>
          match attrs !! name with
          | Some v => Returns v
          | None => Raises (AttributeError name)
          end
      | None => Raises (AttributeError name)
      end
  | _ => Raises (AttributeError name)
  end.

(** The attributes [_save_attributes] assigns, in the order of its lines. *)
Definition saved_attributes : list string :=
  ["components_"; "explained_variance_"; "explained_variance_ratio_";
   "singular_values_"; "mean_"; "n_components_"; "n_features_";
   "n_samples_"; "noise_variance_"; "n_features_in_"; "feature_names_in_"].

(** A class-level attribute that is a property without a setter.  The
    parent class [sklearn.decomposition.PCA] has one in scikit-learn 1.2 and
    1.3, where [n_features_] is a deprecated property that returns
    [n_features_in_]. *)
Definition read_only_property : pyval := VOpaque "property".

Definition is_read_only (o : obj) (name : string) : bool :=
  match class_dict o !! name with
  | Some (VOpaque kind) => String.eqb kind "property"
  | _ => false
  end.

(** The class-level attributes that bear on [_save_attributes], by the
    release of scikit-learn the parent class comes from. *)
Definition sklearn_PCA_properties (installed : release)
    : gmap string pyval :=
  if sklearn_check_version installed "1.2"
     && negb (sklearn_check_version installed "1.4")
  then <["n_features_" := read_only_property]> ∅
  else ∅.

(** [self.<name> = v] for a name the class may define as a property: the
    assignment to a property without a setter raises [AttributeError], any
    other is a write to the instance dictionary.  (The other assignments of
    the modelled code are to [_algorithm], [_fit_svd_solver] and
    [_onedal_estimator], which no release of scikit-learn defines on the
    class: they are plain writes.) *)
Definition assign (name : string) (v : pyval) : M unit :=
  fun s => if is_read_only (self s) name
           then (Raises (AttributeError name), s)
           else setattr name v s.

(** [self.<name> = self._onedal_estimator.<name>], one line after the
    other. *)
Fixpoint save_each (h : heap) (names : list string) : M unit :=
  match names with
  | [] => ret tt
  | name :: rest =>
      let! estimator := getattr "_onedal_estimator" in
      let! v := lift (getattr_of h estimator name) in
      let! _ := assign name v in
      save_each h rest
  end.

Definition _save_attributes (h : heap) : M unit :=
  save_each h saved_attributes.

(** The [if]/[elif]/[else] that opens [_onedal_fit]. *)
Definition method_of_solver : M string :=
  let! svd_solver := getattr "svd_solver" in
  if py_eq svd_solver (VStr "full") then ret "svd"
  else
    let! svd_solver := getattr "svd_solver" in
    if py_eq svd_solver (VStr "cov") then ret "cov"
    else
      let! svd_solver := getattr "svd_solver" in
      raise (ValueError ("Unknown method='" +:+ py_str svd_solver +:+ "'")).

(** The dictionary [onedal_params]. *)
Definition onedal_params (method : string) : M (gmap string pyval) :=
  let! n_components := getattr "n_components" in
  let! copy := getattr "copy" in
  ret (<["n_components" := n_components]>
       (<["is_deterministic" := VBool true]>
       (<["method" := VStr method]>
       (<["copy" := copy]> ∅)))).

(** Kept abstract, the estimator of the backend package: the tag of the
    object [onedal_PCA] builds from the parameters; what its [fit] does,
    returning or raising, and the attributes it leaves on the object; what
    [predict] answers on an object with the given attributes. *)
Section Methods.
Variable onedal_PCA : gmap string pyval -> string.
Variable onedal_PCA_fit :
  gmap string pyval -> list pyval -> outcome unit * gmap string pyval.
Variable onedal_PCA_predict :
  gmap string pyval -> list pyval -> outcome pyval.

(** [_onedal_fit(self, X, y, queue)]: the triple [U, S, V], the receiver
    and the heap afterwards. *)
Definition _onedal_fit (X y queue : pyval) (h : heap) (s : state)
    : outcome (pyval * pyval * pyval) * state * heap :=
  match (let! method := method_of_solver in onedal_params method) s with
  | (Raises e, s1) => (Raises e, s1, h)
  | (Returns params, s1) =>
      let tag := onedal_PCA params in
      let s2 := (setattr "_onedal_estimator" (VOpaque tag) s1).2 in
      let '(fitted, attrs) := onedal_PCA_fit params [X; y; queue] in
      let h' := <[tag := attrs]> h in
      match fitted with
      | Raises e => (Raises e, s2, h')
      | Returns _ =>
          ((let! _ := _save_attributes h' in
            let U := VNone in
            let! S := getattr "singular_values_" in
            let! V := getattr "components_" in
            ret (U, S, V)) s2, h')
      end
  end.

(** [_onedal_predict(self, X, queue)] *)
Definition _onedal_predict (X queue : pyval) (h : heap) : M pyval :=
  let! estimator := getattr "_onedal_estimator" in
  match estimator with
  | VOpaque tag =>
      match h !! tag with
      | Some attrs => lift (onedal_PCA_predict attrs [X; queue])
      | None => raise (AttributeError "predict")
      end
  | _ => raise (AttributeError "predict")
  end.

End Methods.

End PCAOnedal.

(** ** Notions for the properties of the accelerated fit *)

(** The parameters [_onedal_fit] builds the backend's estimator with. *)
Definition PCA_onedal_params (n_components copy : pyval) (method : string)
    : gmap string pyval :=
  <["n_components" := n_components]>
  (<["is_deterministic" := VBool true]>
  (<["method" := VStr method]>
  (<["copy" := copy]> ∅))).

(** A backend stub: the estimator it builds is tagged "onedal_PCA#1"; its
    [fit] leaves every saved attribute, each holding a token of its name;
    its [predict] answers with the components it holds. *)
Definition stub_onedal_PCA : gmap string pyval -> string :=
  fun _ => "onedal_PCA#1".

Definition stub_attrs : gmap string pyval :=
  list_to_map (map (fun name => (name, VOpaque name))
                   PCAOnedal.saved_attributes).

Definition stub_fit
    : gmap string pyval -> list pyval -> outcome unit * gmap string pyval :=
  fun _ _ => (Returns tt, stub_attrs).

(** [PCA(svd_solver="full")] whose parent class is that of scikit-learn
    1.2.2. *)
Definition pca_full_1_2_2 : obj :=
  mk_obj "PCA" (PCAOnedal.sklearn_PCA_properties [1; 2; 2]%nat)
    (dict (Examples.pca "full")).

(** A backend whose [fit] fails, leaving nothing on its estimator. *)
Definition stub_fit_failing
    : gmap string pyval -> list pyval -> outcome unit * gmap string pyval :=
  fun _ _ => (Raises (RuntimeError "oneDAL: out of memory"), ∅).

Definition stub_predict : gmap string pyval -> list pyval -> outcome pyval :=
  fun attrs _ => match attrs !! "components_" with
                 | Some v => Returns v
                 | None => Raises (AttributeError "components_")
                 end.

(** ** Further code of [sklearnex/preview/cluster/k_means.py] *)

(** [KMeans()] with every parameter left at its default.  The class body
    picks one of three signatures by the installed scikit-learn: from 1.2 on
    [algorithm="lloyd"] and [n_init] "auto" (from 1.4) or "warn"; from 1.0 on
    [algorithm="auto"] and [n_init=10]; before that also the two deprecated
    parameters. *)
Definition KMeans_default (installed : release) : obj :=
  if sklearn_check_version installed "1.2" then
    KMeans.__init__ (VInt 8) (VStr "k-means++")
      (if sklearn_check_version installed "1.4" then VStr "auto"
       else VStr "warn")
      (VInt 300) (VFloat tol_default) (VInt 0) VNone (VBool true) (VStr "lloyd")
  else if sklearn_check_version installed "1.0" then
    KMeans.__init__ (VInt 8) (VStr "k-means++") (VInt 10)
      (VInt 300) (VFloat tol_default) (VInt 0) VNone (VBool true) (VStr "auto")
  else
    set_dict
      (set_dict
         (KMeans.__init__ (VInt 8) (VStr "k-means++") (VInt 10)
            (VInt 300) (VFloat tol_default) (VInt 0) VNone (VBool true)
            (VStr "auto"))
         "precompute_distances" (VStr "deprecated"))
      "n_jobs" (VStr "deprecated").

(** The three named conditions of the predict predicate. *)
Definition KMeans_predict_conditions (o : obj) (X : pyval) : Prop :=
  (exists a, lookup_attr o "algorithm" = Some (VStr a) /\
             (a = "auto" \/ a = "full" \/ a = "lloyd")) /\
  (exists centers, lookup_attr o "cluster_centers_" = Some centers /\
                   issparse centers = false) /\
  issparse X = false.

(** ** Notions for the further properties of [PCA._fit] *)

(** The [n_components] that [PCA._fit] works with: the attribute, or, when
    it is [None], the smallest dimension of the checked input, less one for
    the "arpack" solver. *)
Definition PCA_n_components (n_components svd_solver X : pyval)
    : outcome pyval :=
  if is_none n_components then
    OnedalVersion.obind (shape_of X) (fun dims =>
    OnedalVersion.obind (py_min dims) (fun smallest =>
    Returns (if negb (py_eq svd_solver (VStr "arpack"))
             then VInt (Z.of_nat smallest)
             else VInt (Z.of_nat smallest - 1))))
  else Returns n_components.

(** The state [PCA._fit] leaves once it has recorded a solver. *)
Definition with_fit_solver (solver : pyval) (s : state) : state :=
  mk_state (set_dict (self s) "_fit_svd_solver" solver) (stdout s) (invoked s).

(** A truncated fit that hands back the [n_components] it is given. *)
Definition echo_n_components : list pyval -> outcome pyval :=
  fun args => Returns (nth 1 args VNone).

(** The floats [0.5] and [2.5]. *)
Definition one_half : spec_float := S754_finite false 4503599627370496 (-53).

Definition two_and_a_half : spec_float :=
  S754_finite false 5629499534213120 (-51).

(** A dense float64 matrix of 1000 samples and 50 features. *)
Definition dense_1000x50 : pyval :=
  VArray (mk_array false "float64" [1000; 50]%nat).

(** ** Notions for the properties of [scripts/version.py] *)

(** The headers the properties speak of.  Every line is ASCII text; and,
    where numerals are read, every line has at most 640 characters, so that
    no numeral is measured against the limit of the interpreter. *)
Definition ascii_lines (header : list string) : Prop :=
  Forall (fun elem => OnedalVersion.is_ascii_text elem = true) header.

Definition short_lines (header : list string) : Prop :=
  Forall (fun elem => (String.length elem <= 640)%nat) header.

(** The four macros [get_onedal_version] looks for. *)
Definition version_macros : list string :=
  [ "__INTEL_DAAL__"; "__INTEL_DAAL_MINOR__";
    "__INTEL_DAAL_MAJOR_BINARY__"; "__INTEL_DAAL_MINOR_BINARY__" ].

(** Whether the pattern of one of the four macros matches the line. *)
Definition matches_some (elem : string) : bool :=
  existsb (fun macro =>
             match OnedalVersion.re_match_define macro elem with
             | Some _ => true
             | None => false
             end) version_macros.

Fixpoint all_digits (s : string) : bool :=
  match s with
  | EmptyString => true
  | String c rest => OnedalVersion.is_digit c && all_digits rest
  end.

(** The line of a header that defines [macro] as the number [n], as the
    iteration over the file yields it. *)
Definition define_line (macro : string) (n : N) : string :=
  ("#define " +:+ macro +:+ " ") +:+
  (OnedalVersion.numeral n +:+ String (ascii_of_nat 10) EmptyString).

(** * Properties *)

(** ** The model on concrete inputs *)

Example Version_two_segments : Version "0.24" = [0; 24]%nat.
Proof. reflexivity. Qed.

Example release_trailing_zero : release_cmp [1; 2]%nat [1; 2; 0]%nat = Eq.
Proof. reflexivity. Qed.

Example check_version_1_1_3 :
  sklearn_check_version [1; 1; 3]%nat "1.1" = true /\
  sklearn_check_version [1; 1; 3]%nat "1.2" = false.
Proof. split; reflexivity. Qed.

Example match_with_trailing_text :
  OnedalVersion.re_match_define "__INTEL_DAAL__"
    "#define __INTEL_DAAL__ 2023 /* major */" = Some "2023".
Proof. reflexivity. Qed.

Example match_other_macro :
  OnedalVersion.re_match_define "__INTEL_DAAL__"
    "#define __INTEL_DAAL_MINOR__ 2" = None /\
  OnedalVersion.contains "#define __INTEL_DAAL__"
    "#define __INTEL_DAAL_MINOR__ 2" = false.
Proof. split; reflexivity. Qed.

Example match_is_anchored :
  OnedalVersion.contains "#define __INTEL_DAAL__"
    "  #define __INTEL_DAAL__ 2023" = true /\
  OnedalVersion.re_match_define "__INTEL_DAAL__"
    "  #define __INTEL_DAAL__ 2023" = None.
Proof. split; reflexivity. Qed.

(** Floats: [2.5] lies between 2 and 3, [2.0 == 2], and [0.8 * 50] is the
    float 40.0, which 40 is not below. *)
Example float_comparisons :
  compare_float_int two_and_a_half 2 = Some Gt /\
  compare_float_int two_and_a_half 3 = Some Lt /\
  py_eq (VFloat (float_of_int 2)) (VInt 2) = true /\
  py_lt_int (VFloat two_and_a_half) 40 = Returns true /\
  py_ge_int (VFloat one_half) 1 = Returns false /\
  PCA.scaled_min 50 = float_of_int 40 /\
  PCA.lt_scaled_min_binary64 (VInt 39) 50 = Returns true /\
  PCA.lt_scaled_min_binary64 (VInt 40) 50 = Returns false /\
  PCA.lt_scaled_min_binary64 (VFloat two_and_a_half) 50 = Returns true.
Proof. repeat split; vm_compute; reflexivity. Qed.

Example int_leading_zero : OnedalVersion.int 4300 "0200" = Returns 200.
Proof. reflexivity. Qed.

Example int_over_the_limit :
  OnedalVersion.exceeds_limit 4300 4300 = false /\
  OnedalVersion.exceeds_limit 4300 4301 = true /\
  OnedalVersion.exceeds_limit 0 4301 = false /\
  OnedalVersion.exceeds_limit 640 641 = true.
Proof. repeat split; vm_compute; reflexivity. Qed.

Example version_of_2023_2 :
  OnedalVersion.get_onedal_version 4300 Examples.header_2023_2
  = Returns (20230200, (1, 1)).
Proof. reflexivity. Qed.

Example fit_predicate_on_sparse_input :
  fst (KMeans._onedal_fit_supported "fit" Examples.sparse_40x4 VNone VNone
         (Examples.start Examples.kmeans_lloyd))
  = Returns (Chain (mk_chain "sklearn.cluster.KMeans.fit" false
      [ ("Only lloyd algorithm is supported.", true);
        ("Sparse init values are not supported", true);
        ("n_clusters is smaller than number of samples", true);
        ("Sample weight is not None.", true);
        ("Sparse input is not supported.", false) ])).
Proof. reflexivity. Qed.

Example predict_predicate_before_fit :
  fst (KMeans._onedal_predict_supported "predict" Examples.dense_40x4
         (Examples.start Examples.kmeans_lloyd))
  = Returns (Chain (mk_chain "sklearn.cluster.KMeans.predict" true
      [ ("Only lloyd algorithm is supported.", true);
        ("Sparse clusters is not supported.", true);
        ("Sparse input is not supported.", true) ])).
Proof. reflexivity. Qed.

(** [PCA(svd_solver="auto")] on 40 samples resolves to "full" and, on the
    host, runs the accelerated fit. *)
Example PCA_fit_auto_small :
  invoked (snd (PCA._fit Dispatch.on_host Examples.accept Examples.idle
                  Examples.idle Examples.refuse Examples.below_four_fifths
                  Examples.dense_40x4 (Examples.start (Examples.pca "auto"))))
    = ["onedal"] /\
  lookup_attr
    (self (snd (PCA._fit Dispatch.on_host Examples.accept Examples.idle
                  Examples.idle Examples.refuse Examples.below_four_fifths
                  Examples.dense_40x4 (Examples.start (Examples.pca "auto")))))
    "_fit_svd_solver" = Some (VStr "full").
Proof. split; reflexivity. Qed.

(** ** Attribute lookup and the method monad *)

Lemma lookup_attr_set_ne o a b v :
  a <> b -> lookup_attr (set_dict o a v) b = lookup_attr o b.
Proof.
  intros Hne. unfold lookup_attr, set_dict. simpl.
  by rewrite lookup_insert_ne.
Qed.

Lemma lookup_attr_set_eq o a v : lookup_attr (set_dict o a v) a = Some v.
Proof. unfold lookup_attr, set_dict. simpl. by rewrite lookup_insert_eq. Qed.

Lemma getattr_run a s :
  getattr a s = match lookup_attr (self s) a with
                | Some v => (Returns v, s)
                | None => (Raises (AttributeError a), s)
                end.
Proof. reflexivity. Qed.

Section Preservation.
Context (R : relation state) `{!Reflexive R} `{!Transitive R}.

Lemma preserves_ret {A} (a : A) : preserves R (ret a).
Proof. intros s. simpl. reflexivity. Qed.

Lemma preserves_raise {A} e : preserves R (@raise A e).
Proof. intros s. simpl. reflexivity. Qed.

Lemma preserves_lift {A} (r : outcome A) : preserves R (lift r).
Proof. intros s. simpl. reflexivity. Qed.

Lemma preserves_assert c : preserves R (assert c).
Proof. destruct c; [apply preserves_ret | apply preserves_raise]. Qed.

Lemma preserves_getattr a : preserves R (getattr a).
Proof.
  intros s. rewrite getattr_run.
  destruct (lookup_attr (self s) a); simpl; reflexivity.
Qed.

Lemma preserves_hasattr a : preserves R (hasattr a).
Proof. intros s. simpl. reflexivity. Qed.

Lemma preserves_get_class_name : preserves R get_class_name.
Proof. intros s. simpl. reflexivity. Qed.

Lemma preserves_bind {A B} (m : M A) (k : A -> M B) :
  preserves R m -> (forall a, preserves R (k a)) -> preserves R (bind m k).
Proof.
  intros Hm Hk s. unfold bind. specialize (Hm s).
  destruct (m s) as [[a|e] s']; simpl in *; [|exact Hm].
  etransitivity; [exact Hm | apply Hk].
Qed.
End Preservation.

Create HintDb frame discriminated.

(** Repeated step of every frame proof, chosen by the head of the method:
    split a [bind], close a primitive that leaves the state alone by
    reflexivity of the relation, take the writing primitives from the hint
    base. *)
Ltac frame_steps :=
  repeat match goal with
    | |- preserves _ (bind _ _) =>
        apply preserves_bind; [typeclasses eauto | | intros ?]
    | |- preserves _ (ret _) => apply preserves_ret; typeclasses eauto
    | |- preserves _ (raise _) => apply preserves_raise; typeclasses eauto
    | |- preserves _ (lift _) => apply preserves_lift; typeclasses eauto
    | |- preserves _ (assert _) => apply preserves_assert; typeclasses eauto
    | |- preserves _ (getattr _) => apply preserves_getattr; typeclasses eauto
    | |- preserves _ (hasattr _) => apply preserves_hasattr; typeclasses eauto
    | |- preserves _ get_class_name =>
        apply preserves_get_class_name; typeclasses eauto
    | |- preserves _ (if ?c then _ else _) => destruct c
    | |- preserves _ (print _) => solve [auto with frame]
    | |- preserves _ (setattr _ _) => solve [auto with frame]
    | |- preserves _ _ => assumption
    end.

#[local] Instance same_self_refl : Reflexive same_self.
Proof. by intros s. Qed.
#[local] Instance same_self_trans : Transitive same_self.
Proof. unfold same_self. intros s1 s2 s3 H12 H23. congruence. Qed.
#[local] Instance same_invoked_refl : Reflexive same_invoked.
Proof. by intros s. Qed.
#[local] Instance same_invoked_trans : Transitive same_invoked.
Proof. unfold same_invoked. intros s1 s2 s3 H12 H23. congruence. Qed.
#[local] Instance same_attrs_but_refl spared : Reflexive (same_attrs_but spared).
Proof. by intros s. Qed.
#[local] Instance same_attrs_but_trans spared :
  Transitive (same_attrs_but spared).
Proof.
  intros s1 s2 s3 (Hn12 & Hc12 & Hd12) (Hn23 & Hc23 & Hd23).
  repeat split; [congruence | congruence |].
  intros a Ha. rewrite Hd23, Hd12; auto.
Qed.

Lemma preserves_print_self line : preserves same_self (print line).
Proof. by intros s. Qed.

Lemma preserves_print_invoked line : preserves same_invoked (print line).
Proof. by intros s. Qed.

Lemma preserves_setattr_invoked a v : preserves same_invoked (setattr a v).
Proof. by intros s. Qed.

Lemma preserves_setattr_but a v : preserves (same_attrs_but a) (setattr a v).
Proof.
  intros s. repeat split. intros b Hb. simpl. by rewrite lookup_insert_ne.
Qed.

#[local] Hint Resolve preserves_print_self preserves_print_invoked
  preserves_setattr_invoked preserves_setattr_but : frame.

Lemma same_self_same_attrs_but spared s s' :
  same_self s s' -> same_attrs_but spared s s'.
Proof. unfold same_self. intros H. unfold same_attrs_but. by rewrite H. Qed.

(** ** Frame of the capability predicates *)

Lemma KMeans_predict_supported_same_self m X :
  preserves same_self (KMeans._onedal_predict_supported m X).
Proof. unfold KMeans._onedal_predict_supported. frame_steps. Qed.

Lemma KMeans_predict_supported_same_invoked m X :
  preserves same_invoked (KMeans._onedal_predict_supported m X).
Proof. unfold KMeans._onedal_predict_supported. frame_steps. Qed.

Lemma KMeans_fit_supported_same_invoked m X y sw :
  preserves same_invoked (KMeans._onedal_fit_supported m X y sw).
Proof. unfold KMeans._onedal_fit_supported. frame_steps. Qed.

Lemma KMeans_fit_supported_same_attrs m X y sw :
  preserves (same_attrs_but "_algorithm")
            (KMeans._onedal_fit_supported m X y sw).
Proof. unfold KMeans._onedal_fit_supported. frame_steps. Qed.

Lemma KMeans_supported_same_invoked m data :
  preserves same_invoked (KMeans._onedal_supported m data).
Proof.
  unfold KMeans._onedal_supported.
  destruct (String.eqb m "fit"); [|destruct (String.eqb m "predict")];
    [destruct data as [|X [|y [|sw [|? ?]]]]
    |destruct data as [|X [|? ?]] |];
    auto using KMeans_fit_supported_same_invoked,
      KMeans_predict_supported_same_invoked;
    frame_steps.
Qed.

Lemma KMeans_supported_same_attrs m data :
  preserves (same_attrs_but "_algorithm") (KMeans._onedal_supported m data).
Proof.
  unfold KMeans._onedal_supported.
  destruct (String.eqb m "fit"); [|destruct (String.eqb m "predict")];
    [destruct data as [|X [|y [|sw [|? ?]]]]
    |destruct data as [|X [|? ?]] |];
    auto using KMeans_fit_supported_same_attrs;
    try (intros s; apply same_self_same_attrs_but,
           KMeans_predict_supported_same_self);
    frame_steps.
Qed.

Lemma PCA_gpu_supported_same_self m data :
  preserves same_self (PCA._onedal_gpu_supported m data).
Proof. unfold PCA._onedal_gpu_supported, PCA.unknown_method. frame_steps. Qed.

Lemma PCA_cpu_supported_same_self m data :
  preserves same_self (PCA._onedal_cpu_supported m data).
Proof. unfold PCA._onedal_cpu_supported, PCA.unknown_method. frame_steps. Qed.

Lemma PCA_gpu_supported_same_invoked m data :
  preserves same_invoked (PCA._onedal_gpu_supported m data).
Proof. unfold PCA._onedal_gpu_supported, PCA.unknown_method. frame_steps. Qed.

Lemma PCA_cpu_supported_same_invoked m data :
  preserves same_invoked (PCA._onedal_cpu_supported m data).
Proof. unfold PCA._onedal_cpu_supported, PCA.unknown_method. frame_steps. Qed.

(** ** The predicates, run from start to end *)

Lemma py_in_supported_algs v :
  py_in v KMeans.supported_algs = true <->
  exists a, v = VStr a /\ (a = "auto" \/ a = "full" \/ a = "lloyd").
Proof.
  unfold py_in, KMeans.supported_algs. simpl. split.
  - destruct v; simpl; try discriminate. intros H. exists s. split; [done|].
    repeat (apply orb_prop in H; destruct H as [H|H]); try discriminate;
      apply String.eqb_eq in H; auto.
  - intros (a & -> & [->| [->| ->]]); reflexivity.
Qed.

(** The comparison of a finite float with an integer is the comparison of
    the number it stands for. *)
Lemma compare_float_int_exact f q z :
  float_value f = Some q ->
  compare_float_int f z
  = Some (QArith_base.Qcompare q (QArith_base.inject_Z z)).
Proof.
  destruct f as [s|s| |s m e]; try discriminate; intros [= <-].
  - unfold QArith_base.Qcompare.
    cbn [compare_float_int QArith_base.Qnum QArith_base.Qden
         QArith_base.inject_Z].
    replace (z * 1) with z by lia. reflexivity.
  - cbn [compare_float_int]. f_equal.
    destruct (0 <=? e) eqn:He; unfold QArith_base.Qcompare;
      cbn [QArith_base.Qnum QArith_base.Qden QArith_base.inject_Z].
    + replace (z * 1) with z by lia.
      by replace ((if s then Z.neg m else Z.pos m) * 2 ^ e * 1)
        with ((if s then Z.neg m else Z.pos m) * 2 ^ e) by lia.
    + apply Z.leb_gt in He.
      replace ((if s then Z.neg m else Z.pos m) * 1)
        with (if s then Z.neg m else Z.pos m) by lia.
      rewrite Z2Pos.id; [done|]. apply Z.pow_pos_nonneg; lia.
Qed.

Lemma float_lt_int_true f n :
  float_lt_int f n = true <->
  (exists q, float_value f = Some q /\
             QArith_base.Qlt q (QArith_base.inject_Z n)) \/
  f = S754_infinity true.
Proof.
  unfold float_lt_int. destruct (float_value f) as [q|] eqn:Hq.
  - rewrite (compare_float_int_exact f q n Hq). split.
    + intros Hlt. left. exists q. split; [done|].
      apply QArith_base.Qlt_alt.
      by destruct (QArith_base.Qcompare q (QArith_base.inject_Z n)).
    + intros [(q' & [= <-] & Hlt)| ->]; [|discriminate Hq].
      apply QArith_base.Qlt_alt in Hlt.
      change (QArith_base.Qcompare q (QArith_base.inject_Z n) = Lt) in Hlt.
      by rewrite Hlt.
  - destruct f as [s|[]| |s m e]; try discriminate Hq; cbn.
    + split; [by right | done].
    + split; [done|]. by intros [(q & ? & _)|?].
    + split; [done|]. by intros [(q & ? & _)|?].
Qed.

Lemma py_lt_int_true v n :
  py_lt_int v n = Returns true <-> number_below v n.
Proof.
  unfold py_lt_int, number_below, int_value. split.
  - destruct v; intros [= H];
      first [ right; apply float_lt_int_true in H as [(q & Hq & Hlt)| ->];
              [left; by eexists _, q | by right]
            | left; eexists; (split; [reflexivity|]); by apply Z.ltb_lt ].
  - intros [(k & Hk & Hlt)|[(f & q & -> & Hq & Hlt)| ->]].
    + apply Z.ltb_lt in Hlt.
      destruct v; inversion Hk; subst; by rewrite Hlt.
    + assert (H : float_lt_int f n = true).
      { apply float_lt_int_true. left. by exists q. }
      by rewrite H.
    + reflexivity.
Qed.

Lemma KMeans_fit_supported_run s X y sw :
  KMeans._onedal_fit_supported "fit" X y sw s =
  match _num_samples X with
  | Raises e => (Raises e, s)
  | Returns n =>
    match lookup_attr (self s) "algorithm" with
    | None => (Raises (AttributeError "algorithm"), s)
    | Some alg =>
      (match lookup_attr (self s) "n_clusters" with
       | None => Raises (AttributeError "n_clusters")
       | Some k =>
         match py_lt_int k n with
         | Raises e => Raises e
         | Returns c =>
           match lookup_attr (self s) "init" with
           | None => Raises (AttributeError "init")
           | Some i =>
              Returns (Chain (and_conditions
                (new_chain
                   ("sklearn.cluster." +:+ class_name (self s) +:+ ".fit"))
                [ (py_in alg KMeans.supported_algs,
                   "Only lloyd algorithm is supported.");
                  (negb (issparse i), "Sparse init values are not supported");
                  (c, "n_clusters is smaller than number of samples");
                  (is_none sw, "Sample weight is not None.");
                  (negb (issparse X), "Sparse input is not supported.") ]))
           end
         end
       end,
       mk_state (set_dict (self s) "_algorithm" alg) (stdout s) (invoked s))
    end
  end.
Proof.
  unfold KMeans._onedal_fit_supported, bind, assert, lift, get_class_name,
    setattr, ret. cbn [String.eqb Ascii.eqb Bool.eqb fst snd].
  destruct (_num_samples X) as [n|e]; [|reflexivity].
  rewrite getattr_run.
  destruct (lookup_attr (self s) "algorithm") as [alg|] eqn:Halg; [|reflexivity].
  rewrite getattr_run. cbn [self].
  rewrite lookup_attr_set_ne by discriminate.
  destruct (lookup_attr (self s) "n_clusters") as [k|]; [|reflexivity].
  destruct (py_lt_int k n) as [c|e]; [|reflexivity].
  rewrite getattr_run. cbn [self].
  rewrite lookup_attr_set_ne, Halg by discriminate.
  rewrite getattr_run. cbn [self].
  rewrite lookup_attr_set_ne by discriminate.
  destruct (lookup_attr (self s) "init") as [i|]; reflexivity.
Qed.

Lemma KMeans_predict_supported_run s X :
  KMeans._onedal_predict_supported "predict" X s =
  (match lookup_attr (self s) "cluster_centers_" with
   | None => Raises (AttributeError "cluster_centers_")
   | Some centers =>
     match lookup_attr (self s) "algorithm" with
     | None => Raises (AttributeError "algorithm")
     | Some alg =>
        Returns (Chain (and_conditions
          (new_chain
             ("sklearn.cluster." +:+ class_name (self s) +:+ ".predict"))
          [ (py_in alg KMeans.supported_algs,
             "Only lloyd algorithm is supported.");
            (negb (issparse centers), "Sparse clusters is not supported.");
            (negb (issparse X), "Sparse input is not supported.") ]))
     end
   end, s).
Proof.
  unfold KMeans._onedal_predict_supported, bind, assert, get_class_name, ret.
  cbn [String.eqb Ascii.eqb Bool.eqb fst snd].
  rewrite getattr_run.
  destruct (lookup_attr (self s) "cluster_centers_") as [c|]; [|reflexivity].
  rewrite getattr_run.
  destruct (lookup_attr (self s) "algorithm") as [alg|]; reflexivity.
Qed.

Lemma KMeans_supported_unknown m data s :
  m <> "fit" -> m <> "predict" ->
  KMeans._onedal_supported m data s =
  (Raises (RuntimeError
             ("Unknown method " +:+ m +:+ " in " +:+ class_name (self s))), s).
Proof.
  intros Hfit Hpredict. unfold KMeans._onedal_supported.
  apply String.eqb_neq in Hfit, Hpredict. by rewrite Hfit, Hpredict.
Qed.

Lemma PCA_gpu_supported_run m data s :
  PCA._onedal_gpu_supported m data s =
  (if String.eqb m "decomposition.PCA.fit" then
     match lookup_attr (self s) "_fit_svd_solver" with
     | Some solver => Returns (Bare (py_eq solver (VStr "cov")))
     | None => Raises (AttributeError "_fit_svd_solver")
     end
   else if String.eqb m "decomposition.PCA.transform" then
     Returns (Bare (bool_decide
                      (is_Some (lookup_attr (self s) "_onedal_estimator"))))
   else
     Raises (RuntimeError
               ("Unknown method " +:+ m +:+ " in " +:+ class_name (self s))),
   mk_state (self s) ("call _onedall_gpu_supported" :: stdout s) (invoked s)).
Proof.
  unfold PCA._onedal_gpu_supported, bind, print.
  destruct (String.eqb m "decomposition.PCA.fit").
  - rewrite getattr_run. cbn [self].
    by destruct (lookup_attr (self s) "_fit_svd_solver").
  - by destruct (String.eqb m "decomposition.PCA.transform").
Qed.

Lemma PCA_cpu_supported_run m data s :
  PCA._onedal_cpu_supported m data s =
  (if String.eqb m "decomposition.PCA.fit" then
     match lookup_attr (self s) "_fit_svd_solver" with
     | Some solver =>
         Returns (Bare (py_in solver [VStr "cov"; VStr "full"]))
     | None => Raises (AttributeError "_fit_svd_solver")
     end
   else if String.eqb m "decomposition.PCA.transform" then
     Returns (Bare (bool_decide
                      (is_Some (lookup_attr (self s) "_onedal_estimator"))))
   else
     Raises (RuntimeError
               ("Unknown method " +:+ m +:+ " in " +:+ class_name (self s))),
   s).
Proof.
  unfold PCA._onedal_cpu_supported, bind.
  destruct (String.eqb m "decomposition.PCA.fit").
  - rewrite getattr_run.
    by destruct (lookup_attr (self s) "_fit_svd_solver").
  - by destruct (String.eqb m "decomposition.PCA.transform").
Qed.

(** ** The fit predicate of KMeans *)

(** C1.  [_onedal_fit_supported] reports the accelerated backend as
    supported exactly when the five named conditions hold together: the
    algorithm is one of "auto", "full", "lloyd", [init] is not sparse,
    [n_clusters] is a number (an integer or a float) strictly below the
    number of samples of [X], [sample_weight] is [None] and [X] is not
    sparse.  In particular an
    estimator with [algorithm="lloyd"], a dense float64 input, no sample
    weights and fewer clusters than samples passes. *)
Theorem KMeans_fit_supported_iff :
  (forall s X y sample_weight,
      reports_supported
        (fst (KMeans._onedal_fit_supported "fit" X y sample_weight s))
      <-> KMeans.fit_conditions (self s) X sample_weight) /\
  (forall s X y init k n features,
      lookup_attr (self s) "algorithm" = Some (VStr "lloyd") ->
      lookup_attr (self s) "init" = Some init -> issparse init = false ->
      lookup_attr (self s) "n_clusters" = Some (VInt k) ->
      X = VArray (mk_array false "float64" [n; features]) ->
      k < Z.of_nat n ->
      reports_supported
        (fst (KMeans._onedal_fit_supported "fit" X y VNone s))).
Proof.
  assert (Hiff : forall s X y sample_weight,
      reports_supported
        (fst (KMeans._onedal_fit_supported "fit" X y sample_weight s))
      <-> KMeans.fit_conditions (self s) X sample_weight).
  { intros s X y sw. rewrite KMeans_fit_supported_run.
    unfold reports_supported, KMeans.fit_conditions. split.
    - intros (d & Hrun & Hpass).
      destruct (_num_samples X) as [n|e]; [|discriminate].
      destruct (lookup_attr (self s) "algorithm") as [alg|]; [|discriminate].
      cbn [fst] in Hrun.
      destruct (lookup_attr (self s) "n_clusters") as [v|]; [|discriminate].
      destruct (py_lt_int v n) as [c|e] eqn:Hlt; [|discriminate].
      destruct (lookup_attr (self s) "init") as [i|]; [|discriminate].
      injection Hrun as <-. simpl in Hpass.
      repeat (apply andb_prop in Hpass; destruct Hpass as [? Hpass]).
      subst c.
      apply py_in_supported_algs in H as (a & -> & Ha).
      apply py_lt_int_true in Hlt.
      repeat split.
      + by exists a.
      + exists i. split; [done|]. by apply negb_true_iff.
      + by exists v, n.
      + by destruct sw.
      + by apply negb_true_iff.
    - intros ((a & -> & Ha) & (i & -> & Hi) & (v & n & -> & -> & Hbelow)
              & -> & HX).
      assert (Hlt : py_lt_int v n = Returns true)
        by by apply py_lt_int_true.
      cbn [fst]. rewrite Hlt. eexists. split; [reflexivity|]. simpl.
      rewrite Hi, HX. simpl.
      assert (Halg : py_in (VStr a) KMeans.supported_algs = true).
      { apply py_in_supported_algs. by exists a. }
      unfold py_in, KMeans.supported_algs in Halg. simpl in Halg.
      by rewrite Halg. }
  split; [exact Hiff|].
  intros s X y init k n features Halg Hinit Hdense Hk -> Hlt.
  apply Hiff. unfold KMeans.fit_conditions. repeat split.
  - exists "lloyd". auto.
  - by exists init.
  - exists (VInt k), (Z.of_nat n). split; [done|]. split; [done|].
    left. by exists k.
Qed.

(** The defaults of KMeans with [algorithm="lloyd"] on a dense 40 x 4
    matrix; and the same with [n_clusters=2.5], a float below 40. *)
Lemma KMeans_fit_supported_iff_witness :
  reports_supported
    (fst (KMeans._onedal_fit_supported "fit" Examples.dense_40x4 VNone VNone
            (Examples.start Examples.kmeans_lloyd))) /\
  reports_supported
    (fst (KMeans._onedal_fit_supported "fit" Examples.dense_40x4 VNone VNone
            (Examples.start
               (set_dict Examples.kmeans_lloyd "n_clusters"
                  (VFloat two_and_a_half))))).
Proof.
  split.
  - apply (proj2 KMeans_fit_supported_iff
             (Examples.start Examples.kmeans_lloyd) Examples.dense_40x4 VNone
             (VStr "k-means++") 8 40%nat 4%nat);
      first [reflexivity | lia].
  - apply (proj1 KMeans_fit_supported_iff).
    split; [exists "lloyd"; split; [reflexivity | auto]|].
    split; [exists (VStr "k-means++"); split; reflexivity|].
    split; [|split; reflexivity].
    exists (VFloat two_and_a_half), 40. split; [reflexivity|].
    split; [reflexivity|]. right. left.
    exists two_and_a_half, (QArith_base.Qmake 5629499534213120
                              2251799813685248).
    split; [reflexivity|]. split; [reflexivity|]. reflexivity.
Defined.

(** ** Unknown method names *)

(** C3.  For KMeans and for PCA, a method name outside the recognised set
    of the estimator makes the capability predicate raise a [RuntimeError]
    whose message names the method: it neither returns a "not supported"
    decision nor returns silently. *)
Theorem unknown_method_raises (m : string) (data : list pyval) (s : state) :
  (m <> "fit" -> m <> "predict" ->
     fst (KMeans._onedal_supported m data s) = unknown_method_error m s /\
     fst (KMeans._onedal_gpu_supported m data s) = unknown_method_error m s /\
     fst (KMeans._onedal_cpu_supported m data s) = unknown_method_error m s) /\
  (m <> "decomposition.PCA.fit" -> m <> "decomposition.PCA.transform" ->
     fst (PCA._onedal_gpu_supported m data s) = unknown_method_error m s /\
     fst (PCA._onedal_cpu_supported m data s) = unknown_method_error m s).
Proof.
  unfold unknown_method_error. split.
  - intros Hfit Hpredict.
    unfold KMeans._onedal_gpu_supported, KMeans._onedal_cpu_supported.
    by rewrite KMeans_supported_unknown.
  - intros Hfit Htransform. apply String.eqb_neq in Hfit, Htransform.
    rewrite PCA_gpu_supported_run, PCA_cpu_supported_run.
    by rewrite Hfit, Htransform.
Qed.

(** The name "transform" is known to neither predicate table. *)
Lemma unknown_method_raises_witness :
  fst (KMeans._onedal_cpu_supported "transform" [Examples.dense_40x4]
         (Examples.start Examples.kmeans_lloyd))
    = Raises (RuntimeError "Unknown method transform in KMeans") /\
  fst (PCA._onedal_gpu_supported "transform" [Examples.dense_40x4]
         (Examples.start (Examples.pca "full")))
    = Raises (RuntimeError "Unknown method transform in PCA").
Proof.
  split.
  - apply (proj1 (unknown_method_raises "transform" [Examples.dense_40x4]
                    (Examples.start Examples.kmeans_lloyd)));
      discriminate.
  - apply (proj2 (unknown_method_raises "transform" [Examples.dense_40x4]
                    (Examples.start (Examples.pca "full"))));
      discriminate.
Defined.

(** ** GPU support of PCA implies CPU support *)

(** C8.  Whenever [PCA._onedal_gpu_supported] reports support for a method,
    [PCA._onedal_cpu_supported] reports it too on the same estimator: for
    the fit, the solver "cov" is among "cov" and "full"; for the transform
    the two tests are the same. *)
Theorem PCA_gpu_supported_implies_cpu (m : string) (data : list pyval)
    (s s' : state) :
  self s' = self s ->
  reports_supported (fst (PCA._onedal_gpu_supported m data s)) ->
  reports_supported (fst (PCA._onedal_cpu_supported m data s')).
Proof.
  intros Hself (d & Hrun & Hpass).
  rewrite PCA_gpu_supported_run in Hrun. rewrite PCA_cpu_supported_run.
  rewrite Hself. cbn [fst] in *.
  destruct (String.eqb m "decomposition.PCA.fit").
  - destruct (lookup_attr (self s) "_fit_svd_solver") as [solver|];
      [|discriminate].
    injection Hrun as <-. simpl in Hpass.
    eexists. split; [reflexivity|]. simpl. by rewrite Hpass.
  - destruct (String.eqb m "decomposition.PCA.transform"); [|discriminate].
    injection Hrun as <-. by eexists.
Qed.

(** A PCA whose fit resolved to "cov". *)
Lemma PCA_gpu_supported_implies_cpu_witness :
  reports_supported
    (fst (PCA._onedal_cpu_supported "decomposition.PCA.fit"
            [Examples.dense_40x4]
            (Examples.start (Examples.pca_fitting "cov")))).
Proof.
  apply (PCA_gpu_supported_implies_cpu "decomposition.PCA.fit"
           [Examples.dense_40x4]
           (Examples.start (Examples.pca_fitting "cov"))
           (Examples.start (Examples.pca_fitting "cov")) eq_refl).
  exists (Bare true). split; reflexivity.
Defined.

(** ** What a predicate call changes *)

Lemma KMeans_fit_supported_rejects m X y sw s :
  m <> "fit" ->
  KMeans._onedal_fit_supported m X y sw s = (Raises AssertionError, s).
Proof.
  intros Hm. apply String.eqb_neq in Hm.
  unfold KMeans._onedal_fit_supported, bind, assert. by rewrite Hm.
Qed.

Lemma KMeans_fit_supported_returns m X y sw s d :
  fst (KMeans._onedal_fit_supported m X y sw s) = Returns d ->
  exists alg,
    lookup_attr (self s) "algorithm" = Some alg /\
    self (snd (KMeans._onedal_fit_supported m X y sw s))
      = set_dict (self s) "_algorithm" alg.
Proof.
  destruct (String.eqb_spec m "fit") as [->|Hm].
  - rewrite KMeans_fit_supported_run.
    destruct (_num_samples X); [|discriminate].
    destruct (lookup_attr (self s) "algorithm") as [alg|]; [|discriminate].
    intros _. by exists alg.
  - by rewrite KMeans_fit_supported_rejects.
Qed.

(** An estimator whose fit predicate is evaluated: the attribute
    [_algorithm] appears. *)
Lemma fit_predicate_creates_attribute :
  lookup_attr (self (Examples.start Examples.kmeans_lloyd)) "_algorithm"
    = None /\
  lookup_attr
    (self (snd (KMeans._onedal_fit_supported "fit" Examples.dense_40x4
                  VNone VNone (Examples.start Examples.kmeans_lloyd))))
    "_algorithm" = Some (VStr "lloyd") /\
  self (snd (KMeans._onedal_fit_supported "fit" Examples.dense_40x4
               VNone VNone (Examples.start Examples.kmeans_lloyd)))
    <> self (Examples.start Examples.kmeans_lloyd).
Proof.
  assert (Hafter : lookup_attr
    (self (snd (KMeans._onedal_fit_supported "fit" Examples.dense_40x4
                  VNone VNone (Examples.start Examples.kmeans_lloyd))))
    "_algorithm" = Some (VStr "lloyd")) by reflexivity.
  split; [reflexivity|]. split; [exact Hafter|].
  intros Heq. rewrite Heq in Hafter. discriminate Hafter.
Qed.

(** C4, amended.  A predicate call changes no attribute of the estimator
    other than [_algorithm]: the fit predicate of KMeans stores the value of
    [algorithm] there before it returns, and nothing else is created,
    removed or modified; the predict predicate of KMeans and both predicates
    of PCA leave the estimator as it is. *)
Theorem predicates_frame (m : string) (data : list pyval) (X y sw : pyval)
    (s : state) :
  same_attrs_but "_algorithm" s
    (snd (KMeans._onedal_fit_supported m X y sw s)) /\
  (forall d,
      fst (KMeans._onedal_fit_supported m X y sw s) = Returns d ->
      exists alg,
        lookup_attr (self s) "algorithm" = Some alg /\
        self (snd (KMeans._onedal_fit_supported m X y sw s))
          = set_dict (self s) "_algorithm" alg) /\
  same_attrs_but "_algorithm" s (snd (KMeans._onedal_gpu_supported m data s)) /\
  same_attrs_but "_algorithm" s (snd (KMeans._onedal_cpu_supported m data s)) /\
  self (snd (KMeans._onedal_predict_supported m X s)) = self s /\
  self (snd (PCA._onedal_gpu_supported m data s)) = self s /\
  self (snd (PCA._onedal_cpu_supported m data s)) = self s.
Proof.
  split; [apply KMeans_fit_supported_same_attrs|].
  split; [apply KMeans_fit_supported_returns|].
  split; [apply KMeans_supported_same_attrs|].
  split; [apply KMeans_supported_same_attrs|].
  split; [apply KMeans_predict_supported_same_self|].
  split; [apply PCA_gpu_supported_same_self|].
  apply PCA_cpu_supported_same_self.
Qed.

(** What the fit predicate leaves behind on a fresh KMeans. *)
Lemma predicates_frame_witness :
  self (snd (KMeans._onedal_fit_supported "fit" Examples.dense_40x4
               VNone VNone (Examples.start Examples.kmeans_lloyd)))
    = set_dict Examples.kmeans_lloyd "_algorithm" (VStr "lloyd").
Proof.
  destruct (proj1 (proj2 (predicates_frame "fit" [] Examples.dense_40x4
                            VNone VNone
                            (Examples.start Examples.kmeans_lloyd)))
                  _ eq_refl) as (alg & Halg & Hself).
  rewrite Hself. f_equal. by injection Halg as <-.
Defined.

(** ** Determinism of the decision *)

Lemma agree_on_KMeans o1 o2 :
  agree_on KMeans_read o1 o2 ->
  class_name o1 = class_name o2 /\
  lookup_attr o1 "algorithm" = lookup_attr o2 "algorithm" /\
  lookup_attr o1 "n_clusters" = lookup_attr o2 "n_clusters" /\
  lookup_attr o1 "init" = lookup_attr o2 "init" /\
  lookup_attr o1 "cluster_centers_" = lookup_attr o2 "cluster_centers_".
Proof.
  intros [Hname Hall]. unfold KMeans_read in Hall.
  repeat match goal with
         | H : Forall _ (_ :: _) |- _ => apply Forall_cons_1 in H as [? H]
         end.
  auto.
Qed.

Lemma agree_on_PCA o1 o2 :
  agree_on PCA_read o1 o2 ->
  class_name o1 = class_name o2 /\
  lookup_attr o1 "_fit_svd_solver" = lookup_attr o2 "_fit_svd_solver" /\
  lookup_attr o1 "_onedal_estimator" = lookup_attr o2 "_onedal_estimator".
Proof.
  intros [Hname Hall]. unfold PCA_read in Hall.
  repeat match goal with
         | H : Forall _ (_ :: _) |- _ => apply Forall_cons_1 in H as [? H]
         end.
  auto.
Qed.

Lemma KMeans_fit_supported_agree m X y sw s1 s2 :
  agree_on KMeans_read (self s1) (self s2) ->
  fst (KMeans._onedal_fit_supported m X y sw s1)
  = fst (KMeans._onedal_fit_supported m X y sw s2).
Proof.
  intros (Hname & Halg & Hk & Hinit & _)%agree_on_KMeans.
  destruct (String.eqb_spec m "fit") as [->|Hm].
  - rewrite !KMeans_fit_supported_run.
    rewrite Hname, Halg, Hk, Hinit.
    destruct (_num_samples X); [|reflexivity].
    by destruct (lookup_attr (self s2) "algorithm").
  - by rewrite !KMeans_fit_supported_rejects.
Qed.

Lemma KMeans_predict_supported_rejects m X s :
  m <> "predict" ->
  KMeans._onedal_predict_supported m X s = (Raises AssertionError, s).
Proof.
  intros Hm. apply String.eqb_neq in Hm.
  unfold KMeans._onedal_predict_supported, bind, assert. by rewrite Hm.
Qed.

Lemma KMeans_predict_supported_agree m X s1 s2 :
  agree_on KMeans_read (self s1) (self s2) ->
  fst (KMeans._onedal_predict_supported m X s1)
  = fst (KMeans._onedal_predict_supported m X s2).
Proof.
  intros (Hname & Halg & _ & _ & Hcenters)%agree_on_KMeans.
  destruct (String.eqb_spec m "predict") as [->|Hm].
  - rewrite !KMeans_predict_supported_run.
    by rewrite Hname, Halg, Hcenters.
  - by rewrite !KMeans_predict_supported_rejects.
Qed.

Lemma KMeans_supported_agree m data s1 s2 :
  agree_on KMeans_read (self s1) (self s2) ->
  fst (KMeans._onedal_supported m data s1)
  = fst (KMeans._onedal_supported m data s2).
Proof.
  intros Hagree. unfold KMeans._onedal_supported.
  destruct (String.eqb m "fit"); [|destruct (String.eqb m "predict")].
  - destruct data as [|X [|y [|sw [|? ?]]]];
      auto using KMeans_fit_supported_agree.
  - destruct data as [|X [|? ?]]; auto using KMeans_predict_supported_agree.
  - destruct Hagree as [Hname _]. simpl. by rewrite Hname.
Qed.

Lemma PCA_supported_agree m data s1 s2 :
  agree_on PCA_read (self s1) (self s2) ->
  fst (PCA._onedal_gpu_supported m data s1)
  = fst (PCA._onedal_gpu_supported m data s2) /\
  fst (PCA._onedal_cpu_supported m data s1)
  = fst (PCA._onedal_cpu_supported m data s2).
Proof.
  intros (Hname & Hsolver & Hfitted)%agree_on_PCA.
  rewrite !PCA_gpu_supported_run, !PCA_cpu_supported_run. cbn [fst].
  by rewrite Hname, Hsolver, Hfitted.
Qed.

Lemma same_attrs_but_agree spared attrs s s' :
  same_attrs_but spared s s' -> spared ∉ attrs ->
  agree_on attrs (self s') (self s).
Proof.
  intros (Hname & Hclass & Hdict) Hspared. split; [done|].
  apply Forall_forall. intros a Ha. unfold lookup_attr.
  rewrite Hclass, Hdict; [done|]. intros ->. by apply Hspared.
Qed.

(** C5.  The decision of a predicate is a function of the method name, the
    call arguments and the attributes the predicate reads: two estimators
    that agree on those attributes get the same decision (or the same
    exception) whatever the rest of the state is, and asking again right
    after a call gives the same answer as the first time. *)
Theorem decisions_deterministic (m : string) (data : list pyval)
    (s1 s2 : state) :
  (agree_on KMeans_read (self s1) (self s2) ->
     fst (KMeans._onedal_supported m data s1)
       = fst (KMeans._onedal_supported m data s2) /\
     fst (KMeans._onedal_gpu_supported m data s1)
       = fst (KMeans._onedal_gpu_supported m data s2) /\
     fst (KMeans._onedal_cpu_supported m data s1)
       = fst (KMeans._onedal_cpu_supported m data s2)) /\
  (agree_on PCA_read (self s1) (self s2) ->
     fst (PCA._onedal_gpu_supported m data s1)
       = fst (PCA._onedal_gpu_supported m data s2) /\
     fst (PCA._onedal_cpu_supported m data s1)
       = fst (PCA._onedal_cpu_supported m data s2)) /\
  fst (KMeans._onedal_supported m data
         (snd (KMeans._onedal_supported m data s1)))
    = fst (KMeans._onedal_supported m data s1) /\
  fst (PCA._onedal_gpu_supported m data
         (snd (PCA._onedal_gpu_supported m data s1)))
    = fst (PCA._onedal_gpu_supported m data s1) /\
  fst (PCA._onedal_cpu_supported m data
         (snd (PCA._onedal_cpu_supported m data s1)))
    = fst (PCA._onedal_cpu_supported m data s1).
Proof.
  split; [|split; [|split; [|split]]].
  - intros Hagree.
    unfold KMeans._onedal_gpu_supported, KMeans._onedal_cpu_supported.
    auto using KMeans_supported_agree.
  - apply PCA_supported_agree.
  - apply KMeans_supported_agree.
    apply (same_attrs_but_agree "_algorithm");
      [apply KMeans_supported_same_attrs|].
    unfold KMeans_read. intros Hin.
    repeat (apply elem_of_cons in Hin as [Hin|Hin]; [discriminate|]).
    by apply elem_of_nil in Hin.
  - apply PCA_supported_agree. split.
    + by rewrite PCA_gpu_supported_same_self.
    + apply Forall_forall. intros a _. by rewrite PCA_gpu_supported_same_self.
  - apply PCA_supported_agree. split.
    + by rewrite PCA_cpu_supported_same_self.
    + apply Forall_forall. intros a _. by rewrite PCA_cpu_supported_same_self.
Qed.

(** The same configuration with a stale [_algorithm], earlier output and an
    earlier invocation decides the same. *)
Lemma decisions_deterministic_witness :
  fst (KMeans._onedal_supported "fit" [Examples.dense_40x4]
         (Examples.start Examples.kmeans_lloyd))
  = fst (KMeans._onedal_supported "fit" [Examples.dense_40x4]
           (mk_state (set_dict Examples.kmeans_lloyd "_algorithm" (VStr "elkan"))
                     ["earlier output"] ["sklearn"])).
Proof.
  refine (proj1 (proj1 (decisions_deterministic "fit" [Examples.dense_40x4]
           (Examples.start Examples.kmeans_lloyd)
           (mk_state (set_dict Examples.kmeans_lloyd "_algorithm" (VStr "elkan"))
                     ["earlier output"] ["sklearn"])) _)).
  split; [reflexivity|]. unfold KMeans_read.
  repeat (constructor; [reflexivity|]). constructor.
Defined.

(** ** The shape of a decision *)

(** The CPU predicate of PCA asked about a fit that resolved to "full": the
    answer is the bare boolean [True], with no list of conditions. *)
Lemma PCA_decision_is_bare :
  fst (PCA._onedal_cpu_supported "decomposition.PCA.fit"
         [Examples.dense_40x4] (Examples.start (Examples.pca_fitting "full")))
    = Returns (Bare true) /\
  ~ exists ps,
      fst (PCA._onedal_cpu_supported "decomposition.PCA.fit"
             [Examples.dense_40x4]
             (Examples.start (Examples.pca_fitting "full")))
        = Returns (Chain ps).
Proof.
  split; [reflexivity|]. intros [ps Hps]. discriminate Hps.
Qed.

Lemma KMeans_fit_supported_chain m X y sw s d :
  fst (KMeans._onedal_fit_supported m X y sw s) = Returns d ->
  chain_of KMeans_fit_descriptions d.
Proof.
  destruct (String.eqb_spec m "fit") as [->|Hm];
    [|by rewrite KMeans_fit_supported_rejects].
  rewrite KMeans_fit_supported_run.
  destruct (_num_samples X) as [n|]; [|discriminate].
  destruct (lookup_attr (self s) "algorithm") as [alg|]; [|discriminate].
  cbn [fst].
  destruct (lookup_attr (self s) "n_clusters") as [k|]; [|discriminate].
  destruct (py_lt_int k n) as [c|]; [|discriminate].
  destruct (lookup_attr (self s) "init") as [i|]; [|discriminate].
  intros [= <-]. eexists. split; [reflexivity|]. split; reflexivity.
Qed.

Lemma KMeans_predict_supported_chain m X s d :
  fst (KMeans._onedal_predict_supported m X s) = Returns d ->
  chain_of KMeans_predict_descriptions d.
Proof.
  destruct (String.eqb_spec m "predict") as [->|Hm];
    [|by rewrite KMeans_predict_supported_rejects].
  rewrite KMeans_predict_supported_run. cbn [fst].
  destruct (lookup_attr (self s) "cluster_centers_") as [c|]; [|discriminate].
  destruct (lookup_attr (self s) "algorithm") as [alg|]; [|discriminate].
  intros [= <-]. eexists. split; [reflexivity|]. split; reflexivity.
Qed.

(** C7, amended.  Whenever a predicate of KMeans returns, it returns the
    verdict together with the ordered list of (description, passed) pairs,
    one per condition: five for "fit", three for "predict".  The predicates
    of PCA return a bare boolean instead. *)
Theorem decision_shape (m : string) (data : list pyval) (s : state)
    (d : decision) :
  (forall predicate,
     predicate = KMeans._onedal_supported \/
     predicate = KMeans._onedal_gpu_supported \/
     predicate = KMeans._onedal_cpu_supported ->
     fst (predicate m data s) = Returns d ->
     (m = "fit" /\ chain_of KMeans_fit_descriptions d) \/
     (m = "predict" /\ chain_of KMeans_predict_descriptions d)) /\
  (fst (PCA._onedal_gpu_supported m data s) = Returns d -> exists b, d = Bare b) /\
  (fst (PCA._onedal_cpu_supported m data s) = Returns d -> exists b, d = Bare b).
Proof.
  split; [|split].
  - intros predicate Hpredicate.
    assert (predicate = KMeans._onedal_supported) as ->
      by (by destruct Hpredicate as [->|[->| ->]]).
    unfold KMeans._onedal_supported.
    destruct (String.eqb_spec m "fit") as [->|Hfit];
      [|destruct (String.eqb_spec m "predict") as [->|Hpredict]].
    + intros Hrun. left. split; [done|].
      destruct data as [|X [|y [|sw [|? ?]]]]; try discriminate;
        eauto using KMeans_fit_supported_chain.
    + intros Hrun. right. split; [done|].
      destruct data as [|X [|? ?]]; try discriminate;
        eauto using KMeans_predict_supported_chain.
    + discriminate.
  - rewrite PCA_gpu_supported_run. cbn [fst].
    destruct (String.eqb m "decomposition.PCA.fit");
      [destruct (lookup_attr (self s) "_fit_svd_solver")
      |destruct (String.eqb m "decomposition.PCA.transform")];
      intros [= <-] || discriminate; eauto.
  - rewrite PCA_cpu_supported_run. cbn [fst].
    destruct (String.eqb m "decomposition.PCA.fit");
      [destruct (lookup_attr (self s) "_fit_svd_solver")
      |destruct (String.eqb m "decomposition.PCA.transform")];
      intros [= <-] || discriminate; eauto.
Qed.

(** The chain returned for a sparse input: five conditions, failing verdict. *)
Lemma decision_shape_witness :
  exists d,
    fst (KMeans._onedal_supported "fit" [Examples.sparse_40x4]
           (Examples.start Examples.kmeans_lloyd)) = Returns d /\
    chain_of KMeans_fit_descriptions d /\ passes d = false.
Proof.
  eexists. split; [reflexivity|]. split; [|reflexivity].
  destruct (proj1 (decision_shape "fit" [Examples.sparse_40x4]
                     (Examples.start Examples.kmeans_lloyd) _)
                  KMeans._onedal_supported (or_introl eq_refl) eq_refl)
    as [[_ Hchain]|[Hm _]]; [exact Hchain | discriminate Hm].
Defined.

(** ** The dispatcher *)

Lemma dispatch_by_verdict ctx cls m branches args s :
  Dispatch.dispatch ctx cls m branches args s =
  match Dispatch.accelerated_verdict ctx cls m args s with
  | (Returns true, s1) => Dispatch.invoke branches "onedal" args s1
  | (Returns false, s1) => Dispatch.invoke branches "sklearn" args s1
  | (Raises e, s1) => (Raises e, s1)
  end.
Proof.
  unfold Dispatch.dispatch, Dispatch.accelerated_verdict.
  destruct ctx;
    cbn [List.filter Dispatch.available Dispatch.priority
         Dispatch.try_backends Dispatch.accelerated_among];
    unfold bind, ret.
  - destruct (Dispatch._onedal_cpu_supported cls m args s) as [[d|e] s1];
      [destruct (passes d)|]; reflexivity.
  - destruct (Dispatch._onedal_gpu_supported cls m args s) as [[d|e] s1];
      [destruct (passes d)|]; try reflexivity.
    destruct (Dispatch._onedal_cpu_supported cls m args s1) as [[d'|e] s2];
      [destruct (passes d')|]; reflexivity.
Qed.

Lemma accelerated_verdict_same_invoked ctx cls m args :
  preserves same_invoked (Dispatch._onedal_gpu_supported cls m args) ->
  preserves same_invoked (Dispatch._onedal_cpu_supported cls m args) ->
  preserves same_invoked (Dispatch.accelerated_verdict ctx cls m args).
Proof.
  intros Hgpu Hcpu. unfold Dispatch.accelerated_verdict.
  destruct ctx;
    cbn [List.filter Dispatch.available Dispatch.priority
         Dispatch.accelerated_among];
    frame_steps.
Qed.

Lemma invoke_present (branches : gmap string callable) key args s f :
  branches !! key = Some f ->
  Dispatch.invoke branches key args s =
  (fst (f (self s) args),
   mk_state (snd (f (self s) args)) (stdout s) (key :: invoked s)).
Proof.
  intros Hkey. unfold Dispatch.invoke. rewrite Hkey.
  by destruct (f (self s) args).
Qed.

Lemma invoke_missing (branches : gmap string callable) key args s :
  branches !! key = None ->
  Dispatch.invoke branches key args s = (Raises (KeyError key), s).
Proof.
  intros Hkey. unfold Dispatch.invoke, callable in *. by rewrite Hkey.
Qed.

Lemma site_predicates_same_invoked c args :
  preserves same_invoked
    (Dispatch._onedal_gpu_supported (site_cls c) (site_method c) args) /\
  preserves same_invoked
    (Dispatch._onedal_cpu_supported (site_cls c) (site_method c) args).
Proof.
  destruct c; simpl; split;
    auto using KMeans_supported_same_invoked,
      PCA_gpu_supported_same_invoked, PCA_cpu_supported_same_invoked.
Qed.

Lemma site_branches_onedal accelerated reference c :
  site_branches accelerated reference c !! "onedal" = Some accelerated.
Proof. by destruct c. Qed.

Lemma site_branches_sklearn accelerated reference c :
  site_branches accelerated reference c !! "sklearn" =
  match c with
  | PCA_fit_cov => None
  | _ => Some reference
  end.
Proof. by destruct c. Qed.

(** On the "cov" path both accelerated predicates of PCA pass. *)
Lemma PCA_cov_verdict ctx args s :
  lookup_attr (self s) "_fit_svd_solver" = Some (VStr "cov") ->
  fst (Dispatch.accelerated_verdict ctx PCA.cls "decomposition.PCA.fit"
         args s) = Returns true.
Proof.
  intros Hsolver. unfold Dispatch.accelerated_verdict.
  destruct ctx;
    cbn [List.filter Dispatch.available Dispatch.priority
         Dispatch.accelerated_among PCA.cls
         Dispatch._onedal_gpu_supported Dispatch._onedal_cpu_supported];
    unfold bind.
  - rewrite PCA_cpu_supported_run. cbn [String.eqb Ascii.eqb Bool.eqb].
    by rewrite Hsolver.
  - rewrite PCA_gpu_supported_run. cbn [String.eqb Ascii.eqb Bool.eqb self].
    by rewrite Hsolver.
Qed.

(** What the log of invocations looks like after a dispatched call, by the
    verdict of the accelerated predicates. *)
Lemma dispatched_invoked ctx accelerated reference c args s :
  match fst (Dispatch.accelerated_verdict ctx (site_cls c) (site_method c)
               args s) with
  | Returns true =>
      invoked (snd (dispatched ctx accelerated reference c args s))
        = "onedal" :: invoked s
  | Returns false =>
      c <> PCA_fit_cov ->
      invoked (snd (dispatched ctx accelerated reference c args s))
        = "sklearn" :: invoked s
  | Raises e =>
      fst (dispatched ctx accelerated reference c args s) = Raises e /\
      invoked (snd (dispatched ctx accelerated reference c args s))
        = invoked s
  end.
Proof.
  unfold dispatched. rewrite dispatch_by_verdict.
  destruct (site_predicates_same_invoked c args) as [Hgpu Hcpu].
  pose proof (accelerated_verdict_same_invoked ctx _ _ _ Hgpu Hcpu s) as Hlog.
  unfold same_invoked in Hlog.
  destruct (Dispatch.accelerated_verdict ctx (site_cls c) (site_method c)
              args s) as [[[]|e] s1]; cbn [fst snd] in *.
  - rewrite (invoke_present _ _ _ _ _
               (site_branches_onedal accelerated reference c)).
    simpl. by rewrite Hlog.
  - intros Hc.
    assert (Href : site_branches accelerated reference c !! "sklearn"
                   = Some reference)
      by (rewrite site_branches_sklearn; by destruct c).
    rewrite (invoke_present _ _ _ _ _ Href). simpl. by rewrite Hlog.
  - done.
Qed.

(** A backend map without a reference callable fails the call with a
    [KeyError] as soon as every accelerated predicate returns a failing
    verdict. *)
Lemma dispatch_without_reference ctx cls m (branches : gmap string callable)
    args s :
  branches !! "sklearn" = None ->
  fst (Dispatch.accelerated_verdict ctx cls m args s) = Returns false ->
  fst (Dispatch.dispatch ctx cls m branches args s)
  = Raises (KeyError "sklearn").
Proof.
  intros Hmissing Hfalse. rewrite dispatch_by_verdict.
  destruct (Dispatch.accelerated_verdict ctx cls m args s) as [r s1].
  cbn [fst] in Hfalse. subst r. by rewrite invoke_missing.
Qed.

(** The verdict of the dispatcher is as deterministic as the predicates it
    asks: estimators that agree on what the predicates of the call site read
    get the same verdict, on either device. *)
Lemma agree_on_sym attrs o1 o2 : agree_on attrs o1 o2 -> agree_on attrs o2 o1.
Proof.
  intros [Hname Hall]. split; [done|].
  eapply Forall_impl; [exact Hall|]. by intros a ->.
Qed.

Lemma agree_on_trans attrs o1 o2 o3 :
  agree_on attrs o1 o2 -> agree_on attrs o2 o3 -> agree_on attrs o1 o3.
Proof.
  intros [Hname12 Hall12] [Hname23 Hall23]. split; [congruence|].
  rewrite Forall_forall in *. intros a Ha.
  by rewrite (Hall12 a Ha), (Hall23 a Ha).
Qed.

Lemma site_predicates_agree c args s1 s2 :
  agree_on (site_reads c) (self s1) (self s2) ->
  fst (Dispatch._onedal_gpu_supported (site_cls c) (site_method c) args s1)
  = fst (Dispatch._onedal_gpu_supported (site_cls c) (site_method c) args s2)
  /\
  fst (Dispatch._onedal_cpu_supported (site_cls c) (site_method c) args s1)
  = fst (Dispatch._onedal_cpu_supported (site_cls c) (site_method c) args s2).
Proof.
  destruct c; cbn [site_reads site_cls site_method KMeans.cls PCA.cls
                   Dispatch._onedal_gpu_supported
                   Dispatch._onedal_cpu_supported];
    intros Hagree;
    first [ by apply PCA_supported_agree
          | split; by apply KMeans_supported_agree ].
Qed.

Lemma site_predicates_keep_reads c args s :
  agree_on (site_reads c)
    (self (snd (Dispatch._onedal_gpu_supported (site_cls c) (site_method c)
                  args s))) (self s) /\
  agree_on (site_reads c)
    (self (snd (Dispatch._onedal_cpu_supported (site_cls c) (site_method c)
                  args s))) (self s).
Proof.
  assert (Hfresh : forall c', "_algorithm" ∉ site_reads c').
  { intros c' Hin. destruct c'; cbn in Hin;
      repeat (apply elem_of_cons in Hin as [Hin|Hin]; [discriminate|]);
      by apply elem_of_nil in Hin. }
  split; apply (same_attrs_but_agree "_algorithm"); try apply Hfresh;
    destruct c; cbn [site_cls site_method KMeans.cls PCA.cls
                     Dispatch._onedal_gpu_supported
                     Dispatch._onedal_cpu_supported];
    first [ apply KMeans_supported_same_attrs
          | apply same_self_same_attrs_but, PCA_gpu_supported_same_self
          | apply same_self_same_attrs_but, PCA_cpu_supported_same_self ].
Qed.

Lemma verdict_deterministic ctx c args s1 s2 :
  agree_on (site_reads c) (self s1) (self s2) ->
  fst (Dispatch.accelerated_verdict ctx (site_cls c) (site_method c) args s1)
  = fst (Dispatch.accelerated_verdict ctx (site_cls c) (site_method c) args
           s2).
Proof.
  intros Hagree. unfold Dispatch.accelerated_verdict.
  destruct ctx;
    cbn [List.filter Dispatch.available Dispatch.priority
         Dispatch.accelerated_among];
    unfold bind, ret.
  - destruct (site_predicates_agree c args s1 s2 Hagree) as [_ Hcpu].
    destruct (Dispatch._onedal_cpu_supported _ _ args s1) as [r1 t1].
    destruct (Dispatch._onedal_cpu_supported _ _ args s2) as [r2 t2].
    cbn [fst] in Hcpu. subst r2.
    destruct r1 as [d|e]; [by destruct (passes d) | done].
  - destruct (site_predicates_agree c args s1 s2 Hagree) as [Hgpu _].
    destruct (site_predicates_keep_reads c args s1) as [Hkeep1 _].
    destruct (site_predicates_keep_reads c args s2) as [Hkeep2 _].
    destruct (Dispatch._onedal_gpu_supported _ _ args s1) as [r1 t1].
    destruct (Dispatch._onedal_gpu_supported _ _ args s2) as [r2 t2].
    cbn [fst snd] in *. subst r2.
    destruct r1 as [d|e]; [|done]. destruct (passes d); [done|].
    assert (Hagree' : agree_on (site_reads c) (self t1) (self t2)).
    { apply (agree_on_trans _ _ (self s1)); [done|].
      apply (agree_on_trans _ _ (self s2)); [done|].
      by apply agree_on_sym. }
    destruct (site_predicates_agree c args t1 t2 Hagree') as [_ Hcpu].
    destruct (Dispatch._onedal_cpu_supported _ _ args t1) as [r1 u1].
    destruct (Dispatch._onedal_cpu_supported _ _ args t2) as [r2 u2].
    cbn [fst] in Hcpu. subst r2.
    destruct r1 as [d'|e]; [by destruct (passes d') | done].
Qed.

(** Symbolic execution of the primitives under a [bind]. *)
Lemma bind_getattr {B} a (k : pyval -> M B) s v :
  lookup_attr (self s) a = Some v -> bind (getattr a) k s = k v s.
Proof. intros Hv. unfold bind. by rewrite getattr_run, Hv. Qed.

Lemma bind_lift_returns {A B} (a : A) (k : A -> M B) s :
  bind (lift (Returns a)) k s = k a s.
Proof. reflexivity. Qed.

Lemma bind_ret {A B} (a : A) (k : A -> M B) s : bind (ret a) k s = k a s.
Proof. reflexivity. Qed.

Lemma bind_setattr {B} a v (k : unit -> M B) s :
  bind (setattr a v) k s =
  k tt (mk_state (set_dict (self s) a v) (stdout s) (invoked s)).
Proof. reflexivity. Qed.

Lemma bind_bind {A B C} (m : M A) (k : A -> M B) (h : B -> M C) s :
  bind (bind m k) h s = bind m (fun a => bind (k a) h) s.
Proof. unfold bind. by destruct (m s) as [[a|e] s1]. Qed.

(** [PCA._fit] with [svd_solver] given as "cov" or "full": once the input is
    checked, the call is the dispatch at the call site of that solver, on
    an estimator whose [_fit_svd_solver] is the solver. *)
Lemma PCA_fit_explicit_solver ctx _check_array accelerated reference truncated
    lt_scaled_min X0 X copy n_components solver c s :
  (solver = "cov" /\ c = PCA_fit_cov) \/ (solver = "full" /\ c = PCA_fit_full) ->
  issparse X0 = false ->
  lookup_attr (self s) "copy" = Some copy ->
  _check_array X0 copy = Returns X ->
  lookup_attr (self s) "n_components" = Some n_components ->
  (is_none n_components = true ->
     exists dims smallest,
       shape_of X = Returns dims /\ py_min dims = Returns smallest) ->
  lookup_attr (self s) "svd_solver" = Some (VStr solver) ->
  PCA._fit ctx _check_array accelerated reference truncated lt_scaled_min
    X0 s
  = dispatched ctx accelerated reference c [X]
      (mk_state (set_dict (self s) "_fit_svd_solver" (VStr solver))
                (stdout s) (invoked s)).
Proof.
  intros Hsite Hdense Hcopy Hcheck Hn Hdims Hsolver.
  unfold PCA._fit. rewrite Hdense.
  rewrite (bind_getattr _ _ _ _ Hcopy), Hcheck, bind_lift_returns.
  rewrite (bind_getattr _ _ _ _ Hn).
  assert (Hresolved : exists nc,
    forall B (k : pyval -> M B),
      bind (if is_none n_components
            then
              let! svd_solver := getattr "svd_solver" in
              let! dims := lift (shape_of X) in
              let! smallest := lift (py_min dims) in
              if negb (py_eq svd_solver (VStr "arpack"))
              then ret (VInt (Z.of_nat smallest))
              else ret (VInt (Z.of_nat smallest - 1))
            else getattr "n_components") k s = k nc s).
  { destruct (is_none n_components).
    - destruct (Hdims eq_refl) as (dims & smallest & Hshape & Hmin).
      exists (if negb (py_eq (VStr solver) (VStr "arpack"))
              then VInt (Z.of_nat smallest)
              else VInt (Z.of_nat smallest - 1)).
      intros B k. rewrite bind_bind.
      rewrite (bind_getattr _ _ _ _ Hsolver).
      rewrite Hshape, bind_bind, bind_lift_returns.
      rewrite Hmin, bind_bind, bind_lift_returns.
      destruct (negb (py_eq (VStr solver) (VStr "arpack")));
        by rewrite bind_ret.
    - exists n_components. intros B k. by rewrite (bind_getattr _ _ _ _ Hn). }
  destruct Hresolved as [nc ->].
  rewrite (bind_getattr _ _ _ _ Hsolver), bind_setattr.
  erewrite bind_getattr by apply lookup_attr_set_eq.
  destruct Hsite as [[-> ->]|[-> ->]];
    cbn [py_eq String.eqb Ascii.eqb Bool.eqb]; rewrite bind_ret;
    (erewrite bind_getattr by apply lookup_attr_set_eq); reflexivity.
Qed.

Lemma PCA_fit_cov_path ctx _check_array accelerated reference truncated
    lt_scaled_min X0 X copy n_components s :
  issparse X0 = false ->
  lookup_attr (self s) "copy" = Some copy ->
  _check_array X0 copy = Returns X ->
  lookup_attr (self s) "n_components" = Some n_components ->
  (is_none n_components = true ->
     exists dims smallest,
       shape_of X = Returns dims /\ py_min dims = Returns smallest) ->
  lookup_attr (self s) "svd_solver" = Some (VStr "cov") ->
  PCA._fit ctx _check_array accelerated reference truncated lt_scaled_min
    X0 s
  = dispatched ctx accelerated reference PCA_fit_cov [X]
      (mk_state (set_dict (self s) "_fit_svd_solver" (VStr "cov"))
                (stdout s) (invoked s)).
Proof. apply PCA_fit_explicit_solver. by left. Qed.

(** The other three call sites, read off the methods. *)
Lemma KMeans_fit_dispatches installed ctx _check_feature_names
    _validate_params accelerated reference X y sample_weight :
  KMeans.fit installed ctx _check_feature_names _validate_params
    accelerated reference X y sample_weight
  = (let! _ := KMeans.validate installed _check_feature_names
                 _validate_params X in
     let! _ := dispatched ctx accelerated reference KMeans_fit
                 [X; y; sample_weight] in
     fun s => (Returns (self s), s)).
Proof. reflexivity. Qed.

Lemma KMeans_predict_dispatches installed ctx _check_feature_names
    _validate_params accelerated reference wrap_output_data X :
  KMeans.predict installed ctx _check_feature_names _validate_params
    accelerated reference wrap_output_data X
  = (let! _ := KMeans.validate installed _check_feature_names
                 _validate_params X in
     let! r := dispatched ctx accelerated reference KMeans_predict [X] in
     ret (wrap_output_data [X] r)).
Proof. reflexivity. Qed.

Lemma PCA_transform_dispatches ctx _check_array check_is_fitted accelerated
    reference X0 X copy s :
  check_is_fitted (self s) = Returns tt ->
  lookup_attr (self s) "copy" = Some copy ->
  _check_array X0 copy = Returns X ->
  PCA.transform ctx _check_array check_is_fitted accelerated reference X0 s
  = dispatched ctx accelerated reference PCA_transform [X] s.
Proof.
  intros Hfitted Hcopy Hcheck. unfold PCA.transform.
  unfold bind at 1. rewrite Hfitted.
  by rewrite (bind_getattr _ _ _ _ Hcopy), Hcheck, bind_lift_returns.
Qed.

(** ** Exactly one backend runs *)



(** ** The reference implementation as the fallback *)

(** The backend map that [PCA._fit] hands over for [svd_solver="cov"] has no
    reference callable. *)
Lemma PCA_cov_map_lacks_reference :
  PCA._fit Dispatch.on_host Examples.accept Examples.idle Examples.idle
    Examples.refuse Examples.below_four_fifths Examples.dense_40x4
    (Examples.start (Examples.pca "cov"))
  = Dispatch.dispatch Dispatch.on_host PCA.cls "decomposition.PCA.fit"
      (PCA.fit_cov_branches Examples.idle) [Examples.dense_40x4]
      (Examples.start (Examples.pca_fitting "cov")) /\
  PCA.fit_cov_branches Examples.idle !! "sklearn" = None.
Proof. split; reflexivity. Qed.

(** C2, amended.  At every call handed to the dispatcher other than the
    "cov" fit of PCA, the backend map holds a reference callable, and when
    every accelerated predicate returns a failing verdict the call is the
    call of that reference callable.  The map of the "cov" fit holds the
    accelerated callable only; there [_fit_svd_solver] is "cov", both
    accelerated predicates pass and the accelerated callable is invoked, so
    the missing reference is never looked up. *)
Theorem reference_fallback (ctx : Dispatch.device_context)
    (accelerated reference : callable) (c : call_site) (args : list pyval)
    (s : state) :
  (c <> PCA_fit_cov ->
     site_branches accelerated reference c !! "sklearn" = Some reference /\
     (fst (Dispatch.accelerated_verdict ctx (site_cls c) (site_method c)
             args s) = Returns false ->
      dispatched ctx accelerated reference c args s
        = Dispatch.invoke (site_branches accelerated reference c) "sklearn"
            args (after_predicates ctx c args s) /\
      fst (dispatched ctx accelerated reference c args s)
        = fst (reference (self (after_predicates ctx c args s)) args) /\
      invoked (snd (dispatched ctx accelerated reference c args s))
        = "sklearn" :: invoked s)) /\
  (c = PCA_fit_cov ->
     site_branches accelerated reference c !! "sklearn" = None /\
     site_branches accelerated reference c !! "onedal" = Some accelerated /\
     (lookup_attr (self s) "_fit_svd_solver" = Some (VStr "cov") ->
      fst (Dispatch.accelerated_verdict ctx (site_cls c) (site_method c)
             args s) = Returns true /\
      invoked (snd (dispatched ctx accelerated reference c args s))
        = "onedal" :: invoked s)) /\
  (forall _check_array truncated lt_scaled_min X0 X copy n_components,
     issparse X0 = false ->
     lookup_attr (self s) "copy" = Some copy ->
     _check_array X0 copy = Returns X ->
     lookup_attr (self s) "n_components" = Some n_components ->
     (is_none n_components = true ->
        exists dims smallest,
          shape_of X = Returns dims /\ py_min dims = Returns smallest) ->
     lookup_attr (self s) "svd_solver" = Some (VStr "cov") ->
     invoked (snd (PCA._fit ctx _check_array accelerated reference truncated
                     lt_scaled_min X0 s))
       = "onedal" :: invoked s).
Proof.
  split; [|split].
  - intros Hc. rewrite site_branches_sklearn.
    split; [by destruct c|]. intros Hfalse.
    pose proof (dispatched_invoked ctx accelerated reference c args s) as Hlog.
    rewrite Hfalse in Hlog. specialize (Hlog Hc).
    assert (Hcall : dispatched ctx accelerated reference c args s
        = Dispatch.invoke (site_branches accelerated reference c) "sklearn"
            args (after_predicates ctx c args s)).
    { unfold dispatched, after_predicates. rewrite dispatch_by_verdict.
      destruct (Dispatch.accelerated_verdict ctx (site_cls c) (site_method c)
                  args s) as [[[]|e] s1]; cbn [fst snd] in *;
        done || discriminate. }
    split; [exact Hcall|]. split; [|exact Hlog].
    rewrite Hcall. erewrite invoke_present; [reflexivity|].
    rewrite site_branches_sklearn. by destruct c.
  - intros ->. split; [reflexivity|]. split; [reflexivity|].
    intros Hsolver.
    pose proof (PCA_cov_verdict ctx args s Hsolver) as Hverdict.
    split; [exact Hverdict|].
    pose proof (dispatched_invoked ctx accelerated reference PCA_fit_cov
                  args s) as Hlog.
    cbn [site_cls site_method] in Hlog. by rewrite Hverdict in Hlog.
  - intros check truncated lt X0 X copy n_components
           Hdense Hcopy Hcheck Hn Hdims Hsolver.
    rewrite (PCA_fit_cov_path ctx check accelerated reference truncated lt
               X0 X copy n_components s Hdense Hcopy Hcheck Hn Hdims Hsolver).
    pose proof (dispatched_invoked ctx accelerated reference PCA_fit_cov [X]
      (mk_state (set_dict (self s) "_fit_svd_solver" (VStr "cov"))
                (stdout s) (invoked s))) as Hlog.
    cbn [site_cls site_method] in Hlog.
    rewrite PCA_cov_verdict in Hlog by apply lookup_attr_set_eq.
    exact Hlog.
Qed.

(** The fallback of KMeans fit on a sparse input, and the "cov" fit of PCA
    on an accelerator. *)
Lemma reference_fallback_witness :
  fst (dispatched Dispatch.on_host Examples.idle Examples.idle KMeans_fit
         [Examples.sparse_40x4; VNone; VNone]
         (Examples.start Examples.kmeans_lloyd))
    = Returns VNone /\
  invoked (snd (PCA._fit Dispatch.on_accelerator Examples.accept
                  Examples.idle Examples.idle Examples.refuse
                  Examples.below_four_fifths Examples.dense_40x4
                  (Examples.start (Examples.pca "cov"))))
    = ["onedal"].
Proof.
  split.
  - destruct (proj1 (reference_fallback Dispatch.on_host Examples.idle
                       Examples.idle KMeans_fit
                       [Examples.sparse_40x4; VNone; VNone]
                       (Examples.start Examples.kmeans_lloyd)))
      as [_ Hfallback]; [discriminate|].
    destruct (Hfallback eq_refl) as (_ & Hresult & _).
    rewrite Hresult. reflexivity.
  - apply (proj2 (proj2 (reference_fallback Dispatch.on_accelerator
                           Examples.idle Examples.idle PCA_fit_cov []
                           (Examples.start (Examples.pca "cov"))))
             Examples.accept Examples.refuse Examples.below_four_fifths
             Examples.dense_40x4 Examples.dense_40x4 (VBool true) VNone);
      try reflexivity.
    intros _. by exists [40; 4]%nat, 4%nat.
Defined.

(** ** The order on releases *)

Lemma all_zero_cons x a :
  all_zero (x :: a) = true <-> x = 0%nat /\ all_zero a = true.
Proof.
  unfold all_zero. cbn [forallb]. rewrite andb_true_iff, Nat.eqb_eq.
  split; intros [Hx Ha]; by split.
Qed.

Lemma all_zero_le a c : all_zero a = true -> release_le a c.
Proof.
  unfold release_le. revert c. induction a as [|x a IH]; intros c Hzero.
  - cbn [release_cmp]. by destruct (all_zero c).
  - pose proof Hzero as [-> Ha]%all_zero_cons.
    destruct c as [|z c]; cbn [release_cmp].
    + by rewrite Hzero.
    + destruct z; simpl; [by apply IH | discriminate].
Qed.

Lemma le_all_zero a b :
  release_le a b -> all_zero b = true -> all_zero a = true.
Proof.
  unfold release_le. revert b. induction a as [|x a IH]; intros b Hle Hzero.
  - reflexivity.
  - destruct b as [|y b]; cbn [release_cmp] in Hle.
    + by destruct (all_zero (x :: a)).
    + apply all_zero_cons in Hzero as [-> Hb].
      apply all_zero_cons.
      destruct x; simpl in Hle; [split; [done|by apply (IH b)] | done].
Qed.

Lemma release_le_trans a b c :
  release_le a b -> release_le b c -> release_le a c.
Proof.
  revert b c. induction a as [|x a IH]; intros b c Hab Hbc.
  - unfold release_le. cbn [release_cmp]. by destruct (all_zero c).
  - destruct b as [|y b].
    + apply all_zero_le. unfold release_le in Hab. cbn [release_cmp] in Hab.
      by destruct (all_zero (x :: a)).
    + destruct c as [|z c].
      * apply all_zero_le. apply (le_all_zero _ (y :: b)); [done|].
        unfold release_le in Hbc. cbn [release_cmp] in Hbc.
        by destruct (all_zero (y :: b)).
      * unfold release_le in *. cbn [release_cmp] in *.
        destruct (Nat.compare_spec x y) as [->|Hxy|Hxy]; [| |done].
        -- destruct (Nat.compare_spec y z) as [->|Hyz|Hyz]; [| done |done].
           by apply (IH b c).
        -- destruct (Nat.compare_spec y z) as [->|Hyz|Hyz]; [| |done].
           ++ apply Nat.compare_lt_iff in Hxy. by rewrite Hxy.
           ++ assert (Hxz : (x < z)%nat) by lia.
              apply Nat.compare_lt_iff in Hxz. by rewrite Hxz.
Qed.

Lemma sklearn_check_version_le installed ver :
  sklearn_check_version installed ver = true <->
  release_le (Version ver) installed.
Proof.
  unfold sklearn_check_version, release_le.
  destruct (release_cmp (Version ver) installed); split; done.
Qed.

Lemma sklearn_check_version_mono v1 v2 ver :
  release_le v1 v2 ->
  sklearn_check_version v1 ver = true ->
  sklearn_check_version v2 ver = true.
Proof.
  rewrite !sklearn_check_version_le. intros H12 H1.
  by apply (release_le_trans _ v1).
Qed.

(** ** The scipy requirement *)

(** C10.  The script prints exactly one requirement line, chosen by the
    first threshold the installed scikit-learn reaches, from the highest
    down: 1.2 gives [scipy==1.9], 1.1 gives [scipy==1.8], 1.0 gives
    [scipy==1.7], 0.24 gives [scipy==1.6], and below all of them the unpinned
    [scipy]; the pin never decreases when the scikit-learn release grows. *)
Theorem scipy_pin_selected (installed : release) :
  (exists line, ScipyPin.get_compatible_scipy_version installed = [line]) /\
  (release_le [1; 2]%nat installed ->
     ScipyPin.get_compatible_scipy_version installed = ["scipy==1.9"]) /\
  (~ release_le [1; 2]%nat installed -> release_le [1; 1]%nat installed ->
     ScipyPin.get_compatible_scipy_version installed = ["scipy==1.8"]) /\
  (~ release_le [1; 1]%nat installed -> release_le [1; 0]%nat installed ->
     ScipyPin.get_compatible_scipy_version installed = ["scipy==1.7"]) /\
  (~ release_le [1; 0]%nat installed -> release_le [0; 24]%nat installed ->
     ScipyPin.get_compatible_scipy_version installed = ["scipy==1.6"]) /\
  (~ release_le [0; 24]%nat installed ->
     ScipyPin.get_compatible_scipy_version installed = ["scipy"]) /\
  (forall later line line',
     release_le installed later ->
     ScipyPin.get_compatible_scipy_version installed = [line] ->
     ScipyPin.get_compatible_scipy_version later = [line'] ->
     ScipyPin.pin_le (ScipyPin.pin_of line) (ScipyPin.pin_of line')).
Proof.
  assert (H12 : release_le [1; 2]%nat [1; 2]%nat) by done.
  assert (H11 : release_le [1; 1]%nat [1; 2]%nat) by done.
  assert (H10 : release_le [1; 0]%nat [1; 1]%nat) by done.
  assert (H024 : release_le [0; 24]%nat [1; 0]%nat) by done.
  pose proof (sklearn_check_version_le installed "1.2") as E12.
  pose proof (sklearn_check_version_le installed "1.1") as E11.
  pose proof (sklearn_check_version_le installed "1.0") as E10.
  pose proof (sklearn_check_version_le installed "0.24") as E024.
  change (Version "1.2") with [1; 2]%nat in E12.
  change (Version "1.1") with [1; 1]%nat in E11.
  change (Version "1.0") with [1; 0]%nat in E10.
  change (Version "0.24") with [0; 24]%nat in E024.
  unfold ScipyPin.get_compatible_scipy_version.
  repeat split.
  - repeat case_match; eauto.
  - intros H. apply E12 in H. by rewrite H.
  - intros Hn H. apply E11 in H. rewrite H.
    destruct (sklearn_check_version installed "1.2"); [|done].
    exfalso. by apply Hn, E12.
  - intros Hn H.
    assert (Hn12 : ~ release_le [1; 2]%nat installed).
    { intros H'. apply Hn. by apply (release_le_trans _ [1; 2]%nat). }
    apply E10 in H. rewrite H.
    destruct (sklearn_check_version installed "1.2");
      [exfalso; by apply Hn12, E12|].
    destruct (sklearn_check_version installed "1.1"); [|done].
    exfalso. by apply Hn, E11.
  - intros Hn H.
    assert (Hn11 : ~ release_le [1; 1]%nat installed).
    { intros H'. apply Hn. by apply (release_le_trans _ [1; 1]%nat). }
    assert (Hn12 : ~ release_le [1; 2]%nat installed).
    { intros H'. apply Hn11. by apply (release_le_trans _ [1; 2]%nat). }
    apply E024 in H. rewrite H.
    destruct (sklearn_check_version installed "1.2");
      [exfalso; by apply Hn12, E12|].
    destruct (sklearn_check_version installed "1.1");
      [exfalso; by apply Hn11, E11|].
    destruct (sklearn_check_version installed "1.0"); [|done].
    exfalso. by apply Hn, E10.
  - intros Hn.
    assert (Hn10 : ~ release_le [1; 0]%nat installed).
    { intros H'. apply Hn. by apply (release_le_trans _ [1; 0]%nat). }
    assert (Hn11 : ~ release_le [1; 1]%nat installed).
    { intros H'. apply Hn10. by apply (release_le_trans _ [1; 1]%nat). }
    assert (Hn12 : ~ release_le [1; 2]%nat installed).
    { intros H'. apply Hn11. by apply (release_le_trans _ [1; 2]%nat). }
    destruct (sklearn_check_version installed "1.2");
      [exfalso; by apply Hn12, E12|].
    destruct (sklearn_check_version installed "1.1");
      [exfalso; by apply Hn11, E11|].
    destruct (sklearn_check_version installed "1.0");
      [exfalso; by apply Hn10, E10|].
    destruct (sklearn_check_version installed "0.24"); [|done].
    exfalso. by apply Hn, E024.
  - intros later line line' Hle.
    pose proof (sklearn_check_version_mono installed later "1.2" Hle) as M12.
    pose proof (sklearn_check_version_mono installed later "1.1" Hle) as M11.
    pose proof (sklearn_check_version_mono installed later "1.0" Hle) as M10.
    pose proof (sklearn_check_version_mono installed later "0.24" Hle) as M024.
    destruct (sklearn_check_version installed "1.2");
      [rewrite (M12 eq_refl)|
       destruct (sklearn_check_version installed "1.1");
       [rewrite (M11 eq_refl)|
        destruct (sklearn_check_version installed "1.0");
        [rewrite (M10 eq_refl)|
         destruct (sklearn_check_version installed "0.24");
         [rewrite (M024 eq_refl)|]]]];
      intros [= <-];
      repeat (destruct (sklearn_check_version later _));
      intros [= <-]; done.
Qed.

(** scikit-learn 1.1.3 gets [scipy==1.8], below what 1.4 gets. *)
Lemma scipy_pin_selected_witness :
  ScipyPin.get_compatible_scipy_version [1; 1; 3]%nat = ["scipy==1.8"] /\
  ScipyPin.pin_le (ScipyPin.pin_of "scipy==1.8") (ScipyPin.pin_of "scipy==1.9").
Proof.
  split.
  - apply (proj1 (proj2 (proj2 (scipy_pin_selected [1; 1; 3]%nat))));
      [intros H; by apply H | done].
  - apply (proj2 (proj2 (proj2 (proj2 (proj2 (proj2
             (scipy_pin_selected [1; 1; 3]%nat))))))
             [1; 4]%nat "scipy==1.8" "scipy==1.9"); done.
Defined.

(** ** The header scan of [get_onedal_version] *)

Section ScanFacts.
Import OnedalVersion.

Lemma prefix_append_l p q s :
  String.prefix (p +:+ q) s = true -> String.prefix p s = true.
Proof.
  revert s. induction p as [|c p IH]; intros s; [by destruct s|].
  change (String c p +:+ q) with (String c (p +:+ q)).
  destruct s as [|c' s]; [done|]. simpl.
  destruct (ascii_dec c c'); [apply IH | done].
Qed.

Lemma prefix_contains p s : String.prefix p s = true -> contains p s = true.
Proof. intros H. destruct s; cbn [contains]; by rewrite H. Qed.

Lemma append_assoc (a b c : string) : (a +:+ b) +:+ c = a +:+ (b +:+ c).
Proof.
  induction a as [|x a IH]; [done|].
  change (String x ((a +:+ b) +:+ c) = String x (a +:+ (b +:+ c))).
  by f_equal.
Qed.

(** The substring test never stops a line that the pattern matches. *)
Lemma scan_by_match macro elem current :
  scan macro elem current =
  match re_match_define macro elem with
  | Some digits => digits
  | None => current
  end.
Proof.
  unfold scan. destruct (re_match_define macro elem) as [digits|] eqn:Hm.
  - unfold re_match_define in Hm.
    destruct (String.prefix ("#define " +:+ macro +:+ " ") elem) eqn:Hp;
      [|discriminate].
    assert (Hc : contains ("#define " +:+ macro) elem = true).
    { apply prefix_contains, (prefix_append_l _ " ").
      by rewrite append_assoc. }
    by rewrite Hc.
  - by destruct (contains ("#define " +:+ macro) elem).
Qed.

(** The loop treats its four variables independently. *)
Lemma loop_fields header vars :
  fold_left loop_body header vars =
  mk_found
    (fold_left (fun cur elem => scan "__INTEL_DAAL__" elem cur)
               header (major vars))
    (fold_left (fun cur elem => scan "__INTEL_DAAL_MINOR__" elem cur)
               header (minor vars))
    (fold_left (fun cur elem => scan "__INTEL_DAAL_MAJOR_BINARY__" elem cur)
               header (major_binary vars))
    (fold_left (fun cur elem => scan "__INTEL_DAAL_MINOR_BINARY__" elem cur)
               header (minor_binary vars)).
Proof.
  revert vars. induction header as [|elem header IH]; intros vars.
  - by destruct vars.
  - cbn [fold_left]. by rewrite IH.
Qed.

Lemma scan_absent macro header current :
  absent macro header ->
  fold_left (fun cur elem => scan macro elem cur) header current = current.
Proof.
  unfold absent. revert current.
  induction header as [|elem header IH]; intros current Habs; [done|].
  apply Forall_cons_1 in Habs as [Helem Habs]. cbn [fold_left].
  rewrite scan_by_match, Helem. by apply IH.
Qed.

Lemma scan_last macro header before elem after digits current :
  header = (before ++ elem :: after)%list ->
  re_match_define macro elem = Some digits ->
  absent macro after ->
  fold_left (fun cur elem => scan macro elem cur) header current = digits.
Proof.
  intros -> Hm Habs. rewrite fold_left_app. cbn [fold_left].
  rewrite scan_by_match, Hm. by apply scan_absent.
Qed.

Lemma uint_of_digit c d :
  is_digit c = true -> exists d', uint_of_char c (Some d) = Some d'.
Proof.
  destruct c as [[] [] [] [] [] [] [] []]; try discriminate;
    intros _; by eexists.
Qed.

Lemma leading_digits_parse s :
  exists d, NilEmpty.uint_of_string (leading_digits s) = Some d.
Proof.
  induction s as [|c s [d IH]]; [by eexists|].
  cbn [leading_digits]. destruct (is_digit c) eqn:Hc; [|by eexists].
  cbn [NilEmpty.uint_of_string]. rewrite IH.
  exact (uint_of_digit c d Hc).
Qed.

(** What the pattern captures always reads as a number. *)
Lemma matched_digits_read macro elem digits :
  re_match_define macro elem = Some digits ->
  digits <> "" /\ exists n, int_of_digits digits = Returns n.
Proof.
  unfold re_match_define.
  destruct (String.prefix ("#define " +:+ macro +:+ " ") elem);
    [|discriminate].
  set (rest := skip _ elem).
  destruct (leading_digits_parse rest) as [d Hd].
  destruct (leading_digits rest) as [|c ds] eqn:Hl; [discriminate|].
  intros [= <-]. split; [done|]. unfold int_of_digits. rewrite Hd.
  by eexists.
Qed.

Lemma prefix_append p s : String.prefix p (p +:+ s) = true.
Proof.
  induction p as [|c p IH]; [by destruct s|].
  change (String c p +:+ s) with (String c (p +:+ s)). simpl.
  by destruct (ascii_dec c c).
Qed.

Lemma skip_append p s : skip (String.length p) (p +:+ s) = s.
Proof. induction p as [|c p IH]; [done|]. exact IH. Qed.

Lemma leading_digits_numeral d rest :
  starts_with_digit rest = false ->
  leading_digits (NilEmpty.string_of_uint d +:+ rest)
  = NilEmpty.string_of_uint d.
Proof.
  intros Hrest. induction d as [|d IH|d IH|d IH|d IH|d IH|d IH|d IH|d IH|d IH|d IH];
    cbn [NilEmpty.string_of_uint];
    [ destruct rest; [done|]; simpl in *; by rewrite Hrest
    | change (String ?c ?p +:+ rest) with (String c (p +:+ rest));
      cbn [leading_digits]; simpl is_digit; cbv iota; by rewrite IH .. ].
Qed.

Lemma int_numeral n : int_of_digits (numeral n) = Returns (Z.of_N n).
Proof.
  unfold int_of_digits, numeral. rewrite NilEmpty.usu.
  assert (Hvalue : Z.of_uint (N.to_uint n) = Z.of_N n).
  { unfold Z.of_uint. f_equal. apply DecimalN.Unsigned.of_to. }
  rewrite Hvalue.
  destruct (NilEmpty.string_of_uint (N.to_uint n)) eqn:Hs; [|done].
  exfalso. destruct n as [|p]; [discriminate Hs|].
  apply (DecimalPos.Unsigned.to_uint_nonnil p).
  simpl in Hs. by destruct (Pos.to_uint p).
Qed.

(** A line that starts with [#define MACRO], a space and the decimal
    numeral of [n], and goes on with anything but a digit, defines the macro
    as [n]. *)
Lemma numeral_line_matches macro n rest :
  starts_with_digit rest = false ->
  re_match_define macro
    ((("#define " +:+ macro) +:+ " ") +:+ (numeral n +:+ rest))
  = Some (numeral n).
Proof.
  intros Hrest. unfold re_match_define.
  rewrite prefix_append, skip_append.
  unfold numeral. rewrite (leading_digits_numeral _ _ Hrest).
  pose proof (int_numeral n) as Hint. unfold int_of_digits, numeral in Hint.
  by destruct (NilEmpty.string_of_uint (N.to_uint n)).
Qed.

(** A numeral that [int] reads within the limit reads the same without
    one; a numeral of at most 640 digits is read whatever the limit is. *)
Lemma int_returns max_str_digits s n :
  int max_str_digits s = Returns n -> int_of_digits s = Returns n.
Proof.
  unfold int. by destruct (exceeds_limit max_str_digits (String.length s)).
Qed.

Lemma int_short max_str_digits s :
  (String.length s <= 640)%nat -> int max_str_digits s = int_of_digits s.
Proof.
  intros Hshort. unfold int, exceeds_limit.
  assert (H640 : (640 <? String.length s)%nat = false)
    by by apply Nat.ltb_ge.
  by rewrite H640, andb_false_r.
Qed.

(** What the pattern captures is no longer than the line. *)
Lemma leading_digits_length s :
  (String.length (leading_digits s) <= String.length s)%nat.
Proof.
  induction s as [|c s IH]; [done|]. cbn [leading_digits].
  destruct (is_digit c); cbn [String.length]; lia.
Qed.

Lemma skip_length n s : (String.length (skip n s) <= String.length s)%nat.
Proof.
  revert s. induction n as [|n IH]; intros s; [done|].
  destruct s as [|c s]; [done|]. cbn [skip String.length].
  specialize (IH s). lia.
Qed.

Lemma matched_digits_length macro elem digits :
  re_match_define macro elem = Some digits ->
  (String.length digits <= String.length elem)%nat.
Proof.
  unfold re_match_define.
  destruct (String.prefix ("#define " +:+ macro +:+ " ") elem);
    [|discriminate].
  set (rest := skip _ elem).
  pose proof (leading_digits_length rest) as Hd.
  pose proof (skip_length (String.length ("#define " +:+ macro +:+ " ")) elem)
    as Hs.
  fold rest in Hs.
  destruct (leading_digits rest) as [|c ds]; [discriminate|].
  intros [= <-]. lia.
Qed.

(** What the loop keeps of a header of short lines is short. *)
Lemma scan_short macro header current :
  short_lines header ->
  (String.length current <= 640)%nat ->
  (String.length (fold_left (fun cur elem => scan macro elem cur)
                    header current) <= 640)%nat.
Proof.
  unfold short_lines. revert current.
  induction header as [|elem header IH]; intros current Hshort Hcur; [done|].
  apply Forall_cons_1 in Hshort as [Helem Hshort]. cbn [fold_left].
  apply IH; [done|]. rewrite scan_by_match.
  destruct (re_match_define macro elem) as [digits|] eqn:Hm; [|done].
  apply matched_digits_length in Hm. lia.
Qed.

Lemma get_onedal_version_run max_str_digits header :
  short_lines header ->
  get_onedal_version max_str_digits header =
  obind (int_of_digits
           (fold_left (fun cur elem => scan "__INTEL_DAAL__" elem cur)
              header "")) (fun major_n =>
  obind (int_of_digits
           (fold_left (fun cur elem => scan "__INTEL_DAAL_MINOR__" elem cur)
              header "")) (fun minor_n =>
  obind (int_of_digits
           (fold_left
              (fun cur elem => scan "__INTEL_DAAL_MAJOR_BINARY__" elem cur)
              header "")) (fun major_binary_n =>
  obind (int_of_digits
           (fold_left
              (fun cur elem => scan "__INTEL_DAAL_MINOR_BINARY__" elem cur)
              header "")) (fun minor_binary_n =>
  Returns (major_n * 10000 + minor_n * 100,
           (major_binary_n, minor_binary_n)))))).
Proof.
  intros Hshort. unfold get_onedal_version. rewrite loop_fields.
  cbn [major minor major_binary minor_binary].
  by rewrite !int_short by (apply scan_short; [done | cbn; lia]).
Qed.

Lemma scan_last_definition max_str_digits macro n header :
  last_definition max_str_digits macro n header ->
  int_of_digits (fold_left (fun cur elem => scan macro elem cur) header "")
  = Returns n.
Proof.
  intros (before & elem & after & Hheader & (digits & Hm & Hint) & Habs).
  rewrite (scan_last macro header before elem after digits "" Hheader
             Hm Habs).
  by apply int_returns in Hint.
Qed.

Lemma scan_keeps_readable macro header current :
  (exists n, int_of_digits current = Returns n) ->
  exists n, int_of_digits (fold_left (fun cur elem => scan macro elem cur)
                             header current) = Returns n.
Proof.
  revert current.
  induction header as [|elem header IH]; intros current Hcur; [done|].
  cbn [fold_left]. apply IH. rewrite scan_by_match.
  destruct (re_match_define macro elem) as [digits|] eqn:Hm; [|done].
  by apply matched_digits_read in Hm as [_ Hn].
Qed.

(** Either no line defines the macro, or what the loop keeps reads as a
    number. *)
Lemma scan_reads macro header :
  absent macro header \/
  exists n, int_of_digits
              (fold_left (fun cur elem => scan macro elem cur) header "")
            = Returns n.
Proof.
  induction header as [|elem header IH]; [left; constructor|].
  cbn [fold_left]. rewrite scan_by_match.
  destruct (re_match_define macro elem) as [digits|] eqn:Hm.
  - right. apply scan_keeps_readable.
    by apply matched_digits_read in Hm as [_ Hn].
  - destruct IH as [Habs|Hn]; [left; by constructor | by right].
Qed.
End ScanFacts.

(** ** The parsed version *)

(** A header whose first line defines the major version as 2021 and whose
    second line defines it again as 2023: the result is built from 2023. *)
Lemma later_definition_wins :
  Exists (OnedalVersion.defines 4300 "__INTEL_DAAL__" 2021)
         Examples.header_redefined /\
  Exists (OnedalVersion.defines 4300 "__INTEL_DAAL_MINOR__" 2)
         Examples.header_redefined /\
  Exists (OnedalVersion.defines 4300 "__INTEL_DAAL_MAJOR_BINARY__" 1)
         Examples.header_redefined /\
  Exists (OnedalVersion.defines 4300 "__INTEL_DAAL_MINOR_BINARY__" 1)
         Examples.header_redefined /\
  OnedalVersion.get_onedal_version 4300 Examples.header_redefined
    = Returns (20230200, (1, 1)) /\
  OnedalVersion.get_onedal_version 4300 Examples.header_redefined
    <> Returns (10000 * 2021 + 100 * 2, (1, 1)).
Proof.
  unfold Examples.header_redefined. cbn [map].
  split; [apply Exists_cons_hd; by exists "2021"|].
  split; [do 2 apply Exists_cons_tl; apply Exists_cons_hd; by exists "2"|].
  split; [do 3 apply Exists_cons_tl; apply Exists_cons_hd; by exists "1"|].
  split; [do 4 apply Exists_cons_tl; apply Exists_cons_hd; by exists "1"|].
  split; [reflexivity | discriminate].
Qed.

(** C9, amended.  Of an ASCII header with lines of at most 640 characters:
    when the last line that matches [#define __INTEL_DAAL__ M] carries M,
    and likewise m, a and b are carried by the last lines that match the
    minor, binary major and binary minor macros, [get_onedal_version]
    returns [(10000*M + 100*m, (a, b))]; when no line matches the major
    macro, or none matches the minor macro, it raises the [ValueError] of
    [int('')] instead of returning a default version.  This holds whatever
    limit on numerals the interpreter has. *)
Theorem get_onedal_version_last_definitions (max_str_digits : N)
    (header : list string) :
  ascii_lines header ->
  short_lines header ->
  (forall M m a b,
      OnedalVersion.last_definition max_str_digits "__INTEL_DAAL__" M
        header ->
      OnedalVersion.last_definition max_str_digits "__INTEL_DAAL_MINOR__" m
        header ->
      OnedalVersion.last_definition max_str_digits
        "__INTEL_DAAL_MAJOR_BINARY__" a header ->
      OnedalVersion.last_definition max_str_digits
        "__INTEL_DAAL_MINOR_BINARY__" b header ->
      OnedalVersion.get_onedal_version max_str_digits header
        = Returns (10000 * M + 100 * m, (a, b))) /\
  (OnedalVersion.absent "__INTEL_DAAL__" header \/
   OnedalVersion.absent "__INTEL_DAAL_MINOR__" header ->
   OnedalVersion.get_onedal_version max_str_digits header
     = Raises (ValueError "invalid literal for int() with base 10: ''")).
Proof.
  intros _ Hshort.
  rewrite (get_onedal_version_run max_str_digits header Hshort). split.
  - intros M m a b HM Hm Ha Hb.
    rewrite (scan_last_definition _ _ _ _ HM),
      (scan_last_definition _ _ _ _ Hm),
      (scan_last_definition _ _ _ _ Ha), (scan_last_definition _ _ _ _ Hb).
    cbn [OnedalVersion.obind]. do 2 f_equal. lia.
  - intros Habsent.
    destruct (scan_reads "__INTEL_DAAL__" header) as [Hmajor|[n Hn]].
    + by rewrite (scan_absent _ _ _ Hmajor).
    + destruct Habsent as [Hmajor|Hminor].
      * by rewrite (scan_absent _ _ _ Hmajor).
      * rewrite Hn. cbn [OnedalVersion.obind].
        by rewrite (scan_absent _ _ _ Hminor).
Qed.

(** The headers of the examples are ASCII text in short lines. *)
Ltac plain_header :=
  vm_compute;
  repeat (constructor; [cbv; first [reflexivity | lia]|]); constructor.

(** A 2023.2 header, and a header whose minor version line is indented. *)
Lemma get_onedal_version_last_definitions_witness :
  OnedalVersion.get_onedal_version 4300 Examples.header_2023_2
    = Returns (10000 * 2023 + 100 * 2, (1, 1)) /\
  OnedalVersion.get_onedal_version 4300 Examples.header_indented_minor
    = Raises (ValueError "invalid literal for int() with base 10: ''").
Proof.
  split.
  - apply (proj1 (get_onedal_version_last_definitions 4300
                    Examples.header_2023_2 ltac:(plain_header)
                    ltac:(plain_header))).
    + exists (map Examples.line
                ["#define __INTEL_DAAL_BUILD_DATE 20230601"]),
        (Examples.line "#define __INTEL_DAAL__ 2023"),
        (map Examples.line
           ["#define __INTEL_DAAL_MINOR__ 2";
            "#define __INTEL_DAAL_UPDATE__ 0";
            "#define __INTEL_DAAL_MAJOR_BINARY__ 1";
            "#define __INTEL_DAAL_MINOR_BINARY__ 1"]).
      split; [reflexivity|]. split; [by exists "2023"|].
      repeat (constructor; [reflexivity|]). constructor.
    + exists (map Examples.line
                ["#define __INTEL_DAAL_BUILD_DATE 20230601";
                 "#define __INTEL_DAAL__ 2023"]),
        (Examples.line "#define __INTEL_DAAL_MINOR__ 2"),
        (map Examples.line
           ["#define __INTEL_DAAL_UPDATE__ 0";
            "#define __INTEL_DAAL_MAJOR_BINARY__ 1";
            "#define __INTEL_DAAL_MINOR_BINARY__ 1"]).
      split; [reflexivity|]. split; [by exists "2"|].
      repeat (constructor; [reflexivity|]). constructor.
    + exists (map Examples.line
                ["#define __INTEL_DAAL_BUILD_DATE 20230601";
                 "#define __INTEL_DAAL__ 2023";
                 "#define __INTEL_DAAL_MINOR__ 2";
                 "#define __INTEL_DAAL_UPDATE__ 0"]),
        (Examples.line "#define __INTEL_DAAL_MAJOR_BINARY__ 1"),
        (map Examples.line ["#define __INTEL_DAAL_MINOR_BINARY__ 1"]).
      split; [reflexivity|]. split; [by exists "1"|].
      repeat (constructor; [reflexivity|]). constructor.
    + exists (map Examples.line
                ["#define __INTEL_DAAL_BUILD_DATE 20230601";
                 "#define __INTEL_DAAL__ 2023";
                 "#define __INTEL_DAAL_MINOR__ 2";
                 "#define __INTEL_DAAL_UPDATE__ 0";
                 "#define __INTEL_DAAL_MAJOR_BINARY__ 1"]),
        (Examples.line "#define __INTEL_DAAL_MINOR_BINARY__ 1"), [].
      split; [reflexivity|]. split; [by exists "1"|]. constructor.
  - apply (proj2 (get_onedal_version_last_definitions 4300
                    Examples.header_indented_minor ltac:(plain_header)
                    ltac:(plain_header))).
    right. repeat (constructor; [reflexivity|]). constructor.
Defined.

(** * Further properties *)

(** ** [get_onedal_version]: which headers parse, and what is ignored *)

Section HeaderFacts.
Import OnedalVersion.

Lemma prefix_split p s :
  String.prefix p s = true -> s = p +:+ skip (String.length p) s.
Proof.
  revert s. induction p as [|c p IH]; intros s; [done|].
  destruct s as [|c' s]; [done|]. simpl.
  destruct (ascii_dec c c') as [->|]; [|done].
  intros Hp. change (String c' p +:+ skip (String.length p) s)
    with (String c' (p +:+ skip (String.length p) s)).
  f_equal. by apply IH.
Qed.

Lemma prefix_comparable p q s :
  String.prefix p s = true -> String.prefix q s = true ->
  String.prefix p q = true \/ String.prefix q p = true.
Proof.
  revert q s. induction p as [|c p IH]; intros q s Hp Hq.
  - left. by destruct q.
  - destruct q as [|c' q]; [right; done|].
    destruct s as [|c'' s]; [done|]. simpl in *.
    destruct (ascii_dec c c'') as [->|]; [|done].
    destruct (ascii_dec c' c'') as [->|]; [|done].
    destruct (ascii_dec c'' c''); [|done].
    by apply (IH q s).
Qed.

Lemma leading_digits_split s :
  exists rest,
    s = leading_digits s +:+ rest /\ starts_with_digit rest = false /\
    all_digits (leading_digits s) = true.
Proof.
  induction s as [|c s (rest & Hs & Hrest & Hall)].
  - by exists "".
  - cbn [leading_digits]. destruct (is_digit c) eqn:Hc.
    + exists rest. split; [|split; [done|]].
      * change (String c (leading_digits s) +:+ rest)
          with (String c (leading_digits s +:+ rest)). by rewrite <- Hs.
      * cbn [all_digits]. by rewrite Hc, Hall.
    + exists (String c s). repeat split. cbn [starts_with_digit]. exact Hc.
Qed.

Lemma leading_digits_of_digits d rest :
  all_digits d = true -> starts_with_digit rest = false ->
  leading_digits (d +:+ rest) = d.
Proof.
  intros Hd Hrest. induction d as [|c d IH].
  - destruct rest as [|c rest]; [done|].
    change ("" +:+ String c rest) with (String c rest).
    cbn [leading_digits]. cbn [starts_with_digit] in Hrest. by rewrite Hrest.
  - cbn [all_digits] in Hd. apply andb_prop in Hd as [Hc Hd].
    change (String c d +:+ rest) with (String c (d +:+ rest)).
    cbn [leading_digits]. by rewrite Hc, IH.
Qed.

Lemma scan_unmatched macro elem current :
  re_match_define macro elem = None -> scan macro elem current = current.
Proof. intros Hm. by rewrite scan_by_match, Hm. Qed.

Lemma matches_some_false elem :
  matches_some elem = false ->
  Forall (fun macro => re_match_define macro elem = None) version_macros.
Proof.
  unfold matches_some, version_macros. cbn [existsb].
  intros H.
  repeat (apply orb_false_elim in H as [? H]).
  repeat constructor;
    match goal with
    | Hm : match re_match_define ?m elem with _ => _ end = false
      |- re_match_define ?m elem = None =>
        by destruct (re_match_define m elem)
    end.
Qed.

Lemma loop_body_unmatched vars elem :
  matches_some elem = false -> loop_body vars elem = vars.
Proof.
  intros H%matches_some_false. unfold version_macros in H.
  repeat match goal with
         | H : Forall _ (_ :: _) |- _ => apply Forall_cons_1 in H as [? H]
         end.
  unfold loop_body. rewrite !scan_unmatched by done. by destruct vars.
Qed.

Lemma matched_line_starts_with_define macro elem digits :
  re_match_define macro elem = Some digits ->
  String.prefix "#define " elem = true.
Proof.
  unfold re_match_define.
  destruct (String.prefix ("#define " +:+ macro +:+ " ") elem) eqn:Hp;
    [|discriminate].
  intros _. by apply (prefix_append_l _ (macro +:+ " ")).
Qed.

(** Two different macros of the four never match the same line. *)
Lemma macros_exclusive elem m1 m2 digits :
  m1 ∈ version_macros -> m2 ∈ version_macros -> m1 <> m2 ->
  re_match_define m1 elem = Some digits ->
  re_match_define m2 elem = None.
Proof.
  intros H1 H2 Hne Hm. unfold re_match_define in *.
  destruct (String.prefix ("#define " +:+ m1 +:+ " ") elem) eqn:Hp1;
    [|discriminate].
  destruct (String.prefix ("#define " +:+ m2 +:+ " ") elem) eqn:Hp2; [|done].
  exfalso.
  destruct (prefix_comparable _ _ _ Hp1 Hp2) as [Hcmp|Hcmp];
    unfold version_macros in H1, H2;
    repeat (apply elem_of_cons in H1 as [->|H1]);
    try (by apply elem_of_nil in H1);
    repeat (apply elem_of_cons in H2 as [->|H2]);
    try (by apply elem_of_nil in H2);
    first [ by apply Hne | discriminate Hcmp ].
Qed.

(** The line that defines a macro as a number is matched by the pattern of
    that macro, which captures the numeral. *)
Lemma define_line_matches macro n :
  re_match_define macro (define_line macro n) = Some (numeral n).
Proof.
  unfold re_match_define, define_line.
  rewrite prefix_append, skip_append.
  unfold numeral. rewrite leading_digits_numeral by reflexivity.
  pose proof (int_numeral n) as Hint. unfold int_of_digits, numeral in Hint.
  by destruct (NilEmpty.string_of_uint (N.to_uint n)).
Qed.

(** When every line either is not matched for [macro] or is matched with
    the same capture, and some line is matched, the loop keeps that capture. *)
Lemma scan_same_capture macro header digits current :
  Forall (fun elem => re_match_define macro elem = None \/
                      re_match_define macro elem = Some digits) header ->
  Exists (fun elem => re_match_define macro elem = Some digits) header ->
  fold_left (fun cur elem => scan macro elem cur) header current = digits.
Proof.
  revert current. induction header as [|elem header IH];
    intros current Hall Hsome; [by apply Exists_nil in Hsome|].
  apply Forall_cons_1 in Hall as [Helem Hall]. cbn [fold_left].
  rewrite scan_by_match.
  apply Exists_cons in Hsome as [Hhere|Hlater].
  - rewrite Hhere. clear IH Helem Hhere. revert Hall.
    induction header as [|e header IH]; intros Hall; [done|].
    apply Forall_cons_1 in Hall as [He Hall]. cbn [fold_left].
    rewrite scan_by_match. destruct He as [->| ->]; by apply IH.
  - by apply IH.
Qed.

End HeaderFacts.

(** X1.  On an ASCII header with lines of at most 640 characters,
    [get_onedal_version] returns a version exactly when each of the four
    macros is matched by some line of the header; as soon as one of them is
    matched by no line it raises the [ValueError] of [int('')].  This holds
    whatever limit on numerals the interpreter has. *)
Theorem get_onedal_version_parses (max_str_digits : N)
    (header : list string) :
  ascii_lines header ->
  short_lines header ->
  (Forall (fun macro => ~ OnedalVersion.absent macro header) version_macros ->
   exists version,
     OnedalVersion.get_onedal_version max_str_digits header
       = Returns version)
  /\
  (Exists (fun macro => OnedalVersion.absent macro header) version_macros ->
   OnedalVersion.get_onedal_version max_str_digits header
     = Raises (ValueError "invalid literal for int() with base 10: ''")).
Proof.
  intros _ Hshort.
  rewrite (get_onedal_version_run max_str_digits header Hshort).
  unfold version_macros.
  destruct (scan_reads "__INTEL_DAAL__" header) as [A1|[n1 R1]];
    [rewrite (scan_absent _ _ _ A1)|rewrite R1];
    (destruct (scan_reads "__INTEL_DAAL_MINOR__" header) as [A2|[n2 R2]];
     [rewrite (scan_absent _ _ _ A2)|rewrite R2]);
    (destruct (scan_reads "__INTEL_DAAL_MAJOR_BINARY__" header)
       as [A3|[n3 R3]];
     [rewrite (scan_absent _ _ _ A3)|rewrite R3]);
    (destruct (scan_reads "__INTEL_DAAL_MINOR_BINARY__" header)
       as [A4|[n4 R4]];
     [rewrite (scan_absent _ _ _ A4)|rewrite R4]);
    cbn [OnedalVersion.obind OnedalVersion.int_of_digits];
    (split;
     [ intros Hall;
       repeat match goal with
              | H : Forall _ (_ :: _) |- _ => apply Forall_cons_1 in H as [? H]
              end;
       first [ contradiction | by eexists ]
     | intros Hsome; try reflexivity ]).
  (* all four read: none may be absent *)
  exfalso.
  assert (Hget : forall macro n,
    OnedalVersion.int_of_digits
      (fold_left (fun cur elem => OnedalVersion.scan macro elem cur) header "")
      = Returns n -> ~ OnedalVersion.absent macro header).
  { intros macro n Hn Habs. by rewrite (scan_absent _ _ _ Habs) in Hn. }
  repeat (apply Exists_cons in Hsome as [Habs|Hsome];
          [refine (Hget _ _ _ Habs); eassumption|]).
  by apply Exists_nil in Hsome.
Qed.

(** A header with the four definitions parses; one that lacks the binary
    minor version does not. *)
Lemma get_onedal_version_parses_witness :
  (exists version,
     OnedalVersion.get_onedal_version 4300 Examples.header_2023_2
       = Returns version) /\
  OnedalVersion.get_onedal_version 4300
    (map Examples.line
       [ "#define __INTEL_DAAL__ 2023"; "#define __INTEL_DAAL_MINOR__ 2";
         "#define __INTEL_DAAL_MAJOR_BINARY__ 1" ])
    = Raises (ValueError "invalid literal for int() with base 10: ''").
Proof.
  split.
  - apply (proj1 (get_onedal_version_parses 4300 Examples.header_2023_2
                    ltac:(plain_header) ltac:(plain_header))).
    repeat constructor; intros Habs;
      unfold OnedalVersion.absent, Examples.header_2023_2 in Habs;
      cbn [map] in Habs;
      repeat (apply Forall_cons_1 in Habs as [Hline Habs];
              first [discriminate Hline | clear Hline]).
  - apply (proj2 (get_onedal_version_parses 4300 _ ltac:(plain_header)
                    ltac:(plain_header))).
    do 3 apply Exists_cons_tl. apply Exists_cons_hd.
    repeat (constructor; [reflexivity|]). constructor.
Defined.

(** Membership among the four macros, for a given one. *)
Ltac version_macro :=
  unfold version_macros;
  repeat (apply elem_of_cons; first [by left | right]).

(** X2.  Of an ASCII header, the lines that none of the four patterns
    matches do not take part in the result: dropping them from the header
    changes nothing.  Such are, in particular, all lines that do not start
    with [#define ] (blank lines, comments, indented or commented-out
    definitions). *)
Theorem irrelevant_lines_ignored (max_str_digits : N)
    (header : list string) :
  ascii_lines header ->
  OnedalVersion.get_onedal_version max_str_digits header
    = OnedalVersion.get_onedal_version max_str_digits
        (List.filter matches_some header) /\
  (forall elem,
      elem ∈ header ->
      String.prefix "#define " elem = false -> matches_some elem = false).
Proof.
  intros _. split.
  - unfold OnedalVersion.get_onedal_version.
    assert (Hfold : forall vars,
      fold_left OnedalVersion.loop_body header vars
      = fold_left OnedalVersion.loop_body (List.filter matches_some header)
          vars).
    { induction header as [|elem header IH]; intros vars; [done|].
      cbn [List.filter fold_left].
      destruct (matches_some elem) eqn:Hm.
      - cbn [fold_left]. apply IH.
      - rewrite (loop_body_unmatched _ _ Hm). apply IH. }
    by rewrite Hfold.
  - intros elem _ Hprefix. unfold matches_some, version_macros.
    cbn [existsb].
    repeat match goal with
           | |- context [OnedalVersion.re_match_define ?m elem] =>
               let Hm := fresh "Hm" in
               destruct (OnedalVersion.re_match_define m elem) eqn:Hm;
               [apply matched_line_starts_with_define in Hm; congruence|]
           end.
    reflexivity.
Qed.

(** The 2023.2 header without its build date and update number reads the
    same. *)
Lemma irrelevant_lines_ignored_witness :
  OnedalVersion.get_onedal_version 4300 Examples.header_2023_2
  = OnedalVersion.get_onedal_version 4300
      (map Examples.line
         [ "#define __INTEL_DAAL__ 2023";
           "#define __INTEL_DAAL_MINOR__ 2";
           "#define __INTEL_DAAL_MAJOR_BINARY__ 1";
           "#define __INTEL_DAAL_MINOR_BINARY__ 1" ]).
Proof.
  apply (proj1 (irrelevant_lines_ignored 4300 Examples.header_2023_2
                  ltac:(plain_header))).
Defined.

(** X3.  A line changes at most one of the four variables of the loop: the
    patterns of two different macros never match the same line, so a
    definition of the minor version leaves the major version alone, and so
    on for each pair. *)
Theorem one_variable_per_line (vars : OnedalVersion.found) (elem : string) :
  (OnedalVersion.minor (OnedalVersion.loop_body vars elem)
     = OnedalVersion.minor vars /\
   OnedalVersion.major_binary (OnedalVersion.loop_body vars elem)
     = OnedalVersion.major_binary vars /\
   OnedalVersion.minor_binary (OnedalVersion.loop_body vars elem)
     = OnedalVersion.minor_binary vars) \/
  (OnedalVersion.major (OnedalVersion.loop_body vars elem)
     = OnedalVersion.major vars /\
   OnedalVersion.major_binary (OnedalVersion.loop_body vars elem)
     = OnedalVersion.major_binary vars /\
   OnedalVersion.minor_binary (OnedalVersion.loop_body vars elem)
     = OnedalVersion.minor_binary vars) \/
  (OnedalVersion.major (OnedalVersion.loop_body vars elem)
     = OnedalVersion.major vars /\
   OnedalVersion.minor (OnedalVersion.loop_body vars elem)
     = OnedalVersion.minor vars /\
   OnedalVersion.minor_binary (OnedalVersion.loop_body vars elem)
     = OnedalVersion.minor_binary vars) \/
  (OnedalVersion.major (OnedalVersion.loop_body vars elem)
     = OnedalVersion.major vars /\
   OnedalVersion.minor (OnedalVersion.loop_body vars elem)
     = OnedalVersion.minor vars /\
   OnedalVersion.major_binary (OnedalVersion.loop_body vars elem)
     = OnedalVersion.major_binary vars).
Proof.
  unfold OnedalVersion.loop_body. cbn [OnedalVersion.major
    OnedalVersion.minor OnedalVersion.major_binary OnedalVersion.minor_binary].
  assert (Hex : forall m1 m2 d, m1 ∈ version_macros -> m2 ∈ version_macros ->
    m1 <> m2 -> OnedalVersion.re_match_define m1 elem = Some d ->
    forall current, OnedalVersion.scan m2 elem current = current).
  { intros m1 m2 d H1 H2 Hne Hm current. apply scan_unmatched.
    by apply (macros_exclusive elem m1 m2 d). }
  assert (M1 : "__INTEL_DAAL__" ∈ version_macros) by version_macro.
  assert (M2 : "__INTEL_DAAL_MINOR__" ∈ version_macros) by version_macro.
  assert (M3 : "__INTEL_DAAL_MAJOR_BINARY__" ∈ version_macros)
    by version_macro.
  assert (M4 : "__INTEL_DAAL_MINOR_BINARY__" ∈ version_macros)
    by version_macro.
  destruct (OnedalVersion.re_match_define "__INTEL_DAAL__" elem)
    as [d|] eqn:E1.
  { left. rewrite !(Hex _ _ d M1) by done. done. }
  destruct (OnedalVersion.re_match_define "__INTEL_DAAL_MINOR__" elem)
    as [d|] eqn:E2.
  { right. left. rewrite !(Hex _ _ d M2) by done. done. }
  destruct (OnedalVersion.re_match_define "__INTEL_DAAL_MAJOR_BINARY__" elem)
    as [d|] eqn:E3.
  { right. right. left. rewrite !(Hex _ _ d M3) by done. done. }
  do 3 right. by rewrite !scan_unmatched.
Qed.

(** X4.  The pattern of a macro matches an ASCII line, capturing [digits],
    exactly when the line is [#define MACRO], one space, the non-empty run
    of digits "0" to "9" [digits], and then text that does not go on with a
    digit: the match is anchored at the start of the line and the capture is
    the whole run. *)
Theorem re_match_define_iff (macro elem digits : string) :
  OnedalVersion.is_ascii_text elem = true ->
  OnedalVersion.re_match_define macro elem = Some digits <->
  digits <> "" /\ all_digits digits = true /\
  exists rest,
    OnedalVersion.starts_with_digit rest = false /\
    elem = ("#define " +:+ macro +:+ " ") +:+ (digits +:+ rest).
Proof.
  intros _. unfold OnedalVersion.re_match_define. split.
  - destruct (String.prefix ("#define " +:+ macro +:+ " ") elem) eqn:Hp;
      [|discriminate].
    apply prefix_split in Hp.
    destruct (leading_digits_split
                (OnedalVersion.skip
                   (String.length ("#define " +:+ macro +:+ " ")) elem))
      as (rest & Hsplit & Hrest & Hall).
    destruct (OnedalVersion.leading_digits _) as [|c ds] eqn:Hl;
      [discriminate|].
    intros [= <-]. split; [done|]. split; [done|].
    exists rest. split; [done|]. by rewrite <- Hsplit.
  - intros (Hne & Hall & rest & Hrest & ->).
    rewrite prefix_append, skip_append.
    rewrite (leading_digits_of_digits _ _ Hall Hrest).
    by destruct digits.
Qed.

(** A version line with a trailing comment. *)
Lemma re_match_define_iff_witness :
  OnedalVersion.re_match_define "__INTEL_DAAL__"
    "#define __INTEL_DAAL__ 2023 /* major */" = Some "2023".
Proof.
  apply (proj2 (re_match_define_iff "__INTEL_DAAL__"
                  "#define __INTEL_DAAL__ 2023 /* major */" "2023"
                  eq_refl)).
  split; [discriminate|]. split; [reflexivity|].
  exists " /* major */". split; reflexivity.
Defined.

(** X5.  Writing and reading back: an ASCII header with lines of at most
    640 characters that holds, in any order and any number of times, the
    four lines [#define MACRO numeral] for the numbers M, m, a and b, among
    lines that no pattern matches, is read as [(10000*M + 100*m, (a, b))],
    whatever limit on numerals the interpreter has. *)
Theorem header_round_trip (max_str_digits : N) (header : list string)
    (M m a b : N) :
  ascii_lines header ->
  short_lines header ->
  (forall elem, elem ∈ header -> matches_some elem = true ->
     elem ∈ [ define_line "__INTEL_DAAL__" M;
              define_line "__INTEL_DAAL_MINOR__" m;
              define_line "__INTEL_DAAL_MAJOR_BINARY__" a;
              define_line "__INTEL_DAAL_MINOR_BINARY__" b ]) ->
  define_line "__INTEL_DAAL__" M ∈ header ->
  define_line "__INTEL_DAAL_MINOR__" m ∈ header ->
  define_line "__INTEL_DAAL_MAJOR_BINARY__" a ∈ header ->
  define_line "__INTEL_DAAL_MINOR_BINARY__" b ∈ header ->
  OnedalVersion.get_onedal_version max_str_digits header
    = Returns (10000 * Z.of_N M + 100 * Z.of_N m, (Z.of_N a, Z.of_N b)).
Proof.
  intros _ Hshort Honly HM Hm Ha Hb.
  assert (Hkeep : forall macro n,
    macro ∈ version_macros ->
    define_line macro n ∈ header ->
    (forall elem, elem ∈ header ->
       OnedalVersion.re_match_define macro elem = None \/
       elem = define_line macro n) ->
    OnedalVersion.int_of_digits
      (fold_left (fun cur elem => OnedalVersion.scan macro elem cur) header "")
    = Returns (Z.of_N n)).
  { intros macro n Hmacro Hin Hlines.
    rewrite (scan_same_capture macro header (OnedalVersion.numeral n)).
    - apply int_numeral.
    - apply Forall_forall. intros elem Helem.
      destruct (Hlines elem Helem) as [Hnone| ->]; [by left|].
      right. apply define_line_matches.
    - apply Exists_exists. exists (define_line macro n).
      split; [done | apply define_line_matches]. }
  assert (Hother : forall macro elem,
    macro ∈ version_macros -> elem ∈ header ->
    OnedalVersion.re_match_define macro elem = None \/
    exists macro' n, macro' ∈ version_macros /\
      elem = define_line macro' n /\
      (macro' = macro \/ OnedalVersion.re_match_define macro elem = None) /\
      (macro' = "__INTEL_DAAL__" /\ n = M \/
       macro' = "__INTEL_DAAL_MINOR__" /\ n = m \/
       macro' = "__INTEL_DAAL_MAJOR_BINARY__" /\ n = a \/
       macro' = "__INTEL_DAAL_MINOR_BINARY__" /\ n = b)).
  { intros macro elem Hmacro Helem.
    destruct (OnedalVersion.re_match_define macro elem) as [d|] eqn:Hd;
      [|by left].
    right.
    assert (Hsome : matches_some elem = true).
    { unfold matches_some. apply existsb_exists. exists macro.
      split; [by apply list_elem_of_In | by rewrite Hd]. }
    specialize (Honly elem Helem Hsome).
    repeat (apply elem_of_cons in Honly as [->|Honly]);
      [ exists "__INTEL_DAAL__", M
      | exists "__INTEL_DAAL_MINOR__", m
      | exists "__INTEL_DAAL_MAJOR_BINARY__", a
      | exists "__INTEL_DAAL_MINOR_BINARY__", b
      | by apply elem_of_nil in Honly ];
      (split; [version_macro|]); (split; [done|]);
      (split; [|tauto]);
      match goal with
      | |- ?m' = macro \/ _ =>
          destruct (decide (m' = macro)) as [Heq|Hneq]; [by left|];
          right; rewrite <- Hd; eapply (macros_exclusive _ m' macro);
            [version_macro | done | done | apply define_line_matches]
      end. }
  assert (Hlines : forall macro n,
    macro ∈ version_macros ->
    (macro = "__INTEL_DAAL__" /\ n = M \/
     macro = "__INTEL_DAAL_MINOR__" /\ n = m \/
     macro = "__INTEL_DAAL_MAJOR_BINARY__" /\ n = a \/
     macro = "__INTEL_DAAL_MINOR_BINARY__" /\ n = b) ->
    forall elem, elem ∈ header ->
      OnedalVersion.re_match_define macro elem = None \/
      elem = define_line macro n).
  { intros macro n Hmacro Hn elem Helem.
    destruct (Hother macro elem Hmacro Helem)
      as [Hnone|(macro' & n' & Hmacro' & -> & [->|Hnone] & Hn')];
      [by left | | by left].
    right. f_equal.
    destruct Hn as [[-> ->]|[[-> ->]|[[-> ->]| [-> ->]]]];
      destruct Hn' as [[? ->]|[[? ->]|[[? ->]| [? ->]]]];
      done. }
  rewrite (get_onedal_version_run max_str_digits header Hshort).
  rewrite (Hkeep "__INTEL_DAAL__" M), (Hkeep "__INTEL_DAAL_MINOR__" m),
    (Hkeep "__INTEL_DAAL_MAJOR_BINARY__" a),
    (Hkeep "__INTEL_DAAL_MINOR_BINARY__" b);
    try done; try version_macro;
    try (apply Hlines; [version_macro | tauto]).
  cbn [OnedalVersion.obind]. do 2 f_equal. lia.
Qed.

(** The version lines of the 2023.2 header, between a build date and an
    update number that take no part. *)
Lemma header_round_trip_witness :
  OnedalVersion.get_onedal_version 4300 Examples.header_2023_2
    = Returns (10000 * 2023 + 100 * 2, (1, 1)).
Proof.
  apply (header_round_trip 4300 Examples.header_2023_2 2023 2 1 1
           ltac:(plain_header) ltac:(plain_header)).
  - intros elem Helem Hmatch.
    unfold Examples.header_2023_2 in Helem. cbn [map] in Helem.
    repeat (apply elem_of_cons in Helem as [->|Helem];
            [first [ discriminate Hmatch
                   | repeat (apply elem_of_cons;
                             first [left; reflexivity | right]) ]|]).
    by apply elem_of_nil in Helem.
  - do 1 apply list_elem_of_further. apply list_elem_of_here.
  - do 2 apply list_elem_of_further. apply list_elem_of_here.
  - do 4 apply list_elem_of_further. apply list_elem_of_here.
  - do 5 apply list_elem_of_further. apply list_elem_of_here.
Defined.

(** ** KMeans: the predict predicate and the default estimator *)

(** X6.  [_onedal_predict_supported] reports support exactly when its three
    conditions hold: the algorithm is one of "auto", "full", "lloyd", the
    cluster centers are not sparse and [X] is not sparse.  An estimator that
    was never fitted reads [cluster_centers_] from the class, where it is
    [None]: for it the predicate does not raise, and the condition on the
    centers holds. *)
Theorem KMeans_predict_supported_iff (s : state) (X : pyval) :
  (reports_supported (fst (KMeans._onedal_predict_supported "predict" X s))
   <-> KMeans_predict_conditions (self s) X) /\
  (class_dict (self s) = KMeans.class_attrs ->
   dict (self s) !! "cluster_centers_" = None ->
   (reports_supported (fst (KMeans._onedal_predict_supported "predict" X s))
    <-> (exists a, lookup_attr (self s) "algorithm" = Some (VStr a) /\
                   (a = "auto" \/ a = "full" \/ a = "lloyd")) /\
        issparse X = false)).
Proof.
  assert (Hiff :
    reports_supported (fst (KMeans._onedal_predict_supported "predict" X s))
    <-> KMeans_predict_conditions (self s) X).
  { rewrite KMeans_predict_supported_run. cbn [fst].
    unfold reports_supported, KMeans_predict_conditions. split.
    - intros (d & Hrun & Hpass).
      destruct (lookup_attr (self s) "cluster_centers_") as [c|];
        [|discriminate].
      destruct (lookup_attr (self s) "algorithm") as [alg|]; [|discriminate].
      injection Hrun as <-. simpl in Hpass.
      repeat (apply andb_prop in Hpass; destruct Hpass as [? Hpass]).
      match goal with H : _ || _ = true |- _ =>
        apply (proj1 (py_in_supported_algs alg)) in H as (a & -> & Ha) end.
      split; [by exists a|]. split; [|by apply negb_true_iff].
      exists c. split; [done|]. by apply negb_true_iff.
    - intros ((a & -> & Ha) & (c & -> & Hc) & HX).
      eexists. split; [reflexivity|]. simpl. rewrite Hc, HX. simpl.
      assert (Halg : py_in (VStr a) KMeans.supported_algs = true).
      { apply py_in_supported_algs. by exists a. }
      unfold py_in, KMeans.supported_algs in Halg. simpl in Halg.
      by rewrite Halg. }
  split; [exact Hiff|]. intros Hclass Hunfitted. rewrite Hiff.
  unfold KMeans_predict_conditions.
  assert (Hcenters : lookup_attr (self s) "cluster_centers_" = Some VNone).
  { unfold lookup_attr. by rewrite Hunfitted, Hclass. }
  rewrite Hcenters. split.
  - intros (Halg & _ & HX). by split.
  - intros (Halg & HX). split; [done|]. split; [|done]. by exists VNone.
Qed.

(** A KMeans that was never fitted, asked about a dense input. *)
Lemma KMeans_predict_supported_iff_witness :
  reports_supported
    (fst (KMeans._onedal_predict_supported "predict" Examples.dense_40x4
            (Examples.start Examples.kmeans_lloyd))).
Proof.
  apply (proj2 (KMeans_predict_supported_iff
                  (Examples.start Examples.kmeans_lloyd)
                  Examples.dense_40x4) eq_refl eq_refl).
  split; [|reflexivity]. exists "lloyd". split; [reflexivity|]. auto.
Defined.

Lemma KMeans_default_reads installed :
  class_name (KMeans_default installed) = "KMeans" /\
  class_dict (KMeans_default installed) = KMeans.class_attrs /\
  (lookup_attr (KMeans_default installed) "algorithm" = Some (VStr "lloyd") \/
   lookup_attr (KMeans_default installed) "algorithm" = Some (VStr "auto")) /\
  lookup_attr (KMeans_default installed) "init" = Some (VStr "k-means++") /\
  lookup_attr (KMeans_default installed) "n_clusters" = Some (VInt 8) /\
  lookup_attr (KMeans_default installed) "cluster_centers_" = Some VNone.
Proof.
  unfold KMeans_default.
  destruct (sklearn_check_version installed "1.2");
    [destruct (sklearn_check_version installed "1.4")
    |destruct (sklearn_check_version installed "1.0")];
    (split; [reflexivity|]); (split; [reflexivity|]);
    (split; [first [by left | by right]|]); repeat split; reflexivity.
Qed.

(** X7.  Whatever scikit-learn is installed, a KMeans built with its default
    parameters passes the algorithm and init conditions: on a call without
    sample weights its fit is reported as supported exactly when [X] is not
    sparse and has more than 8 samples, and its predict exactly when [X] is
    not sparse. *)
Theorem KMeans_default_supported (installed : release) (X y : pyval)
    (out : list string) (log : list string) :
  (reports_supported
     (fst (KMeans._onedal_fit_supported "fit" X y VNone
             (mk_state (KMeans_default installed) out log)))
   <-> issparse X = false /\ exists n, _num_samples X = Returns n /\ 8 < n) /\
  (reports_supported
     (fst (KMeans._onedal_predict_supported "predict" X
             (mk_state (KMeans_default installed) out log)))
   <-> issparse X = false).
Proof.
  destruct (KMeans_default_reads installed)
    as (Hname & Hclass & Halg & Hinit & Hk & Hcenters).
  assert (Hin : exists alg,
    lookup_attr (KMeans_default installed) "algorithm" = Some alg /\
    py_in alg KMeans.supported_algs = true).
  { destruct Halg as [Halg|Halg]; eexists; (split; [exact Halg|]);
      reflexivity. }
  destruct Hin as (alg & Halg' & Hsupported).
  unfold py_in, KMeans.supported_algs in Hsupported.
  cbn [existsb] in Hsupported. split.
  - rewrite KMeans_fit_supported_run. cbn [self fst].
    rewrite Halg', Hk, Hinit. unfold reports_supported. split.
    + intros (d & Hrun & Hpass).
      destruct (_num_samples X) as [n|e]; [|discriminate].
      cbn [fst py_lt_int] in Hrun. injection Hrun as <-.
      unfold py_in, KMeans.supported_algs in Hpass.
      cbn [passes and_conditions new_chain patching_is_enabled forallb fst
           existsb] in Hpass.
      rewrite !andb_true_iff in Hpass.
      destruct Hpass as (_ & _ & _ & Hlt & _ & HX & _).
      split; [by apply negb_true_iff|]. exists n. split; [done|].
      by apply Z.ltb_lt.
    + intros (HX & n & -> & Hlt). cbn [fst py_lt_int].
      eexists. split; [reflexivity|].
      unfold py_in, KMeans.supported_algs.
      cbn [passes and_conditions new_chain patching_is_enabled forallb fst
           existsb].
      rewrite Hsupported, HX. apply Z.ltb_lt in Hlt. by rewrite Hlt.
  - rewrite KMeans_predict_supported_run. cbn [self fst].
    rewrite Halg', Hcenters. unfold reports_supported. split.
    + intros (d & [= <-] & Hpass).
      unfold py_in, KMeans.supported_algs in Hpass.
      cbn [passes and_conditions new_chain patching_is_enabled forallb fst
           existsb] in Hpass.
      rewrite !andb_true_iff in Hpass.
      destruct Hpass as (_ & _ & _ & HX & _). by apply negb_true_iff.
    + intros HX. eexists. split; [reflexivity|].
      unfold py_in, KMeans.supported_algs.
      cbn [passes and_conditions new_chain patching_is_enabled forallb fst
           existsb].
      by rewrite Hsupported, HX.
Qed.

(** ** [PCA._fit]: where each solver leads *)

Lemma set_dict_twice o a v w : set_dict (set_dict o a v) a w = set_dict o a w.
Proof. unfold set_dict. simpl. by rewrite insert_insert_eq. Qed.

Section PCAFit.
Variable ctx : Dispatch.device_context.
Variable _check_array : pyval -> pyval -> outcome pyval.
Variables accelerated reference : callable.
Variable truncated : list pyval -> outcome pyval.
Variable lt_scaled_min : pyval -> nat -> outcome bool.

(** [_fit] up to the point where the solver is recorded. *)
Lemma PCA_fit_prelude X0 X copy n_components svd_solver n s :
  issparse X0 = false ->
  lookup_attr (self s) "copy" = Some copy ->
  _check_array X0 copy = Returns X ->
  lookup_attr (self s) "n_components" = Some n_components ->
  lookup_attr (self s) "svd_solver" = Some svd_solver ->
  PCA_n_components n_components svd_solver X = Returns n ->
  PCA._fit ctx _check_array accelerated reference truncated lt_scaled_min
    X0 s
  = (let! _ :=
       (if py_eq svd_solver (VStr "auto") then
          let! dims := lift (shape_of X) in
          let! resolved := PCA.resolve_auto lt_scaled_min dims n in
          setattr "_fit_svd_solver" resolved
        else ret tt) in
     let! solver := getattr "_fit_svd_solver" in
     if py_eq solver (VStr "full") then
       Dispatch.dispatch ctx PCA.cls "decomposition.PCA.fit"
         (PCA.fit_full_branches accelerated reference) [X]
     else if py_eq solver (VStr "cov") then
       Dispatch.dispatch ctx PCA.cls "decomposition.PCA.fit"
         (PCA.fit_cov_branches accelerated) [X]
     else if py_in solver [VStr "arpack"; VStr "randomized"] then
       lift (truncated [X; n; solver])
     else
       raise (ValueError ("Unrecognized svd_solver='" +:+ py_str solver
                          +:+ "'")))
      (with_fit_solver svd_solver s).
Proof.
  intros Hdense Hcopy Hcheck Hn Hsolver Hnc.
  unfold PCA._fit. rewrite Hdense.
  rewrite (bind_getattr _ _ _ _ Hcopy), Hcheck, bind_lift_returns.
  rewrite (bind_getattr _ _ _ _ Hn).
  assert (Hresolved : forall B (k : pyval -> M B),
      bind (if is_none n_components
            then
              let! svd_solver := getattr "svd_solver" in
              let! dims := lift (shape_of X) in
              let! smallest := lift (py_min dims) in
              if negb (py_eq svd_solver (VStr "arpack"))
              then ret (VInt (Z.of_nat smallest))
              else ret (VInt (Z.of_nat smallest - 1))
            else getattr "n_components") k s = k n s).
  { intros B k. unfold PCA_n_components in Hnc.
    destruct (is_none n_components).
    - rewrite bind_bind, (bind_getattr _ _ _ _ Hsolver).
      destruct (shape_of X) as [dims|]; [|discriminate]. cbn in Hnc.
      rewrite bind_bind, bind_lift_returns.
      destruct (py_min dims) as [smallest|]; [|discriminate]. cbn in Hnc.
      rewrite bind_bind, bind_lift_returns. injection Hnc as <-.
      destruct (negb (py_eq svd_solver (VStr "arpack"))); by rewrite bind_ret.
    - injection Hnc as <-. by rewrite (bind_getattr _ _ _ _ Hn). }
  rewrite Hresolved.
  rewrite (bind_getattr _ _ _ _ Hsolver), bind_setattr.
  erewrite bind_getattr by apply lookup_attr_set_eq.
  reflexivity.
Qed.

(** X8.  With [svd_solver] "arpack" or "randomized", [_fit] records the
    solver and calls the truncated fit of scikit-learn on the checked input,
    the effective [n_components] and the solver: the dispatcher is not
    involved and no backend callable is invoked. *)
Theorem PCA_fit_truncated_solvers X0 X copy n_components solver n s :
  solver = "arpack" \/ solver = "randomized" ->
  issparse X0 = false ->
  lookup_attr (self s) "copy" = Some copy ->
  _check_array X0 copy = Returns X ->
  lookup_attr (self s) "n_components" = Some n_components ->
  lookup_attr (self s) "svd_solver" = Some (VStr solver) ->
  PCA_n_components n_components (VStr solver) X = Returns n ->
  PCA._fit ctx _check_array accelerated reference truncated lt_scaled_min
    X0 s
  = (truncated [X; n; VStr solver], with_fit_solver (VStr solver) s).
Proof.
  intros Hsolver Hdense Hcopy Hcheck Hn Hsv Hnc.
  rewrite (PCA_fit_prelude X0 X copy n_components (VStr solver) n s)
    by done.
  destruct Hsolver as [-> | ->];
    cbn [py_eq String.eqb Ascii.eqb Bool.eqb]; rewrite bind_ret;
    (erewrite bind_getattr by apply lookup_attr_set_eq); reflexivity.
Qed.

(** X9.  The two errors of [_fit] itself.  A sparse input raises
    [TypeError] before the estimator is read or written.  A solver that is
    name that is none of "auto", "full", "cov", "arpack", "randomized" raises
    [ValueError] naming it, after [_fit_svd_solver] has been overwritten
    with it; no backend callable is invoked. *)
Theorem PCA_fit_errors X0 s :
  (issparse X0 = true ->
   PCA._fit ctx _check_array accelerated reference truncated lt_scaled_min
     X0 s
   = (Raises (TypeError "PCA does not support sparse input. See TruncatedSVD for a possible alternative."),
      s)) /\
  (forall X copy n_components name n,
     issparse X0 = false ->
     lookup_attr (self s) "copy" = Some copy ->
     _check_array X0 copy = Returns X ->
     lookup_attr (self s) "n_components" = Some n_components ->
     lookup_attr (self s) "svd_solver" = Some (VStr name) ->
     PCA_n_components n_components (VStr name) X = Returns n ->
     py_in (VStr name) [VStr "auto"; VStr "full"; VStr "cov"; VStr "arpack";
                        VStr "randomized"] = false ->
     PCA._fit ctx _check_array accelerated reference truncated lt_scaled_min
       X0 s
     = (Raises (ValueError ("Unrecognized svd_solver='" +:+ name +:+ "'")),
        with_fit_solver (VStr name) s)).
Proof.
  split.
  - intros Hsparse. unfold PCA._fit. by rewrite Hsparse.
  - intros X copy n_components name n
           Hdense Hcopy Hcheck Hn Hsv Hnc Hunknown.
    rewrite (PCA_fit_prelude X0 X copy n_components (VStr name) n s) by done.
    unfold py_in in Hunknown. cbn [existsb] in Hunknown.
    apply orb_false_elim in Hunknown as [Hauto Hunknown].
    apply orb_false_elim in Hunknown as [Hfull Hunknown].
    apply orb_false_elim in Hunknown as [Hcov Hunknown].
    rewrite Hauto, bind_ret.
    erewrite bind_getattr by apply lookup_attr_set_eq.
    (* the tests on the recorded solver are the tests just made *)
    unfold py_in. cbn [existsb]. by rewrite Hfull, Hcov, Hunknown.
Qed.

Lemma py_eq_str v a : py_eq v (VStr a) = true <-> v = VStr a.
Proof.
  destruct v; simpl; split; try discriminate.
  - by intros ->%String.eqb_eq.
  - intros [= ->]. apply String.eqb_refl.
Qed.

Lemma with_fit_solver_twice v w s :
  with_fit_solver w (with_fit_solver v s) = with_fit_solver w s.
Proof. unfold with_fit_solver. simpl. by rewrite set_dict_twice. Qed.

(** [_fit] with [svd_solver="auto"], once the resolution has returned. *)
Lemma PCA_fit_auto_resolved X0 X copy n_components n dims resolved s :
  issparse X0 = false ->
  lookup_attr (self s) "copy" = Some copy ->
  _check_array X0 copy = Returns X ->
  lookup_attr (self s) "n_components" = Some n_components ->
  lookup_attr (self s) "svd_solver" = Some (VStr "auto") ->
  PCA_n_components n_components (VStr "auto") X = Returns n ->
  shape_of X = Returns dims ->
  PCA.resolve_auto lt_scaled_min dims n (with_fit_solver (VStr "auto") s)
    = (Returns (VStr resolved), with_fit_solver (VStr "auto") s) ->
  resolved = "full" \/ resolved = "randomized" ->
  PCA._fit ctx _check_array accelerated reference truncated lt_scaled_min
    X0 s
  = if String.eqb resolved "full"
    then dispatched ctx accelerated reference PCA_fit_full [X]
           (with_fit_solver (VStr "full") s)
    else (truncated [X; n; VStr "randomized"],
          with_fit_solver (VStr "randomized") s).
Proof.
  intros Hdense Hcopy Hcheck Hn Hsv Hnc Hshape Hresolve Hresolved.
  rewrite (PCA_fit_prelude X0 X copy n_components (VStr "auto") n s) by done.
  cbn [py_eq String.eqb Ascii.eqb Bool.eqb].
  rewrite bind_bind, Hshape, bind_lift_returns, bind_bind.
  unfold bind at 1. rewrite Hresolve.
  rewrite bind_setattr.
  erewrite bind_getattr by apply lookup_attr_set_eq.
  change (mk_state (set_dict (self (with_fit_solver (VStr "auto") s))
                      "_fit_svd_solver" (VStr resolved))
            (stdout (with_fit_solver (VStr "auto") s))
            (invoked (with_fit_solver (VStr "auto") s)))
    with (with_fit_solver (VStr resolved) (with_fit_solver (VStr "auto") s)).
  rewrite with_fit_solver_twice.
  by destruct Hresolved as [-> | ->].
Qed.

End PCAFit.

(** X10.  With [svd_solver="auto"] the solver recorded is "full" or
    "randomized", never "auto" itself.  An input whose largest dimension is
    at most 500, or [n_components="mle"], goes to the full solver through the
    dispatcher.  A larger input goes to the truncated fit of scikit-learn,
    outside the dispatcher, exactly when [n_components >= 1] and
    [n_components < 0.8 * min(X.shape)], the product being the float that
    Python computes, and to the full solver otherwise: so for an integer
    [n_components], and so for a float, a fraction below one going to the
    full solver.  A larger input with a string other than "mle" for
    [n_components] fails with [TypeError] on the comparison, with "auto"
    left in [_fit_svd_solver]. *)
Theorem PCA_fit_auto (ctx : Dispatch.device_context)
    (_check_array : pyval -> pyval -> outcome pyval)
    (accelerated reference : callable)
    (truncated : list pyval -> outcome pyval)
    (X0 X copy n_components n : pyval) (dims : list nat)
    (largest smallest : nat) (s : state) :
  issparse X0 = false ->
  lookup_attr (self s) "copy" = Some copy ->
  _check_array X0 copy = Returns X ->
  lookup_attr (self s) "n_components" = Some n_components ->
  lookup_attr (self s) "svd_solver" = Some (VStr "auto") ->
  PCA_n_components n_components (VStr "auto") X = Returns n ->
  shape_of X = Returns dims ->
  py_max dims = Returns largest ->
  py_min dims = Returns smallest ->
  (Z.of_nat largest <= 500 \/ n = VStr "mle" ->
   PCA._fit ctx _check_array accelerated reference truncated
     PCA.lt_scaled_min_binary64 X0 s
   = dispatched ctx accelerated reference PCA_fit_full [X]
       (with_fit_solver (VStr "full") s)) /\
  (500 < Z.of_nat largest ->
   forall k, int_value n = Some k ->
   PCA._fit ctx _check_array accelerated reference truncated
     PCA.lt_scaled_min_binary64 X0 s
   = if (1 <=? k) && float_gt_int (PCA.scaled_min smallest) k
     then (truncated [X; n; VStr "randomized"],
           with_fit_solver (VStr "randomized") s)
     else dispatched ctx accelerated reference PCA_fit_full [X]
            (with_fit_solver (VStr "full") s)) /\
  (500 < Z.of_nat largest ->
   forall f, n = VFloat f ->
   PCA._fit ctx _check_array accelerated reference truncated
     PCA.lt_scaled_min_binary64 X0 s
   = if float_ge_int f 1 && SFltb f (PCA.scaled_min smallest)
     then (truncated [X; n; VStr "randomized"],
           with_fit_solver (VStr "randomized") s)
     else dispatched ctx accelerated reference PCA_fit_full [X]
            (with_fit_solver (VStr "full") s)) /\
  (500 < Z.of_nat largest ->
   forall text, n = VStr text -> text <> "mle" ->
   exists message,
     PCA._fit ctx _check_array accelerated reference truncated
       PCA.lt_scaled_min_binary64 X0 s
     = (Raises (TypeError message), with_fit_solver (VStr "auto") s)).
Proof.
  intros Hdense Hcopy Hcheck Hn Hsv Hnc Hshape Hmax Hmin.
  assert (Hrun : forall below,
    500 < Z.of_nat largest ->
    py_eq n (VStr "mle") = false ->
    (exists at_least_one,
        py_ge_int n 1 = Returns at_least_one /\
        (at_least_one = true ->
         PCA.lt_scaled_min_binary64 n smallest = Returns below) /\
        (at_least_one = false -> below = false)) ->
    PCA._fit ctx _check_array accelerated reference truncated
      PCA.lt_scaled_min_binary64 X0 s
    = if below
      then (truncated [X; n; VStr "randomized"],
            with_fit_solver (VStr "randomized") s)
      else dispatched ctx accelerated reference PCA_fit_full [X]
             (with_fit_solver (VStr "full") s)).
  { intros below Hlarge Hnot_mle (at_least_one & Hge & Hyes & Hno).
    assert (Hgt : (Z.of_nat largest <=? 500) = false) by by apply Z.leb_gt.
    assert (Hresolve :
      PCA.resolve_auto PCA.lt_scaled_min_binary64 dims n
        (with_fit_solver (VStr "auto") s)
      = (Returns (VStr (if below then "randomized" else "full")),
         with_fit_solver (VStr "auto") s)).
    { unfold PCA.resolve_auto. rewrite Hmax, bind_lift_returns.
      rewrite Hgt, Hnot_mle. cbn [orb]. rewrite Hge, bind_lift_returns.
      destruct at_least_one.
      - rewrite Hmin, bind_lift_returns, (Hyes eq_refl), bind_lift_returns.
        by destruct below.
      - by rewrite (Hno eq_refl). }
    rewrite (PCA_fit_auto_resolved ctx _check_array accelerated reference
               truncated PCA.lt_scaled_min_binary64 X0 X copy n_components n
               dims _ s Hdense Hcopy Hcheck Hn Hsv Hnc Hshape Hresolve).
    - by destruct below.
    - destruct below; auto. }
  split; [|split; [|split]].
  - intros Hsmall.
    rewrite (PCA_fit_auto_resolved ctx _check_array accelerated reference
               truncated PCA.lt_scaled_min_binary64 X0 X copy n_components n
               dims "full" s); try done; [|by left].
    unfold PCA.resolve_auto. rewrite Hmax, bind_lift_returns.
    destruct Hsmall as [Hle| ->].
    + apply Z.leb_le in Hle. by rewrite Hle.
    + cbn [py_eq String.eqb Ascii.eqb Bool.eqb]. by rewrite orb_true_r.
  - intros Hlarge k Hk. apply (Hrun _ Hlarge).
    { destruct n; try done; discriminate Hk. }
    exists (1 <=? k). split; [|split].
    + unfold py_ge_int. rewrite Hk. by destruct n.
    + intros ->. unfold PCA.lt_scaled_min_binary64, py_lt_float.
      rewrite Hk. by destruct n.
    + by intros ->.
  - intros Hlarge f ->. apply (Hrun _ Hlarge); [done|].
    exists (float_ge_int f 1). split; [done|]. split.
    + by intros ->.
    + by intros ->.
  - intros Hlarge text Htext Hmle.
    assert (Hk : int_value n = None) by by subst n.
    assert (Hnot_mle : py_eq n (VStr "mle") = false).
    { destruct (py_eq n (VStr "mle")) eqn:E; [|done].
      apply py_eq_str in E. congruence. }
    eexists.
    assert (Hgt : (Z.of_nat largest <=? 500) = false) by by apply Z.leb_gt.
    rewrite (PCA_fit_prelude ctx _check_array accelerated reference truncated
               PCA.lt_scaled_min_binary64 X0 X copy n_components (VStr "auto")
               n s) by done.
    cbn [py_eq String.eqb Ascii.eqb Bool.eqb].
    rewrite bind_bind, Hshape, bind_lift_returns, bind_bind.
    unfold PCA.resolve_auto. rewrite bind_bind, Hmax, bind_lift_returns.
    rewrite Hgt, Hnot_mle. cbn [orb].
    subst n. reflexivity.
Qed.

(** [PCA(svd_solver="arpack")] on a 40 x 4 input: [n_components] is 3. *)
Lemma PCA_fit_truncated_solvers_witness :
  PCA._fit Dispatch.on_host Examples.accept Examples.idle Examples.idle
    echo_n_components Examples.below_four_fifths Examples.dense_40x4
    (Examples.start (Examples.pca "arpack"))
  = (Returns (VInt 3),
     with_fit_solver (VStr "arpack") (Examples.start (Examples.pca "arpack"))).
Proof.
  apply (PCA_fit_truncated_solvers Dispatch.on_host Examples.accept
           Examples.idle Examples.idle echo_n_components
           Examples.below_four_fifths Examples.dense_40x4 Examples.dense_40x4
           (VBool true) VNone "arpack" (VInt 3)
           (Examples.start (Examples.pca "arpack")));
    first [by left | reflexivity].
Defined.

(** A sparse input, and [PCA(svd_solver="lobpcg")]. *)
Lemma PCA_fit_errors_witness :
  fst (PCA._fit Dispatch.on_host Examples.accept Examples.idle Examples.idle
         Examples.refuse Examples.below_four_fifths Examples.sparse_40x4
         (Examples.start (Examples.pca "full")))
    = Raises (TypeError "PCA does not support sparse input. See TruncatedSVD for a possible alternative.") /\
  PCA._fit Dispatch.on_host Examples.accept Examples.idle Examples.idle
    Examples.refuse Examples.below_four_fifths Examples.dense_40x4
    (Examples.start (Examples.pca "lobpcg"))
  = (Raises (ValueError "Unrecognized svd_solver='lobpcg'"),
     with_fit_solver (VStr "lobpcg") (Examples.start (Examples.pca "lobpcg"))).
Proof.
  split.
  - rewrite (proj1 (PCA_fit_errors Dispatch.on_host Examples.accept
                      Examples.idle Examples.idle Examples.refuse
                      Examples.below_four_fifths Examples.sparse_40x4
                      (Examples.start (Examples.pca "full"))) eq_refl).
    reflexivity.
  - apply (proj2 (PCA_fit_errors Dispatch.on_host Examples.accept
                    Examples.idle Examples.idle Examples.refuse
                    Examples.below_four_fifths Examples.dense_40x4
                    (Examples.start (Examples.pca "lobpcg")))
             Examples.dense_40x4 (VBool true) VNone "lobpcg"
             (VInt 4)); reflexivity.
Defined.

(** On a 1000 x 50 input, where [0.8 * 50] is the float 40.0:
    [PCA(n_components=10)] takes the "randomized" solver and the truncated
    fit; [PCA(n_components=40)] takes the full solver, 40 not being below
    40.0; so does [PCA(n_components=0.5)]. *)
Lemma PCA_fit_auto_witness :
  PCA._fit Dispatch.on_host Examples.accept Examples.idle Examples.idle
    echo_n_components PCA.lt_scaled_min_binary64 dense_1000x50
    (Examples.start (set_dict (Examples.pca "auto") "n_components" (VInt 10)))
  = (Returns (VInt 10),
     with_fit_solver (VStr "randomized")
       (Examples.start
          (set_dict (Examples.pca "auto") "n_components" (VInt 10)))) /\
  PCA._fit Dispatch.on_host Examples.accept Examples.idle Examples.idle
    echo_n_components PCA.lt_scaled_min_binary64 dense_1000x50
    (Examples.start (set_dict (Examples.pca "auto") "n_components" (VInt 40)))
  = dispatched Dispatch.on_host Examples.idle Examples.idle PCA_fit_full
      [dense_1000x50]
      (with_fit_solver (VStr "full")
         (Examples.start
            (set_dict (Examples.pca "auto") "n_components" (VInt 40)))) /\
  PCA._fit Dispatch.on_host Examples.accept Examples.idle Examples.idle
    echo_n_components PCA.lt_scaled_min_binary64 dense_1000x50
    (Examples.start
       (set_dict (Examples.pca "auto") "n_components" (VFloat one_half)))
  = dispatched Dispatch.on_host Examples.idle Examples.idle PCA_fit_full
      [dense_1000x50]
      (with_fit_solver (VStr "full")
         (Examples.start
            (set_dict (Examples.pca "auto") "n_components"
               (VFloat one_half)))).
Proof.
  split; [|split].
  - apply (proj1 (proj2 (PCA_fit_auto Dispatch.on_host Examples.accept
             Examples.idle Examples.idle echo_n_components
             dense_1000x50 dense_1000x50
             (VBool true) (VInt 10) (VInt 10) [1000; 50]%nat 1000%nat 50%nat
             (Examples.start
                (set_dict (Examples.pca "auto") "n_components" (VInt 10)))
             eq_refl eq_refl eq_refl eq_refl eq_refl eq_refl eq_refl eq_refl
             eq_refl)) ltac:(lia) 10 eq_refl).
  - apply (proj1 (proj2 (PCA_fit_auto Dispatch.on_host Examples.accept
             Examples.idle Examples.idle echo_n_components
             dense_1000x50 dense_1000x50
             (VBool true) (VInt 40) (VInt 40) [1000; 50]%nat 1000%nat 50%nat
             (Examples.start
                (set_dict (Examples.pca "auto") "n_components" (VInt 40)))
             eq_refl eq_refl eq_refl eq_refl eq_refl eq_refl eq_refl eq_refl
             eq_refl)) ltac:(lia) 40 eq_refl).
  - apply (proj1 (proj2 (proj2 (PCA_fit_auto Dispatch.on_host Examples.accept
             Examples.idle Examples.idle echo_n_components
             dense_1000x50 dense_1000x50
             (VBool true) (VFloat one_half) (VFloat one_half)
             [1000; 50]%nat 1000%nat 50%nat
             (Examples.start
                (set_dict (Examples.pca "auto") "n_components"
                   (VFloat one_half)))
             eq_refl eq_refl eq_refl eq_refl eq_refl eq_refl eq_refl eq_refl
             eq_refl))) ltac:(lia) one_half eq_refl).
Defined.

(** ** The helpers of the n_jobs test *)

Section NJobsFacts.
Import OnedalVersion NJobsTest.

Lemma contains_iff p s :
  contains p s = true <-> exists before after, s = before +:+ (p +:+ after).
Proof.
  split.
  - induction s as [|c s IH]; cbn [contains]; intros H.
    + apply orb_prop in H as [H|H]; [|discriminate].
      exists "", "". destruct p; [done | discriminate H].
    + apply orb_prop in H as [H|H].
      * exists "", (skip (String.length p) (String c s)).
        by apply prefix_split.
      * destruct (IH H) as (before & after & ->).
        by exists (String c before), after.
  - intros (before & after & ->).
    induction before as [|c before IH].
    + change ("" +:+ (p +:+ after)) with (p +:+ after).
      apply prefix_contains, prefix_append.
    + change (String c before +:+ (p +:+ after))
        with (String c (before +:+ (p +:+ after))).
      cbn [contains]. by rewrite IH, orb_true_r.
Qed.

Lemma contains_trans p q s :
  contains p q = true -> contains q s = true -> contains p s = true.
Proof.
  rewrite !contains_iff.
  intros (b1 & a1 & ->) (b2 & a2 & ->).
  exists (b2 +:+ b1), (a1 +:+ a2).
  by rewrite !append_assoc.
Qed.

(** The message names the function and ends in "threads". *)
Lemma setting_message_contains function_name expected :
  contains function_name (setting_message function_name expected) = true /\
  contains "threads" (setting_message function_name expected) = true.
Proof.
  unfold setting_message. split; apply contains_iff.
  - by exists "", (": setting " +:+ py_str (VInt expected) +:+ " threads").
  - exists (function_name +:+ ": setting " +:+ py_str (VInt expected) +:+ " "), "".
    by rewrite !append_assoc.
Qed.

Lemma split_on_nonempty sep s : split_on sep s <> [].
Proof.
  destruct s as [|c s]; [done|]. cbn [split_on].
  destruct (Ascii.eqb c sep); [done|]. by destruct (split_on sep s).
Qed.

(** Splitting a text without newline gives the text. *)
Lemma split_on_no_newline s :
  no_newline s = true -> split_on newline s = [s].
Proof.
  induction s as [|c s IH]; [done|]. cbn [no_newline split_on].
  intros [Hc Hs]%andb_prop. apply negb_true_iff in Hc.
  by rewrite Hc, (IH Hs).
Qed.

(** Splitting a line, its newline and more text. *)
Lemma split_on_line l rest :
  no_newline l = true ->
  split_on newline (l +:+ String newline rest)
  = l :: split_on newline rest.
Proof.
  induction l as [|c l IH]; intros Hl.
  - change ("" +:+ String newline rest) with (String newline rest).
    cbn [split_on]. by rewrite Ascii.eqb_refl.
  - cbn [no_newline] in Hl. apply andb_prop in Hl as [Hc Hl].
    apply negb_true_iff in Hc.
    change (String c l +:+ String newline rest)
      with (String c (l +:+ String newline rest)).
    cbn [split_on]. by rewrite Hc, (IH Hl).
Qed.

End NJobsFacts.

Section NJobsStream.
Import NJobsTest.

(** The logs read from a stream lines were written to. *)
Lemma logs_of_written lines unfinished :
  Forall (fun l => no_newline l = true) lines ->
  no_newline unfinished = true ->
  get_logs_from_stream
    (fold_right (fun l text => l +:+ String newline text) unfinished lines)
  = lines.
Proof.
  intros Hlines Hunfinished. unfold get_logs_from_stream.
  induction Hlines as [|l lines Hl Hlines IH]; cbn [fold_right].
  - by rewrite split_on_no_newline.
  - rewrite (split_on_line _ _ Hl).
    set (text := fold_right _ unfinished lines) in *.
    destruct (split_on newline text) as [|piece pieces]
      eqn:Hsplit; [by apply split_on_nonempty in Hsplit|].
    change (removelast (l :: piece :: pieces))
      with (l :: removelast (piece :: pieces)).
    by rewrite IH.
Qed.

End NJobsStream.

(** X11.  [get_logs_from_stream] gives back the lines that were written to
    the stream: for lines without a newline in them, each written with its
    newline, the result is the list of these lines, whatever unfinished text
    follows the last newline. *)
Theorem get_logs_from_stream_written (lines : list string) (unfinished : string) :
  Forall (fun l => NJobsTest.no_newline l = true) lines ->
  NJobsTest.no_newline unfinished = true ->
  NJobsTest.get_logs_from_stream
    (fold_right (fun l text => l +:+ String NJobsTest.newline text)
       unfinished lines)
  = lines.
Proof. apply logs_of_written. Qed.

(** Two log records, and the start of a third. *)
Lemma get_logs_from_stream_written_witness :
  NJobsTest.get_logs_from_stream
    ("sklearnex: fit: setting 2 threads" +:+ String NJobsTest.newline
       ("sklearnex: predict: setting 2 threads" +:+ String NJobsTest.newline
          "sklearnex: pre"))
  = ["sklearnex: fit: setting 2 threads";
     "sklearnex: predict: setting 2 threads"].
Proof.
  apply (get_logs_from_stream_written
           ["sklearnex: fit: setting 2 threads";
            "sklearnex: predict: setting 2 threads"] "sklearnex: pre").
  - repeat constructor.
  - reflexivity.
Defined.

Section NJobsCheck.
Import OnedalVersion NJobsTest.

(** A line that holds the message passes the test that comes before. *)
Lemma message_line_is_candidate function_name expected log :
  contains (setting_message function_name expected) log = true ->
  contains function_name log && contains "threads" log = true.
Proof.
  intros Hlog.
  destruct (setting_message_contains function_name expected) as [Hname Hthreads].
  by rewrite (contains_trans _ _ _ Hname Hlog),
             (contains_trans _ _ _ Hthreads Hlog).
Qed.

Lemma check_with_integer cpu_count function_name k logs infos :
  (check_n_jobs_entry_in_logs_from cpu_count logs function_name (Some k)
     infos).1
  = Returns
      (existsb
         (contains
            (setting_message function_name
               (if 0 <? k then k else cpu_count + 1 + k)))
         logs).
Proof.
  revert infos. induction logs as [|log logs IH]; intros infos; [done|].
  cbn [check_n_jobs_entry_in_logs_from existsb expected_n_jobs].
  set (message := setting_message _ _) in *.
  destruct (contains message log) eqn:Hmessage.
  - by rewrite (message_line_is_candidate _ _ _ Hmessage).
  - cbn [orb]. destruct (_ && _); apply IH.
Qed.

End NJobsCheck.

(** X12.  With an integer [n_jobs], [check_n_jobs_entry_in_logs] returns, and
    returns [True] exactly when some log line holds the message
    "<function_name>: setting <expected> threads", [expected] being [n_jobs]
    when positive and [cpu_count() + 1 + n_jobs] otherwise: the test on the
    function name and on "threads" that comes first changes nothing. *)
Theorem check_n_jobs_entry_in_logs_integer (cpu_count k : Z)
    (logs : list string) (function_name : string) :
  (NJobsTest.check_n_jobs_entry_in_logs cpu_count logs function_name
     (Some k)).1
  = Returns
      (existsb
         (OnedalVersion.contains
            (NJobsTest.setting_message function_name
               (if 0 <? k then k else cpu_count + 1 + k)))
         logs).
Proof. apply check_with_integer. Qed.

(** X13.  With [n_jobs=None], [check_n_jobs_entry_in_logs] never returns
    [False]: it returns [True] when no log line mentions both the function
    name and "threads", and otherwise raises the [TypeError] of [None > 0]
    at the first such line; nothing is handed to [logging.info]. *)
Theorem check_n_jobs_entry_in_logs_none (cpu_count : Z) (logs : list string)
    (function_name : string) :
  NJobsTest.check_n_jobs_entry_in_logs cpu_count logs function_name None
  = (if existsb
          (fun log =>
             OnedalVersion.contains function_name log
             && OnedalVersion.contains "threads" log)
          logs
     then Raises (TypeError
            "'>' not supported between instances of 'NoneType' and 'int'")
     else Returns true,
     []).
Proof.
  unfold NJobsTest.check_n_jobs_entry_in_logs.
  induction logs as [|log logs IH]; [done|].
  cbn [NJobsTest.check_n_jobs_entry_in_logs_from existsb
       NJobsTest.expected_n_jobs].
  by destruct (_ && _).
Qed.

(** X18.  [check_method] with an integer [n_jobs], on a stream that holds
    the given lines, each ended by its newline, and then some unfinished
    text: the assertion holds exactly when one of the lines holds the
    message for the method's name, and fails with [AssertionError]
    otherwise; the unfinished text is not looked at. *)
Theorem check_method_integer (cpu_count k : Z) (lines : list string)
    (unfinished method_name : string) :
  Forall (fun l => NJobsTest.no_newline l = true) lines ->
  NJobsTest.no_newline unfinished = true ->
  NJobsTest.check_method cpu_count
    (fold_right (fun l text => l +:+ String NJobsTest.newline text)
       unfinished lines)
    method_name (Some k)
  = if existsb
         (OnedalVersion.contains
            (NJobsTest.setting_message method_name
               (if 0 <? k then k else cpu_count + 1 + k)))
         lines
    then Returns tt else Raises AssertionError.
Proof.
  intros Hlines Hunfinished. unfold NJobsTest.check_method.
  rewrite (logs_of_written _ _ Hlines Hunfinished).
  unfold NJobsTest.check_n_jobs_entry_in_logs.
  by rewrite check_with_integer.
Qed.

(** [n_jobs=-1] on four cores: the record of [fit] is found, the
    unfinished record of [predict] is not read. *)
Lemma check_method_integer_witness :
  NJobsTest.check_method 4
    ("sklearnex: fit: setting 4 threads" +:+ String NJobsTest.newline
       "sklearnex: predict: setting 4 threads")
    "fit" (Some (-1))
  = Returns tt /\
  NJobsTest.check_method 4
    ("sklearnex: fit: setting 4 threads" +:+ String NJobsTest.newline
       "sklearnex: predict: setting 4 threads")
    "predict" (Some (-1))
  = Raises AssertionError.
Proof.
  split.
  - apply (check_method_integer 4 (-1) ["sklearnex: fit: setting 4 threads"]
             "sklearnex: predict: setting 4 threads" "fit").
    + repeat constructor.
    + reflexivity.
  - apply (check_method_integer 4 (-1) ["sklearnex: fit: setting 4 threads"]
             "sklearnex: predict: setting 4 threads" "predict").
    + repeat constructor.
    + reflexivity.
Defined.

(** ** The accelerated fit of PCA *)

Section PCAOnedalFacts.
Import PCAOnedal.
Variable onedal_PCA : gmap string pyval -> string.
Variable onedal_PCA_fit :
  gmap string pyval -> list pyval -> outcome unit * gmap string pyval.
Variable onedal_PCA_predict :
  gmap string pyval -> list pyval -> outcome pyval.

(** A solver other than "full" and "cov" stops [_onedal_fit] at once. *)
Lemma onedal_fit_unknown X y queue h svd_solver s :
  lookup_attr (self s) "svd_solver" = Some svd_solver ->
  py_eq svd_solver (VStr "full") = false ->
  py_eq svd_solver (VStr "cov") = false ->
  _onedal_fit onedal_PCA onedal_PCA_fit X y queue h s
  = (Raises (ValueError ("Unknown method='" +:+ py_str svd_solver +:+ "'")),
     s, h).
Proof.
  intros Hsolver Hfull Hcov. unfold _onedal_fit, method_of_solver.
  rewrite !bind_bind, (bind_getattr _ _ _ _ Hsolver), Hfull.
  rewrite !bind_bind, (bind_getattr _ _ _ _ Hsolver), Hcov.
  by rewrite !bind_bind, (bind_getattr _ _ _ _ Hsolver).
Qed.

Lemma bind_assign {B} name v (k : unit -> M B) s :
  is_read_only (self s) name = false ->
  bind (assign name v) k s
  = k tt (mk_state (set_dict (self s) name v) (stdout s) (invoked s)).
Proof. intros Hwrite. unfold bind, assign. by rewrite Hwrite. Qed.

(** The copies of [_save_attributes], over any list of names that the
    class lets be assigned. *)
Lemma save_each_run h tag attrs names s :
  h !! tag = Some attrs ->
  dict (self s) !! "_onedal_estimator" = Some (VOpaque tag) ->
  "_onedal_estimator" ∉ names ->
  Forall (fun name => is_Some (attrs !! name)) names ->
  Forall (fun name => is_read_only (self s) name = false) names ->
  exists s',
    save_each h names s = (Returns tt, s') /\
    class_name (self s') = class_name (self s) /\
    class_dict (self s') = class_dict (self s) /\
    stdout s' = stdout s /\ invoked s' = invoked s /\
    forall a, dict (self s') !! a
              = if bool_decide (a ∈ names) then attrs !! a
                else dict (self s) !! a.
Proof.
  intros Hh. revert s.
  induction names as [|name names IH]; intros s Hest Hfresh Hattrs Hwrite.
  - exists s. by repeat split.
  - apply Forall_cons_1 in Hattrs as [[v Hv] Hattrs].
    apply Forall_cons_1 in Hwrite as [Hname_write Hwrite].
    apply not_elem_of_cons in Hfresh as [Hname Hfresh].
    cbn [save_each].
    rewrite (bind_getattr _ _ _ (VOpaque tag)); last first.
    { unfold lookup_attr. by rewrite Hest. }
    unfold getattr_of at 1. rewrite Hh, Hv, bind_lift_returns.
    rewrite (bind_assign _ _ _ _ Hname_write).
    edestruct (IH (mk_state (set_dict (self s) name v) (stdout s) (invoked s)))
      as (s' & Hrun & Hcn & Hcd & Hout & Hinv & Hdict); [|done..|].
    { cbn. by rewrite lookup_insert_ne. }
    exists s'. rewrite Hrun, Hcn, Hcd, Hout, Hinv. repeat split.
    intros a. rewrite Hdict. cbn.
    destruct (decide (a = name)) as [->|Ha].
    + rewrite (bool_decide_eq_true_2 (name ∈ name :: names));
        [|apply list_elem_of_here].
      case_bool_decide; [done|]. by rewrite lookup_insert_eq.
    + rewrite lookup_insert_ne by done.
      case_bool_decide as Hin.
      * by rewrite bool_decide_eq_true_2 by by apply list_elem_of_further.
      * rewrite bool_decide_eq_false_2; [done|].
        by intros [?|?]%elem_of_cons.
Qed.

Lemma estimator_not_saved : "_onedal_estimator" ∉ saved_attributes.
Proof. unfold saved_attributes. rewrite !not_elem_of_cons. by repeat split; [..|apply not_elem_of_nil]. Qed.

(** The parameters of a run with a solver the backend knows. *)
Lemma onedal_params_run svd_solver method n_components copy s :
  lookup_attr (self s) "svd_solver" = Some svd_solver ->
  (svd_solver = VStr "full" /\ method = "svd" \/
   svd_solver = VStr "cov" /\ method = "cov") ->
  lookup_attr (self s) "n_components" = Some n_components ->
  lookup_attr (self s) "copy" = Some copy ->
  bind method_of_solver (fun method => onedal_params method) s
  = (Returns (PCA_onedal_params n_components copy method), s).
Proof.
  intros Hsolver Hmethod Hn Hcopy.
  unfold method_of_solver, onedal_params.
  rewrite !bind_bind, (bind_getattr _ _ _ _ Hsolver).
  destruct Hmethod as [[-> ->]|[-> ->]].
  - change (py_eq (VStr "full") (VStr "full")) with true. cbv iota.
    by rewrite bind_ret, (bind_getattr _ _ _ _ Hn),
               (bind_getattr _ _ _ _ Hcopy).
  - change (py_eq (VStr "cov") (VStr "full")) with false. cbv iota.
    rewrite !bind_bind, (bind_getattr _ _ _ _ Hsolver).
    change (py_eq (VStr "cov") (VStr "cov")) with true. cbv iota.
    by rewrite bind_ret, (bind_getattr _ _ _ _ Hn),
               (bind_getattr _ _ _ _ Hcopy).
Qed.

(** Once [_onedal_estimator] is assigned, the host reports the transform
    as supported. *)
Lemma transform_supported_with_estimator X v s :
  dict (self s) !! "_onedal_estimator" = Some v ->
  PCA._onedal_cpu_supported "decomposition.PCA.transform" [X] s
  = (Returns (Bare true), s).
Proof.
  intros Hest. unfold PCA._onedal_cpu_supported.
  change ("decomposition.PCA.transform" =? "decomposition.PCA.fit")%string
    with false.
  change ("decomposition.PCA.transform" =? "decomposition.PCA.transform")%string
    with true.
  cbv iota. unfold bind, hasattr, ret, lookup_attr. rewrite Hest.
  by rewrite bool_decide_eq_true_2.
Qed.

(** A run of [_onedal_fit] in which the backend's fit raises. *)
Lemma onedal_fit_backend_raises X y queue h svd_solver method n_components
    copy e attrs s :
  lookup_attr (self s) "svd_solver" = Some svd_solver ->
  (svd_solver = VStr "full" /\ method = "svd" \/
   svd_solver = VStr "cov" /\ method = "cov") ->
  lookup_attr (self s) "n_components" = Some n_components ->
  lookup_attr (self s) "copy" = Some copy ->
  onedal_PCA_fit (PCA_onedal_params n_components copy method) [X; y; queue]
  = (Raises e, attrs) ->
  _onedal_fit onedal_PCA onedal_PCA_fit X y queue h s
  = (Raises e,
     mk_state
       (set_dict (self s) "_onedal_estimator"
          (VOpaque (onedal_PCA (PCA_onedal_params n_components copy method))))
       (stdout s) (invoked s),
     <[onedal_PCA (PCA_onedal_params n_components copy method) := attrs]> h).
Proof.
  intros Hsolver Hmethod Hn Hcopy Hfit. unfold _onedal_fit.
  by rewrite (onedal_params_run _ _ _ _ _ Hsolver Hmethod Hn Hcopy), Hfit.
Qed.

(** A run of [_onedal_fit] in which the backend's fit returns. *)
Lemma onedal_fit_run X y queue h svd_solver method n_components copy attrs s :
  lookup_attr (self s) "svd_solver" = Some svd_solver ->
  (svd_solver = VStr "full" /\ method = "svd" \/
   svd_solver = VStr "cov" /\ method = "cov") ->
  lookup_attr (self s) "n_components" = Some n_components ->
  lookup_attr (self s) "copy" = Some copy ->
  onedal_PCA_fit (PCA_onedal_params n_components copy method) [X; y; queue]
  = (Returns tt, attrs) ->
  Forall (fun name => is_Some (attrs !! name)) saved_attributes ->
  Forall (fun name => is_read_only (self s) name = false) saved_attributes ->
  exists S V s',
    attrs !! "singular_values_" = Some S /\
    attrs !! "components_" = Some V /\
    _onedal_fit onedal_PCA onedal_PCA_fit X y queue h s
    = (Returns (VNone, S, V), s',
       <[onedal_PCA (PCA_onedal_params n_components copy method) := attrs]> h)
    /\
    class_name (self s') = class_name (self s) /\
    class_dict (self s') = class_dict (self s) /\
    stdout s' = stdout s /\ invoked s' = invoked s /\
    forall a, dict (self s') !! a
              = if bool_decide (a ∈ saved_attributes) then attrs !! a
                else if bool_decide (a = "_onedal_estimator")
                     then Some (VOpaque
                            (onedal_PCA
                               (PCA_onedal_params n_components copy method)))
                     else dict (self s) !! a.
Proof.
  intros Hsolver Hmethod Hn Hcopy Hfit Hattrs Hwrite.
  set (params := PCA_onedal_params n_components copy method) in *.
  pose proof (onedal_params_run _ _ _ _ _ Hsolver Hmethod Hn Hcopy) as Hparams.
  fold params in Hparams.
  unfold _onedal_fit. rewrite Hparams, Hfit.
  set (tag := onedal_PCA params).
  set (s2 := (setattr "_onedal_estimator" (VOpaque tag) s).2).
  destruct (save_each_run (<[tag := attrs]> h) tag attrs saved_attributes s2)
    as (s' & Hrun & Hcn & Hcd & Hout & Hinv & Hdict);
    [apply lookup_insert_eq | apply lookup_insert_eq
    | apply estimator_not_saved | done | done |].
  assert (HS : is_Some (attrs !! "singular_values_")).
  { refine (proj1 (Forall_forall _ _) Hattrs _ _).
    unfold saved_attributes. do 3 apply list_elem_of_further.
    apply list_elem_of_here. }
  assert (HV : is_Some (attrs !! "components_")).
  { refine (proj1 (Forall_forall _ _) Hattrs _ _). apply list_elem_of_here. }
  destruct HS as [S HS], HV as [V HV].
  exists S, V, s'. split; [done|]. split; [done|]. split.
  - unfold _save_attributes. unfold bind at 1. rewrite Hrun.
    rewrite (bind_getattr _ _ _ S); last first.
    { unfold lookup_attr. by rewrite Hdict, HS. }
    rewrite (bind_getattr _ _ _ V); [done|].
    unfold lookup_attr. by rewrite Hdict, HV.
  - rewrite Hcn, Hcd, Hout, Hinv. repeat split.
    intros a. rewrite Hdict. case_bool_decide; [done|].
    subst s2. cbn. case_bool_decide as Ha.
    + subst a. by rewrite lookup_insert_eq.
    + by rewrite lookup_insert_ne.
Qed.

Lemma save_each_app h names1 names2 s :
  save_each h (names1 ++ names2) s
  = bind (save_each h names1) (fun _ => save_each h names2) s.
Proof.
  revert s. induction names1 as [|name names1 IH]; intros s.
  - reflexivity.
  - change (save_each h ((name :: names1) ++ names2))
      with (let! estimator := getattr "_onedal_estimator" in
            let! v := lift (getattr_of h estimator name) in
            let! _ := assign name v in
            save_each h (names1 ++ names2)).
    cbn [save_each]. unfold bind.
    destruct (getattr "_onedal_estimator" s) as [[estimator|e] s1]; [|done].
    destruct (lift (getattr_of h estimator name) s1) as [[v|e] s2]; [|done].
    destruct (assign name v s2) as [[[]|e] s3]; [|done].
    rewrite IH. reflexivity.
Qed.

(** The copies stop at the first name that the class defines as a property
    without a setter: the names before it are saved, that one raises. *)
Lemma save_each_stops h tag attrs before name after s :
  h !! tag = Some attrs ->
  dict (self s) !! "_onedal_estimator" = Some (VOpaque tag) ->
  "_onedal_estimator" ∉ before ->
  Forall (fun a => is_Some (attrs !! a)) before ->
  Forall (fun a => is_read_only (self s) a = false) before ->
  is_read_only (self s) name = true ->
  exists s',
    save_each h (before ++ name :: after) s
    = (Raises (AttributeError name), s') /\
    class_name (self s') = class_name (self s) /\
    class_dict (self s') = class_dict (self s) /\
    stdout s' = stdout s /\ invoked s' = invoked s /\
    forall a, dict (self s') !! a
              = if bool_decide (a ∈ before) then attrs !! a
                else dict (self s) !! a.
Proof.
  intros Hh Hest Hfresh Hattrs Hwrite Hname.
  destruct (save_each_run h tag attrs before s Hh Hest Hfresh Hattrs Hwrite)
    as (s' & Hrun & Hcn & Hcd & Hout & Hinv & Hdict).
  exists s'. split; [|done].
  rewrite save_each_app. unfold bind at 1. rewrite Hrun.
  cbn [save_each].
  assert (Hest' : lookup_attr (self s') "_onedal_estimator"
                  = Some (VOpaque tag)).
  { unfold lookup_attr. rewrite Hdict.
    by rewrite bool_decide_eq_false_2, Hest. }
  rewrite (bind_getattr _ _ _ _ Hest').
  unfold getattr_of. rewrite Hh.
  assert (Hname' : is_read_only (self s') name = true).
  { unfold is_read_only in *. by rewrite Hcd. }
  destruct (attrs !! name) as [v|]; [|done].
  rewrite bind_lift_returns. unfold bind, assign. by rewrite Hname'.
Qed.

End PCAOnedalFacts.

(** X14.  [_onedal_fit] reads [svd_solver], not the solver [_fit] resolved:
    on the estimator [_fit] leaves when it resolves "auto" to "full", the
    host predicate reports the fit as supported, and [_onedal_fit] raises
    [ValueError] "Unknown method='auto'" before it builds an estimator,
    leaving the receiver and the heap as they were. *)
Theorem PCA_onedal_fit_after_auto
    (onedal_PCA : gmap string pyval -> string)
    (onedal_PCA_fit :
       gmap string pyval -> list pyval -> outcome unit * gmap string pyval)
    (X y queue : pyval) (h : PCAOnedal.heap) (s : state) :
  lookup_attr (self s) "svd_solver" = Some (VStr "auto") ->
  PCA._onedal_cpu_supported "decomposition.PCA.fit" [X]
    (with_fit_solver (VStr "full") s)
  = (Returns (Bare true), with_fit_solver (VStr "full") s) /\
  PCAOnedal._onedal_fit onedal_PCA onedal_PCA_fit X y queue h
    (with_fit_solver (VStr "full") s)
  = (Raises (ValueError "Unknown method='auto'"),
     with_fit_solver (VStr "full") s, h).
Proof.
  intros Hsolver. split.
  - unfold PCA._onedal_cpu_supported.
    change ("decomposition.PCA.fit" =? "decomposition.PCA.fit")%string
      with true.
    cbv iota. rewrite (bind_getattr _ _ _ (VStr "full")); [done|].
    unfold lookup_attr, with_fit_solver. cbn. by rewrite lookup_insert_eq.
  - apply (onedal_fit_unknown _ _ _ _ _ _ (VStr "auto")); [|done..].
    unfold lookup_attr, with_fit_solver in *. cbn.
    by rewrite lookup_insert_ne.
Qed.

(** The default estimator, its solver resolved to "full". *)
Lemma PCA_onedal_fit_after_auto_witness :
  PCA._onedal_cpu_supported "decomposition.PCA.fit" [Examples.dense_40x4]
    (with_fit_solver (VStr "full") (Examples.start (Examples.pca "auto")))
  = (Returns (Bare true),
     with_fit_solver (VStr "full") (Examples.start (Examples.pca "auto"))) /\
  PCAOnedal._onedal_fit stub_onedal_PCA stub_fit Examples.dense_40x4 VNone
    VNone ∅
    (with_fit_solver (VStr "full") (Examples.start (Examples.pca "auto")))
  = (Raises (ValueError "Unknown method='auto'"),
     with_fit_solver (VStr "full") (Examples.start (Examples.pca "auto")), ∅).
Proof.
  apply (PCA_onedal_fit_after_auto stub_onedal_PCA stub_fit
           Examples.dense_40x4 VNone VNone ∅
           (Examples.start (Examples.pca "auto"))).
  reflexivity.
Defined.

(** X15.  When [svd_solver] is "full" or "cov", the backend's fit returns,
    leaving the eleven saved attributes on its estimator, and the class
    defines none of the eleven as a property without setter (as scikit-learn
    does before 1.2 and from 1.4 on), [_onedal_fit] returns [(None, S, V)]
    with the estimator's [singular_values_] and [components_]; afterwards
    [self] holds the estimator under [_onedal_estimator] and each saved
    attribute with the estimator's value, every other attribute is as
    before, and nothing was printed. *)
Theorem PCA_onedal_fit_saves
    (onedal_PCA : gmap string pyval -> string)
    (onedal_PCA_fit :
       gmap string pyval -> list pyval -> outcome unit * gmap string pyval)
    (X y queue : pyval) (h : PCAOnedal.heap)
    (svd_solver : pyval) (method : string) (n_components copy : pyval)
    (attrs : gmap string pyval) (s : state) :
  lookup_attr (self s) "svd_solver" = Some svd_solver ->
  (svd_solver = VStr "full" /\ method = "svd" \/
   svd_solver = VStr "cov" /\ method = "cov") ->
  lookup_attr (self s) "n_components" = Some n_components ->
  lookup_attr (self s) "copy" = Some copy ->
  onedal_PCA_fit (PCA_onedal_params n_components copy method) [X; y; queue]
  = (Returns tt, attrs) ->
  Forall (fun name => is_Some (attrs !! name)) PCAOnedal.saved_attributes ->
  Forall (fun name => PCAOnedal.is_read_only (self s) name = false)
    PCAOnedal.saved_attributes ->
  exists S V s',
    attrs !! "singular_values_" = Some S /\
    attrs !! "components_" = Some V /\
    PCAOnedal._onedal_fit onedal_PCA onedal_PCA_fit X y queue h s
    = (Returns (VNone, S, V), s',
       <[onedal_PCA (PCA_onedal_params n_components copy method) := attrs]> h)
    /\
    class_name (self s') = class_name (self s) /\
    class_dict (self s') = class_dict (self s) /\
    stdout s' = stdout s /\ invoked s' = invoked s /\
    forall a, dict (self s') !! a
              = if bool_decide (a ∈ PCAOnedal.saved_attributes)
                then attrs !! a
                else if bool_decide (a = "_onedal_estimator")
                     then Some (VOpaque
                            (onedal_PCA
                               (PCA_onedal_params n_components copy method)))
                     else dict (self s) !! a.
Proof. apply onedal_fit_run. Qed.

(** [PCA(svd_solver="full")] fitted by the stub backend. *)
Lemma PCA_onedal_fit_saves_witness :
  exists S V s',
    stub_attrs !! "singular_values_" = Some S /\
    stub_attrs !! "components_" = Some V /\
    PCAOnedal._onedal_fit stub_onedal_PCA stub_fit Examples.dense_40x4 VNone
      VNone ∅ (Examples.start (Examples.pca "full"))
    = (Returns (VNone, S, V), s',
       <[stub_onedal_PCA (PCA_onedal_params VNone (VBool true) "svd")
         := stub_attrs]> ∅)
    /\
    class_name (self s')
    = class_name (self (Examples.start (Examples.pca "full"))) /\
    class_dict (self s')
    = class_dict (self (Examples.start (Examples.pca "full"))) /\
    stdout s' = stdout (Examples.start (Examples.pca "full")) /\
    invoked s' = invoked (Examples.start (Examples.pca "full")) /\
    forall a, dict (self s') !! a
              = if bool_decide (a ∈ PCAOnedal.saved_attributes)
                then stub_attrs !! a
                else if bool_decide (a = "_onedal_estimator")
                     then Some (VOpaque
                            (stub_onedal_PCA
                               (PCA_onedal_params VNone (VBool true) "svd")))
                     else dict (self (Examples.start (Examples.pca "full")))
                          !! a.
Proof.
  apply (PCA_onedal_fit_saves stub_onedal_PCA stub_fit Examples.dense_40x4
           VNone VNone ∅ (VStr "full") "svd" VNone (VBool true) stub_attrs
           (Examples.start (Examples.pca "full"))).
  - reflexivity.
  - left. split; reflexivity.
  - reflexivity.
  - reflexivity.
  - reflexivity.
  - repeat (constructor; [eexists; reflexivity|]). constructor.
  - repeat (constructor; [reflexivity|]). constructor.
Defined.

(** X19.  Under scikit-learn 1.2 and 1.3, where the parent class defines
    [n_features_] as a property without a setter, an accelerated fit of PCA
    does not return: once the backend has fitted, [_save_attributes] copies
    the six attributes that come before [n_features_] and raises
    [AttributeError] on the seventh line.  [self] is left with the backend's
    estimator and these six attributes, and with nothing else changed. *)
Theorem PCA_onedal_fit_read_only_n_features
    (onedal_PCA : gmap string pyval -> string)
    (onedal_PCA_fit :
       gmap string pyval -> list pyval -> outcome unit * gmap string pyval)
    (installed : release)
    (X y queue : pyval) (h : PCAOnedal.heap)
    (svd_solver : pyval) (method : string) (n_components copy : pyval)
    (attrs : gmap string pyval) (s : state) :
  sklearn_check_version installed "1.2" = true ->
  sklearn_check_version installed "1.4" = false ->
  class_dict (self s) = PCAOnedal.sklearn_PCA_properties installed ->
  lookup_attr (self s) "svd_solver" = Some svd_solver ->
  (svd_solver = VStr "full" /\ method = "svd" \/
   svd_solver = VStr "cov" /\ method = "cov") ->
  lookup_attr (self s) "n_components" = Some n_components ->
  lookup_attr (self s) "copy" = Some copy ->
  onedal_PCA_fit (PCA_onedal_params n_components copy method) [X; y; queue]
  = (Returns tt, attrs) ->
  Forall (fun name => is_Some (attrs !! name))
    (take 6 PCAOnedal.saved_attributes) ->
  exists s',
    (PCAOnedal._onedal_fit onedal_PCA onedal_PCA_fit X y queue h s).1
    = (Raises (AttributeError "n_features_"), s') /\
    stdout s' = stdout s /\ invoked s' = invoked s /\
    forall a, dict (self s') !! a
              = if bool_decide (a ∈ take 6 PCAOnedal.saved_attributes)
                then attrs !! a
                else if bool_decide (a = "_onedal_estimator")
                     then Some (VOpaque
                            (onedal_PCA
                               (PCA_onedal_params n_components copy method)))
                     else dict (self s) !! a.
Proof.
  intros H12 H14 Hclass Hsolver Hmethod Hn Hcopy Hfit Hattrs.
  unfold PCAOnedal._onedal_fit.
  rewrite (onedal_params_run _ _ _ _ _ Hsolver Hmethod Hn Hcopy), Hfit.
  set (tag := onedal_PCA (PCA_onedal_params n_components copy method)).
  set (s2 := (setattr "_onedal_estimator" (VOpaque tag) s).2).
  assert (Hread : forall a,
    PCAOnedal.is_read_only (self s2) a = String.eqb a "n_features_").
  { intros a. unfold PCAOnedal.is_read_only. subst s2. cbn [self snd setattr
      set_dict class_dict].
    rewrite Hclass. unfold PCAOnedal.sklearn_PCA_properties.
    rewrite H12, H14. cbn [andb negb].
    destruct (String.eqb a "n_features_") eqn:Ha.
    - apply String.eqb_eq in Ha as ->. by rewrite lookup_insert_eq.
    - apply String.eqb_neq in Ha. by rewrite lookup_insert_ne. }
  destruct (save_each_stops (<[tag := attrs]> h) tag attrs
              (take 6 PCAOnedal.saved_attributes) "n_features_"
              (drop 7 PCAOnedal.saved_attributes) s2)
    as (s' & Hrun & _ & _ & Hout & Hinv & Hdict).
  - apply lookup_insert_eq.
  - apply lookup_insert_eq.
  - cbn [take PCAOnedal.saved_attributes]. rewrite !not_elem_of_cons.
    by repeat split; [..|apply not_elem_of_nil].
  - done.
  - cbn [take PCAOnedal.saved_attributes].
    repeat (constructor; [by rewrite Hread|]). constructor.
  - by rewrite Hread.
  - exists s'. split; [|split; [done|split; [done|]]].
    + unfold PCAOnedal._save_attributes.
      change PCAOnedal.saved_attributes
        with (take 6 PCAOnedal.saved_attributes
              ++ "n_features_" :: drop 7 PCAOnedal.saved_attributes)%list.
      unfold bind at 1.
      change (take 6 (take 6 PCAOnedal.saved_attributes ++ _))
        with (take 6 PCAOnedal.saved_attributes) in *.
      by rewrite Hrun.
    + intros a. rewrite Hdict. case_bool_decide; [done|].
      subst s2. cbn. case_bool_decide as Ha.
      * subst a. by rewrite lookup_insert_eq.
      * by rewrite lookup_insert_ne.
Qed.

(** [PCA(svd_solver="full")] under scikit-learn 1.2.2, fitted by the stub
    backend. *)
Lemma PCA_onedal_fit_read_only_n_features_witness :
  exists s',
    (PCAOnedal._onedal_fit stub_onedal_PCA stub_fit Examples.dense_40x4
       VNone VNone ∅ (Examples.start pca_full_1_2_2)).1
    = (Raises (AttributeError "n_features_"), s') /\
    stdout s' = [] /\ invoked s' = [] /\
    forall a, dict (self s') !! a
              = if bool_decide (a ∈ take 6 PCAOnedal.saved_attributes)
                then stub_attrs !! a
                else if bool_decide (a = "_onedal_estimator")
                     then Some (VOpaque
                            (stub_onedal_PCA
                               (PCA_onedal_params VNone (VBool true) "svd")))
                     else dict pca_full_1_2_2 !! a.
Proof.
  apply (PCA_onedal_fit_read_only_n_features stub_onedal_PCA stub_fit
           [1; 2; 2]%nat Examples.dense_40x4 VNone VNone ∅ (VStr "full")
           "svd" VNone (VBool true) stub_attrs
           (Examples.start pca_full_1_2_2)).
  - reflexivity.
  - reflexivity.
  - reflexivity.
  - reflexivity.
  - left. split; reflexivity.
  - reflexivity.
  - reflexivity.
  - reflexivity.
  - repeat (constructor; [eexists; reflexivity|]). constructor.
Defined.

(** X16.  A transform after an accelerated fit uses the estimator that fit
    built.  When the backend's fit returns and the class lets the eleven
    attributes be saved (as with scikit-learn before 1.2 and from 1.4 on),
    [_onedal_fit] returns, the host predicate reports
    "decomposition.PCA.transform" as supported on the estimator it leaves,
    and [_onedal_predict] answers what the backend predicts from the
    attributes its fit left, without changing [self]. *)
Theorem PCA_onedal_fit_then_predict
    (onedal_PCA : gmap string pyval -> string)
    (onedal_PCA_fit :
       gmap string pyval -> list pyval -> outcome unit * gmap string pyval)
    (onedal_PCA_predict : gmap string pyval -> list pyval -> outcome pyval)
    (X y queue X' queue' : pyval) (h : PCAOnedal.heap)
    (svd_solver : pyval) (method : string) (n_components copy : pyval)
    (attrs : gmap string pyval) (s : state) :
  lookup_attr (self s) "svd_solver" = Some svd_solver ->
  (svd_solver = VStr "full" /\ method = "svd" \/
   svd_solver = VStr "cov" /\ method = "cov") ->
  lookup_attr (self s) "n_components" = Some n_components ->
  lookup_attr (self s) "copy" = Some copy ->
  onedal_PCA_fit (PCA_onedal_params n_components copy method) [X; y; queue]
  = (Returns tt, attrs) ->
  Forall (fun name => is_Some (attrs !! name)) PCAOnedal.saved_attributes ->
  Forall (fun name => PCAOnedal.is_read_only (self s) name = false)
    PCAOnedal.saved_attributes ->
  exists USV s' h',
    PCAOnedal._onedal_fit onedal_PCA onedal_PCA_fit X y queue h s
    = (Returns USV, s', h') /\
    PCA._onedal_cpu_supported "decomposition.PCA.transform" [X'] s'
    = (Returns (Bare true), s') /\
    PCAOnedal._onedal_predict onedal_PCA_predict X' queue' h' s'
    = (onedal_PCA_predict attrs [X'; queue'], s').
Proof.
  intros Hsolver Hmethod Hn Hcopy Hfit Hattrs Hwrite.
  destruct (onedal_fit_run onedal_PCA onedal_PCA_fit X y queue h _ _ _ _ _ _
              Hsolver Hmethod Hn Hcopy Hfit Hattrs Hwrite)
    as (S & V & s' & _ & _ & Hrun & _ & _ & _ & _ & Hdict).
  pose proof (Hdict "_onedal_estimator") as Hest.
  rewrite (bool_decide_eq_false_2 _ (estimator_not_saved)) in Hest.
  rewrite bool_decide_eq_true_2 in Hest by done.
  eexists _, s', _. split; [exact Hrun|]. split.
  - by apply (transform_supported_with_estimator _ _ _ Hest).
  - unfold PCAOnedal._onedal_predict.
    erewrite bind_getattr; last first.
    { unfold lookup_attr. by rewrite Hest. }
    cbv beta iota.
    match goal with
    | |- match ?found with _ => _ end _ = _ =>
        replace found with (Some attrs)
          by (symmetry; apply lookup_insert_eq)
    end.
    done.
Qed.

(** [PCA(svd_solver="cov")] fitted by the stub backend, then asked to
    transform. *)
Lemma PCA_onedal_fit_then_predict_witness :
  exists USV s' h',
    PCAOnedal._onedal_fit stub_onedal_PCA stub_fit Examples.dense_40x4 VNone
      VNone ∅ (Examples.start (Examples.pca "cov"))
    = (Returns USV, s', h') /\
    PCA._onedal_cpu_supported "decomposition.PCA.transform"
      [Examples.dense_40x4] s'
    = (Returns (Bare true), s') /\
    PCAOnedal._onedal_predict stub_predict Examples.dense_40x4 VNone h' s'
    = (stub_predict stub_attrs [Examples.dense_40x4; VNone], s').
Proof.
  apply (PCA_onedal_fit_then_predict stub_onedal_PCA stub_fit stub_predict
           Examples.dense_40x4 VNone VNone Examples.dense_40x4 VNone ∅
           (VStr "cov") "cov" VNone (VBool true) stub_attrs
           (Examples.start (Examples.pca "cov"))).
  - reflexivity.
  - right. split; reflexivity.
  - reflexivity.
  - reflexivity.
  - reflexivity.
  - repeat (constructor; [eexists; reflexivity|]). constructor.
  - repeat (constructor; [reflexivity|]). constructor.
Defined.

(** X17.  [_onedal_fit] assigns [_onedal_estimator] before the backend
    fits: when that fit raises, the exception propagates with no fitted
    attribute saved, yet [self] holds the estimator, so the host predicate
    reports "decomposition.PCA.transform" as supported from then on. *)
Theorem PCA_onedal_fit_backend_raises
    (onedal_PCA : gmap string pyval -> string)
    (onedal_PCA_fit :
       gmap string pyval -> list pyval -> outcome unit * gmap string pyval)
    (X y queue X' : pyval) (h : PCAOnedal.heap)
    (svd_solver : pyval) (method : string) (n_components copy : pyval)
    (e : exn) (attrs : gmap string pyval) (s : state) :
  lookup_attr (self s) "svd_solver" = Some svd_solver ->
  (svd_solver = VStr "full" /\ method = "svd" \/
   svd_solver = VStr "cov" /\ method = "cov") ->
  lookup_attr (self s) "n_components" = Some n_components ->
  lookup_attr (self s) "copy" = Some copy ->
  onedal_PCA_fit (PCA_onedal_params n_components copy method) [X; y; queue]
  = (Raises e, attrs) ->
  exists s',
    (PCAOnedal._onedal_fit onedal_PCA onedal_PCA_fit X y queue h s).1
    = (Raises e, s') /\
    (forall a, a <> "_onedal_estimator" ->
               dict (self s') !! a = dict (self s) !! a) /\
    PCA._onedal_cpu_supported "decomposition.PCA.transform" [X'] s'
    = (Returns (Bare true), s').
Proof.
  intros Hsolver Hmethod Hn Hcopy Hfit.
  eexists. split; [|split].
  - by rewrite (onedal_fit_backend_raises _ _ _ _ _ _ _ _ _ _ _ _ _
                  Hsolver Hmethod Hn Hcopy Hfit).
  - intros a Ha. cbn. by rewrite lookup_insert_ne.
  - eapply transform_supported_with_estimator. cbn. apply lookup_insert_eq.
Qed.

(** [PCA(svd_solver="full")] on a backend whose fit fails. *)
Lemma PCA_onedal_fit_backend_raises_witness :
  exists s',
    (PCAOnedal._onedal_fit stub_onedal_PCA stub_fit_failing
       Examples.dense_40x4 VNone VNone ∅
       (Examples.start (Examples.pca "full"))).1
    = (Raises (RuntimeError "oneDAL: out of memory"), s') /\
    (forall a, a <> "_onedal_estimator" ->
               dict (self s') !! a
               = dict (self (Examples.start (Examples.pca "full"))) !! a) /\
    PCA._onedal_cpu_supported "decomposition.PCA.transform"
      [Examples.dense_40x4] s'
    = (Returns (Bare true), s').
Proof.
  apply (PCA_onedal_fit_backend_raises stub_onedal_PCA stub_fit_failing
           Examples.dense_40x4 VNone VNone Examples.dense_40x4 ∅
           (VStr "full") "svd" VNone (VBool true)
           (RuntimeError "oneDAL: out of memory") ∅
           (Examples.start (Examples.pca "full"))).
  - reflexivity.
  - left. split; reflexivity.
  - reflexivity.
  - reflexivity.
  - reflexivity.
Defined.
